(** * goccy-bigquery-node: the request-redirection shim and the example scripts

    A shallow embedding of the TypeScript sources

    - [override-auth-example/index.ts]  ([createCustomAuthRequest], [main]),
    - [override-auth-example/test.ts]   (the simplified [createCustomAuthRequest]),
    - [override-auth-example/simple-index.ts], [env-variable-example/index.ts],
      [env-variable-example/test.ts] and the minimal [testEmulator] script,

    together with the properties the specification states about them.

    Where the sources are. [src/unnamed/part_001] holds two files one
    after the other: the simplified script that the README lists as
    [override-auth-example/simple-index.ts] (lines 1-124) and
    [override-auth-example/index.ts] (lines 124-377); line numbers given
    for these two files are those of [part_001]. [src/unnamed/part_000]
    is the minimal test script.

    Conventions of the embedding.
    - A JavaScript string is a [string]; the URIs at hand are ASCII.
    - [async] functions are run to completion: a rejected promise is an
      exceptional outcome, a resolved promise a normal one.
    - What is thrown is an [Error] object.
    - Everything outside the repository (the network behind [fetch], the
      BigQuery client behind its methods, [JSON.parse], [JSON.stringify],
      the caller's callback) is a parameter of the model.
    - Console output does not influence control flow and is left out;
      what is evaluated to build its text is kept where it can throw
      (a property read on [null] or [undefined], the conversion of a
      value to a string in a template literal, [toFixed]). *)

From Stdlib Require Import String Ascii List ZArith Lia Bool.
From Stdlib Require Import DecimalString.
From stdpp Require Import base option gmap strings list pretty.

Local Open Scope string_scope.
Local Open Scope Z_scope.

#[local] Arguments String.append !s1 s2 : simpl nomatch.

(* ================================================================== *)
(** * JavaScript strings *)
(* ================================================================== *)

Module JsString.

(** [s.startsWith(p)] *)
Fixpoint startsWith (s p : string) {struct p} : bool :=
  match p with
  | EmptyString => true
  | String c p' =>
      match s with
      | EmptyString => false
      | String d s' => if Ascii.eqb c d then startsWith s' p' else false
      end
  end.

(** [s.includes(p)] *)
Fixpoint includes (s p : string) : bool :=
  if startsWith s p then true
  else match s with
       | EmptyString => false
       | String _ s' => includes s' p
       end.

(** [s.slice(n)] *)
Fixpoint drop (n : nat) (s : string) : string :=
  match n with
  | O => s
  | S n' => match s with
            | EmptyString => EmptyString
            | String _ s' => drop n' s'
            end
  end.

(** [s.slice(0, n)] *)
Fixpoint take (n : nat) (s : string) : string :=
  match n with
  | O => EmptyString
  | S n' => match s with
            | EmptyString => EmptyString
            | String c s' => String c (take n' s')
            end
  end.

(** The result of a successful search: the text before the match, the
    match and the text after it. *)
Record found := Found { before : string; matched : string; after : string }.

Definition shift (c : ascii) (f : found) : found :=
  Found (String c (before f)) (matched f) (after f).

(** First occurrence of the literal [p] in [s] (what
    [String.prototype.replace] looks for when its pattern is a string). *)
Fixpoint indexOf (s p : string) : option found :=
  if startsWith s p
  then Some (Found "" p (drop (String.length p) s))
  else match s with
       | EmptyString => None
       | String c s' => shift c <$> indexOf s' p
       end.

(** ECMAScript [GetSubstitution] for a pattern without capture groups:
    [$$] is a dollar, [$&] the match, [$`] the text before it, [$'] the
    text after it; any other dollar is literal (there is no group for
    [$1] ... [$99] or [$<name>] to refer to). *)
Fixpoint getSubstitution (f : found) (replacement : string) : string :=
  match replacement with
  | EmptyString => EmptyString
  | String c rest =>
      if Ascii.eqb c "$" then
        match rest with
        | String d rest' =>
            if Ascii.eqb d "$" then String "$" (getSubstitution f rest')
            else if Ascii.eqb d "&" then matched f +:+ getSubstitution f rest'
            else if Ascii.eqb d "`" then before f +:+ getSubstitution f rest'
            else if Ascii.eqb d "'" then after f +:+ getSubstitution f rest'
            else String c (getSubstitution f rest)
        | EmptyString => String c EmptyString
        end
      else String c (getSubstitution f rest)
  end.

(** Replace the match found by [search], or return [s] unchanged. *)
Definition replaceWith (search : string -> option found)
           (s replacement : string) : string :=
  match search s with
  | Some f => before f +:+ getSubstitution f replacement +:+ after f
  | None => s
  end.

(** [s.replace(p, replacement)] with a string pattern [p]. *)
Definition replace (s p replacement : string) : string :=
  replaceWith (fun s => indexOf s p) s replacement.

End JsString.

(* ================================================================== *)
(** * The regular expressions of the URI rewrite *)
(* ================================================================== *)

Module Regex.
Import JsString.

(** The two patterns of the source are sequences of literals and of one
    greedy negated class, [[^c]+]. *)
Inductive atom :=
| Lit (s : string)
| PlusNot (c : ascii).

Definition regex := list atom.

(** Number of characters a literal consumes at the head of [s]. *)
Definition matchLit (p s : string) : option nat :=
  if startsWith s p then Some (String.length p) else None.

(** Backtracking matcher, continuation style: [k] matches what follows
    the atom and answers how many characters it consumed. The greedy
    star first tries to take one more character and falls back to the
    continuation only when that fails. *)
Fixpoint starNot (c : ascii) (k : string -> option nat) (s : string)
  : option nat :=
  match s with
  | String d s' =>
      if Ascii.eqb d c then k s
      else match starNot c k s' with
           | Some n => Some (S n)
           | None => k s
           end
  | EmptyString => k s
  end.

Definition plusNot (c : ascii) (k : string -> option nat) (s : string)
  : option nat :=
  match s with
  | String d s' => if Ascii.eqb d c then None else S <$> starNot c k s'
  | EmptyString => None
  end.

(** Length of the match of [r] that starts at the head of [s]. *)
Fixpoint matchHere (r : regex) (s : string) : option nat :=
  match r with
  | [] => Some O
  | Lit p :: r' =>
      match matchLit p s with
      | Some n => Nat.add n <$> matchHere r' (drop n s)
      | None => None
      end
  | PlusNot c :: r' => plusNot c (matchHere r') s
  end.

(** Leftmost match of [r] in [s] ([RegExp.prototype.exec], no flags). *)
Fixpoint exec (r : regex) (s : string) : option found :=
  match matchHere r s with
  | Some n => Some (Found "" (take n s) (drop n s))
  | None =>
      match s with
      | EmptyString => None
      | String c s' => shift c <$> exec r s'
      end
  end.

(** [s.replace(r, replacement)] for a regular expression without the
    [g] flag: only the first match is replaced. *)
Definition replace (s : string) (r : regex) (replacement : string) : string :=
  replaceWith (exec r) s replacement.

End Regex.

(** [/https:\/\/[^\/]+\.googleapis\.com/] *)
Definition re_https_googleapis : Regex.regex :=
  [Regex.Lit "https://"; Regex.PlusNot "/"; Regex.Lit ".googleapis.com"].

(** [/http:\/\/[^\/]+\.googleapis\.com/] *)
Definition re_http_googleapis : Regex.regex :=
  [Regex.Lit "http://"; Regex.PlusNot "/"; Regex.Lit ".googleapis.com"].

(** Lines 169-171 of [index.ts] (32-34 of [test.ts]): the two chained
    [replace] calls. *)
Definition replaceGoogleApis (emulatorHost uri : string) : string :=
  Regex.replace
    (Regex.replace uri re_https_googleapis emulatorHost)
    re_http_googleapis emulatorHost.

(** Lines 174-176 of [index.ts] (37-39 of [test.ts]): the loopback
    downgrade. *)
Definition downgradeLoopback (uri : string) : string :=
  if JsString.startsWith uri "https://127.0.0.1"
     || JsString.startsWith uri "https://localhost"
  then JsString.replace uri "https://" "http://"
  else uri.

(** The whole rewrite applied to a present, non-empty [reqOpts.uri]. *)
Definition rewriteUri (emulatorHost uri : string) : string :=
  downgradeLoopback (replaceGoogleApis emulatorHost uri).

(* ================================================================== *)
(** * The shape of a cloud-API uri *)
(* ================================================================== *)

(** Vocabulary for statements about uris; none of it is executed by the
    program. *)
Module UriShape.

(** All characters of [s] satisfy [p]. *)
Fixpoint allChars (p : ascii -> bool) (s : string) : bool :=
  match s with
  | EmptyString => true
  | String c s' => p c && allChars p s'
  end.

Definition slashFree : string -> bool :=
  allChars (fun c => negb (Ascii.eqb c "/")).

Definition dollarFree : string -> bool :=
  allChars (fun c => negb (Ascii.eqb c "$")).

(** What may follow the host: nothing, or a path (and query) that
    begins with a slash. *)
Definition pathLike (rest : string) : bool :=
  match rest with
  | EmptyString => true
  | String c _ => Ascii.eqb c "/"
  end.

Definition scheme (secure : bool) : string :=
  if secure then "https://" else "http://".

(** [scheme://<host>.googleapis.com<rest>] *)
Definition cloudUri (secure : bool) (host rest : string) : string :=
  scheme secure +:+ host +:+ ".googleapis.com" +:+ rest.

(** A base URL with one of the two schemes. *)
Definition hasScheme (u : string) : bool :=
  JsString.startsWith u "http://" || JsString.startsWith u "https://".

(** The two spellings of a loopback host that the program tests for. *)
Definition loopbackPrefixes : list string := ["127.0.0.1"; "localhost"].

(** The program's test, for either scheme: the uri begins with
    [scheme://127.0.0.1] or [scheme://localhost]. This is a test on
    the first characters of the uri, not on its host: it does not
    hold of other loopback addresses ([::1], [127.0.0.2], [LOCALHOST])
    and it holds of [localhost.example.com]. *)
Definition loopbackPrefixed (u : string) : bool :=
  existsb (fun h => JsString.startsWith u (scheme true +:+ h)
                    || JsString.startsWith u (scheme false +:+ h))
          loopbackPrefixes.

End UriShape.

(* ================================================================== *)
(** * Values, errors and completions *)
(* ================================================================== *)

(** The JavaScript values that occur in request bodies, response bodies
    and query rows. Numbers are represented by integers. *)
#[local] Set Warnings "-register-all".

Inductive js_value :=
| JUndefined
| JNull
| JBool (b : bool)
| JNumber (n : Z)
| JString (s : string)
| JArray (items : list js_value)
| JObject (fields : list (string * js_value)).

(** ToBoolean *)
Definition truthy (v : js_value) : bool :=
  match v with
  | JUndefined | JNull => false
  | JBool b => b
  | JNumber n => negb (n =? 0)
  | JString s => negb (String.eqb s "")
  | JArray _ | JObject _ => true
  end.

(** An optional string property used as a condition or as the left side
    of [||]: absent and empty are both falsy. *)
Definition truthyString (s : option string) : bool :=
  match s with
  | Some s => negb (String.eqb s "")
  | None => false
  end.

(** [a || b] on an optional string *)
Definition orElse (a : option string) (b : string) : string :=
  match a with
  | Some s => if String.eqb s "" then b else s
  | None => b
  end.

(** The normalised result handed back to the SDK ([index.ts] 209-213,
    [test.ts] 67-71). *)
Module Result.
Record t := mk {
  statusCode : Z;
  body : js_value;
  headers : gmap string string;
}.
End Result.

(** An [Error] object with the properties the program reads or writes. *)
Module JsError.
Record t := mk {
  message : option string;
  code : js_value;
  response : option Result.t;
}.

(** [new Error(msg)] *)
Definition new (msg : string) : t := mk (Some msg) JUndefined None.
End JsError.

(** How a call ends: it returns or it throws. For an [async] function
    these are the resolved and the rejected promise. *)
Inductive completion (A : Type) :=
| Return (a : A)
| Throw (e : JsError.t).
Arguments Return {A} a.
Arguments Throw {A} e.

(* ================================================================== *)
(** * The request descriptor and the HTTP client *)
(* ================================================================== *)

(** The arguments of one callback invocation. [callback(err)] leaves the
    second and third argument undefined. *)
Module CallbackArgs.
Record t := mk {
  error : option JsError.t;          (* [None] is [null] *)
  body : js_value;
  response : option Result.t;        (* [None] is [undefined] *)
}.
End CallbackArgs.

(** The caller's completion callback: it returns or throws. *)
Definition Callback := CallbackArgs.t -> completion unit.

(** [interface RequestOptions] *)
Module RequestOptions.
Record t := mk {
  uri : option string;
  method : option string;
  headers : option (gmap string string);
  body : js_value;                   (* [JUndefined] when absent *)
  callback : option Callback;
}.

Definition set_uri (u : string) (r : t) : t :=
  mk (Some u) (method r) (headers r) (body r) (callback r).
End RequestOptions.

(** node-fetch's [RequestInit], as far as it is filled in. *)
Module RequestInit.
Record t := mk {
  method : string;
  headers : gmap string string;
  body : option string;
}.

(** [o.body = b] *)
Definition set_body (b : option string) (o : t) : t :=
  mk (method o) (headers o) b.
End RequestInit.

(** node-fetch's [Response], as far as it is read. Reading the body can
    fail after the status line has arrived. *)
Module Response.
Record t := mk {
  status : Z;
  headers : list (string * string);
  text : completion string;
}.

(** [response.ok]: the status is in the range 200-299. *)
Definition ok (r : t) : bool := (200 <=? status r) && (status r <=? 299).
End Response.

(** The network behind [fetch]: the outcome of the [n]-th dispatch of
    the call (counted from 0), given the uri and the options. *)
Definition Network := nat -> option string -> RequestInit.t -> completion Response.t.

(** [{ ...target, ...source }]: the own properties of [source] are
    copied over those of [target]. *)
Definition spread (target source : gmap string string) : gmap string string :=
  source ∪ target.

(** [Object.fromEntries(entries)]: later entries overwrite earlier ones. *)
Definition fromEntries (entries : list (string * string)) : gmap string string :=
  fold_left (fun m kv => <[kv.1 := kv.2]> m) entries ∅.

(* ================================================================== *)
(** * The effects of one call *)
(* ================================================================== *)

(** What a call of the request function can touch: the caller's
    descriptor (mutated in place), the HTTP client and the callback. The
    last two are recorded as logs: [dispatched] holds the calls of
    [fetch], with the uri and the options each was given ([fetch]
    itself rejects a uri it cannot use, an undefined one for
    instance: that is an outcome of the [Network]); [invoked] holds
    the arguments of the invocations of the callback. *)
Record World := mkWorld {
  reqOpts : RequestOptions.t;
  dispatched : list (option string * RequestInit.t);
  invoked : list CallbackArgs.t;
}.

Definition Js (A : Type) : Type := World -> completion A * World.

Definition ret {A} (a : A) : Js A := fun w => (Return a, w).

Definition throw {A} (e : JsError.t) : Js A := fun w => (Throw e, w).

Definition bind {A B} (m : Js A) (k : A -> Js B) : Js B :=
  fun w => match m w with
           | (Return a, w') => k a w'
           | (Throw e, w') => (Throw e, w')
           end.

(** [try { body } catch (error) { handler }] *)
Definition tryCatch {A} (body : Js A) (handler : JsError.t -> Js A) : Js A :=
  fun w => match body w with
           | (Return a, w') => (Return a, w')
           | (Throw e, w') => handler e w'
           end.

Declare Scope js_scope.
Delimit Scope js_scope with js.
Notation "x <- m ;; k" := (bind m (fun x => k))
  (at level 100, m at next level, right associativity) : js_scope.
Notation "m ;; k" := (bind m (fun _ => k))
  (at level 100, right associativity) : js_scope.

(** Await a promise whose outcome is known. *)
Definition await {A} (c : completion A) : Js A := fun w => (c, w).

Definition readReqOpts : Js RequestOptions.t := fun w => (Return (reqOpts w), w).

(** [reqOpts.uri = u] *)
Definition assignUri (u : string) : Js unit :=
  fun w => (Return tt,
            mkWorld (RequestOptions.set_uri u (reqOpts w)) (dispatched w) (invoked w)).

(** [await fetch(uri, options)] *)
Definition fetch (net : Network) (uri : option string) (options : RequestInit.t)
  : Js Response.t :=
  fun w => (net (length (dispatched w)) uri options,
            mkWorld (reqOpts w) (dispatched w ++ [(uri, options)]) (invoked w)).

(** [callback(...args)] *)
Definition invoke (callback : Callback) (args : CallbackArgs.t) : Js unit :=
  fun w => (callback args,
            mkWorld (reqOpts w) (dispatched w) (invoked w ++ [args])).

Definition when (b : bool) (m : Js unit) : Js unit :=
  if b then m else ret tt.

(* ================================================================== *)
(** * createCustomAuthRequest *)
(* ================================================================== *)

Section CreateCustomAuthRequest.
Local Open Scope js_scope.

(** [JSON.parse] ([None]: it throws a [SyntaxError]) and
    [JSON.stringify]. The body is typed [any]: [JSON.stringify]
    throws on what it cannot serialise (a cyclic structure, a
    [BigInt], a [toJSON] that throws) and returns [undefined] ([None])
    for what has no JSON text (a function, a symbol). *)
Variable JSON_parse : string -> option js_value.
Variable JSON_stringify : js_value -> completion (option string).

Variable emulatorHost : string.
Variable net : Network.

(** Lines 167-177 of [index.ts], 27-42 of [test.ts]. *)
Definition redirect : Js unit :=
  r <- readReqOpts ;;
  match RequestOptions.uri r with
  | Some uri =>
      when (truthyString (Some uri))
        (assignUri (replaceGoogleApis emulatorHost uri) ;;
         r <- readReqOpts ;;
         match RequestOptions.uri r with
         | Some uri =>
             when (JsString.startsWith uri "https://127.0.0.1"
                   || JsString.startsWith uri "https://localhost")
                  (assignUri (JsString.replace uri "https://" "http://"))
         | None => ret tt
         end)
  | None => ret tt
  end.

(** Lines 184-194 of [index.ts], 44-54 of [test.ts]: the options are
    built, and the body is serialised when there is one; nothing has
    been dispatched when the serialisation throws. *)
Definition prepareFetchOptions (r : RequestOptions.t) : completion RequestInit.t :=
  let fetchOptions :=
    RequestInit.mk
      (orElse (RequestOptions.method r) "GET")
      (spread {[ "Content-Type" := "application/json" ]}
              (default ∅ (RequestOptions.headers r)))
      None in
  if truthy (RequestOptions.body r)
  then match JSON_stringify (RequestOptions.body r) with
       | Return text => Return (RequestInit.set_body text fetchOptions)
       | Throw e => Throw e
       end
  else Return fetchOptions.

(** Lines 202-206 of [index.ts], 61-65 of [test.ts]:
    [try { JSON.parse(text) } catch (e) { text }]. *)
Definition parseBody (responseText : string) : js_value :=
  match JSON_parse responseText with
  | Some v => v
  | None => JString responseText
  end.

(** Lines 220-221 of [index.ts], 77-78 of [test.ts]. *)
Definition statusError (status : Z) (result : Result.t) : JsError.t :=
  JsError.mk (Some ("Request failed with status " +:+ pretty status))
             JUndefined (Some result).

(** Lines 184-226 of [index.ts] and 44-83 of [test.ts], which are the
    same statements: dispatch, normalise, notify the callback, return. *)
Definition exchange : Js Result.t :=
  r <- readReqOpts ;;
  fetchOptions <- await (prepareFetchOptions r) ;;
  r <- readReqOpts ;;
  response <- fetch net (RequestOptions.uri r) fetchOptions ;;
  responseText <- await (Response.text response) ;;
  let responseBody := parseBody responseText in
  let result :=
    Result.mk (Response.status response) responseBody
              (fromEntries (Response.headers response)) in
  r <- readReqOpts ;;
  match RequestOptions.callback r with
  | Some callback =>
      if Response.ok response
      then invoke callback (CallbackArgs.mk None responseBody (Some result))
      else invoke callback
             (CallbackArgs.mk
                (Some (statusError (Response.status response) result))
                JNull (Some result))
  | None => ret tt
  end ;;
  ret result.

(** Lines 228-235 of [index.ts]: the [catch] block. *)
Definition relay (error : JsError.t) : Js Result.t :=
  r <- readReqOpts ;;
  match RequestOptions.callback r with
  | Some callback => invoke callback (CallbackArgs.mk (Some error) JUndefined None)
  | None => ret tt
  end ;;
  throw error.

(** [makeAuthenticatedRequest] of [override-auth-example/index.ts]. *)
Definition makeAuthenticatedRequest_index : Js Result.t :=
  redirect ;;
  tryCatch exchange relay.

(** [makeAuthenticatedRequest] of [override-auth-example/test.ts]: the
    same without the [try]/[catch]. *)
Definition makeAuthenticatedRequest_test : Js Result.t :=
  redirect ;;
  exchange.

End CreateCustomAuthRequest.

(** The two copies of [createCustomAuthRequest]. *)
Inductive variant := IndexTs | TestTs.

Definition createCustomAuthRequest
           (JSON_parse : string -> option js_value)
           (JSON_stringify : js_value -> completion (option string))
           (v : variant) (emulatorHost : string) (net : Network) : Js Result.t :=
  match v with
  | IndexTs => makeAuthenticatedRequest_index JSON_parse JSON_stringify emulatorHost net
  | TestTs => makeAuthenticatedRequest_test JSON_parse JSON_stringify emulatorHost net
  end.

(** A call on the descriptor [r]: the promise's outcome and the world
    the call leaves behind. *)
Definition call {A} (m : Js A) (r : RequestOptions.t) : completion A * World :=
  m (mkWorld r [] []).

(* ================================================================== *)
(** * The BigQuery client library, seen from the scripts *)
(* ================================================================== *)

Module Sdk.

(** The [authClient] option of the [BigQuery] constructor. *)
Inductive authClient :=
| NoAuthClient
    (* the option is not given *)
| StubAuthClient
    (* the literal whose four methods resolve to fixed values *)
| OverrideAuthClient (emulatorHost : string).
    (* [request] is [createCustomAuthRequest(emulatorHost)], which also
       replaces the client's [makeAuthenticatedRequest] *)

(** [new BigQuery({ projectId, apiEndpoint, authClient })] *)
Record BigQuery := mkBigQuery {
  projectId : string;
  apiEndpoint : option string;
  auth : authClient;
}.

Record Dataset := mkDataset { dataset_id : string }.
Record Table := mkTable { table_dataset : Dataset; table_id : string }.
Record Job := mkJob { job_id : string }.

(** [bigquery.dataset(id)] and [dataset.table(id)]: references, built
    without a request. *)
Definition dataset (bigquery : BigQuery) (id : string) : Dataset := mkDataset id.
Definition table (d : Dataset) (id : string) : Table := mkTable d id.

(** One column of a schema: name, type, mode. *)
Definition column : Type := string * string * string.

(** The calls that reach the service. *)
Inductive request :=
| CreateDataset (bigquery : BigQuery) (datasetId : string)
| CreateTable (d : Dataset) (tableId : string) (schema : list column)
| Insert (t : Table) (rows : list js_value)
| CreateQueryJob (bigquery : BigQuery) (query : string)
| GetQueryResults (j : Job).

Definition creates (r : request) : bool :=
  match r with
  | CreateDataset _ _ | CreateTable _ _ _ => true
  | _ => false
  end.

(** What the library can observe when it is called. *)
Record context := mkContext {
  environment : gmap string string;       (* [process.env] *)
  earlier : list request;
}.

(** The library and the service behind it. A promise that rejects is
    a [Throw]. *)
Record backend := mkBackend {
  createDataset : context -> BigQuery -> string -> completion Dataset;
  createTable : context -> Dataset -> string -> list column -> completion Table;
  insert : context -> Table -> list js_value -> completion unit;
  createQueryJob : context -> BigQuery -> string -> completion Job;
  getQueryResults : context -> Job -> completion (list js_value);
}.

End Sdk.

(* ================================================================== *)
(** * The process a script runs in *)
(* ================================================================== *)

(** One client call: the environment it was issued under, the call, and
    the error it failed with, if it failed. *)
Record Entry := mkEntry {
  env_at : gmap string string;
  request : Sdk.request;
  failure : option JsError.t;
}.

Record Process := mkProcess {
  env : gmap string string;                 (* [process.env] *)
  journal : list Entry;
}.

(** How a script ends: normally, by an uncaught exception, or in
    [process.exit(code)]. *)
Inductive ending (A : Type) :=
| Done (a : A)
| Failed (e : JsError.t)
| Exited (code : Z).
Arguments Done {A} a.
Arguments Failed {A} e.
Arguments Exited {A} code.

Module Script.

Definition t (A : Type) : Type := Process -> ending A * Process.

Definition ret {A} (a : A) : t A := fun p => (Done a, p).

Definition throw {A} (e : JsError.t) : t A := fun p => (Failed e, p).

(** [process.exit(code)]: nothing runs after it. *)
Definition exit {A} (code : Z) : t A := fun p => (Exited code, p).

Definition bind {A B} (m : t A) (k : A -> t B) : t B :=
  fun p => match m p with
           | (Done a, p') => k a p'
           | (Failed e, p') => (Failed e, p')
           | (Exited c, p') => (Exited c, p')
           end.

(** [try { body } catch (err) { handler }], and [promise.catch(handler)]. *)
Definition tryCatch {A} (body : t A) (handler : JsError.t -> t A) : t A :=
  fun p => match body p with
           | (Failed e, p') => handler e p'
           | other => other
           end.

(** The value of an expression that may throw. *)
Definition eval {A} (c : completion A) : t A :=
  fun p => match c with
           | Return a => (Done a, p)
           | Throw e => (Failed e, p)
           end.

(** [process.env[name]] *)
Definition getenv (name : string) : t (option string) :=
  fun p => (Done (env p !! name), p).

(** [process.env[name] = value] *)
Definition setenv (name value : string) : t unit :=
  fun p => (Done tt, mkProcess (<[name := value]> (env p)) (journal p)).

(** [delete process.env[name]] *)
Definition unsetenv (name : string) : t unit :=
  fun p => (Done tt, mkProcess (delete name (env p)) (journal p)).

(** [dotenv.config()]: the variables of the [.env] file are added,
    those already set keep their value. *)
Definition dotenv_config (file : gmap string string) : t unit :=
  fun p => (Done tt, mkProcess (env p ∪ file) (journal p)).

(** What the client library observes in the process [p]. *)
Definition context (p : Process) : Sdk.context :=
  Sdk.mkContext (env p) (request <$> journal p).

(** The call [r] is entered in the journal. *)
Definition note (r : Sdk.request) (failure : option JsError.t) (p : Process)
  : Process :=
  mkProcess (env p) (journal p ++ [mkEntry (env p) r failure]).

(** [await] a call of the client library. *)
Definition perform {A} (f : Sdk.context -> completion A) (r : Sdk.request) : t A :=
  fun p =>
    match f (context p) with
    | Return a => (Done a, note r None p)
    | Throw e => (Failed e, note r (Some e) p)
    end.

End Script.

Declare Scope script_scope.
Delimit Scope script_scope with script.
Notation "x <- m ;; k" := (Script.bind m (fun x => k))
  (at level 100, m at next level, right associativity) : script_scope.
Notation "m ;; k" := (Script.bind m (fun _ => k))
  (at level 100, right associativity) : script_scope.

(** What becomes of the promise of the entry function at top level. *)
Inductive toplevel :=
| CatchConsoleError    (* [main().catch(console.error)] *)
| Floating.            (* [testConnection()]: a rejection is unhandled *)

(** The exit code of the node process (node 18, which the README
    requires, ends a process with an unhandled rejection with code 1). *)
Definition exitCode {A} (t : toplevel) (e : ending A) : Z :=
  match e with
  | Exited code => code
  | Done _ => 0
  | Failed _ => match t with CatchConsoleError => 0 | Floating => 1 end
  end.

(* ================================================================== *)
(** * Expressions the scripts evaluate on query rows *)
(* ================================================================== *)

Definition typeError (msg : string) : JsError.t := JsError.new msg.

Fixpoint field (name : string) (fields : list (string * js_value)) : js_value :=
  match fields with
  | [] => JUndefined
  | (k, v) :: rest => if String.eqb k name then v else field name rest
  end.

(** [v.name], for the property names the scripts read (none of them is
    a built-in property of a string, number, boolean or array). *)
Definition getProp (v : js_value) (name : string) : completion js_value :=
  match v with
  | JUndefined | JNull => Throw (typeError "Cannot read properties of undefined")
  | JObject fields => Return (field name fields)
  | _ => Return JUndefined
  end.

(** [rows[0]] *)
Definition first (rows : list js_value) : js_value :=
  match rows with
  | [] => JUndefined
  | r :: _ => r
  end.

(** [v.toFixed(1)], evaluated for its exception only. *)
Definition toFixed (v : js_value) : completion unit :=
  match v with
  | JNumber _ => Return tt
  | JUndefined | JNull => Throw (typeError "Cannot read properties of undefined")
  | _ => Throw (typeError "toFixed is not a function")
  end.

(** [fields] has an own property [name]. *)
Definition hasOwn (name : string) (fields : list (string * js_value)) : bool :=
  existsb (fun kv => String.eqb kv.1 name) fields.

(** [ToString(v)], the conversion a template literal applies to each
    [${...}], evaluated for its exception only. No value of
    [js_value] is callable, so an object with an own [toString]
    property has no method to convert it: [toString] is not callable,
    and [valueOf] (own and not callable, or inherited and returning
    the object) gives no primitive. Every other object inherits
    [Object.prototype.toString]. An array is joined: its elements are
    converted in turn, [null] and [undefined] to the empty string. *)
Fixpoint ToString (v : js_value) : completion unit :=
  match v with
  | JObject fields =>
      if hasOwn "toString" fields
      then Throw (typeError "Cannot convert object to primitive value")
      else Return tt
  | JArray items =>
      (fix join (l : list js_value) : completion unit :=
         match l with
         | [] => Return tt
         | x :: rest =>
             match match x with
                   | JUndefined | JNull => Return tt
                   | _ => ToString x
                   end with
             | Return _ => join rest
             | Throw e => Throw e
             end
         end) items
  | _ => Return tt
  end.

(** [a || b] *)
Definition orValue (a b : js_value) : js_value := if truthy a then a else b.

(** [rows.forEach(f)] *)
Fixpoint forEach {A} (f : A -> Script.t unit) (l : list A) : Script.t unit :=
  match l with
  | [] => Script.ret tt
  | x :: rest => Script.bind (f x) (fun _ => forEach f rest)
  end.

(** A double quote, and a text between double quotes. *)
Definition dq : string := String (Ascii.ascii_of_nat 34) EmptyString.
Definition quoted (s : string) : string := dq +:+ s +:+ dq.

(* ================================================================== *)
(** * Creating a dataset or a table that may exist already *)
(* ================================================================== *)

Section Scripts.
Local Open Scope script_scope.

Variable sdk : Sdk.backend.

(** [err.code === 409] *)
Definition isConflict (err : JsError.t) : bool :=
  match JsError.code err with
  | JNumber 409 => true
  | _ => false
  end.

(** [err.message?.includes('already')] *)
Definition saysAlready (err : JsError.t) : bool :=
  match JsError.message err with
  | Some m => JsString.includes m "already"
  | None => false
  end.

(** [promise.catch((err) => { if (err.code === 409) { return [existing]; }
    throw err; })]: [env-variable-example/index.ts] 53-59 and 70-76,
    [override-auth-example/index.ts] 265-271 and 286-292. *)
Definition catchConflict {A} (promise : Script.t A) (existing : A) : Script.t A :=
  Script.tryCatch promise
    (fun err => if isConflict err then Script.ret existing else Script.throw err).

(** [try { x = await promise } catch (err) { if (err.code === 409 ||
    err.message?.includes('already')) { x = existing } else { throw err } }]:
    [override-auth-example/simple-index.ts] 53-62 and 75-84. *)
Definition tryExisting {A} (promise : Script.t A) (existing : A) : Script.t A :=
  Script.tryCatch promise
    (fun err => if isConflict err || saysAlready err
                then Script.ret existing else Script.throw err).

Definition createDataset (bigquery : Sdk.BigQuery) (datasetId : string)
  : Script.t Sdk.Dataset :=
  Script.perform (fun ctx => Sdk.createDataset sdk ctx bigquery datasetId)
                 (Sdk.CreateDataset bigquery datasetId).

Definition createTable (d : Sdk.Dataset) (tableId : string)
           (schema : list Sdk.column) : Script.t Sdk.Table :=
  Script.perform (fun ctx => Sdk.createTable sdk ctx d tableId schema)
                 (Sdk.CreateTable d tableId schema).

Definition insert (t : Sdk.Table) (rows : list js_value) : Script.t unit :=
  Script.perform (fun ctx => Sdk.insert sdk ctx t rows) (Sdk.Insert t rows).

Definition createQueryJob (bigquery : Sdk.BigQuery) (query : string)
  : Script.t Sdk.Job :=
  Script.perform (fun ctx => Sdk.createQueryJob sdk ctx bigquery query)
                 (Sdk.CreateQueryJob bigquery query).

Definition getQueryResults (j : Sdk.Job) : Script.t (list js_value) :=
  Script.perform (fun ctx => Sdk.getQueryResults sdk ctx j) (Sdk.GetQueryResults j).

(** The three [delete process.env...] statements. *)
Definition clearCredentials : Script.t unit :=
  Script.unsetenv "GOOGLE_APPLICATION_CREDENTIALS" ;;
  Script.unsetenv "GOOGLE_CLOUD_PROJECT" ;;
  Script.unsetenv "GCLOUD_PROJECT".

(** [process.env.BIGQUERY_EMULATOR_HOST =
     process.env.BIGQUERY_EMULATOR_HOST || 'http://127.0.0.1:9050'] *)
Definition defaultEmulatorHost : Script.t unit :=
  h <- Script.getenv "BIGQUERY_EMULATOR_HOST" ;;
  Script.setenv "BIGQUERY_EMULATOR_HOST" (orElse h "http://127.0.0.1:9050").

(** [try { body } catch (error) { ...; process.exit(1); }] *)
Definition orExit1 (body : Script.t unit) : Script.t unit :=
  Script.tryCatch body (fun _ => Script.exit 1).

(** The client every script of the environment-variable approach
    builds. *)
Definition stubClient : Sdk.BigQuery :=
  Sdk.mkBigQuery "test-project" (Some "localhost:9050") Sdk.StubAuthClient.

(** The client of the override approach ([test.ts] 91-102, [index.ts]
    245-258). *)
Definition overrideClient (EMULATOR_HOST : string) : Sdk.BigQuery :=
  Sdk.mkBigQuery "test-project"
    (Some (JsString.replace (JsString.replace EMULATOR_HOST "http://" "")
                            "https://" ""))
    (Sdk.OverrideAuthClient EMULATOR_HOST).

End Scripts.

(* ================================================================== *)
(** * The six scripts *)
(* ================================================================== *)

Section Programs.
Local Open Scope script_scope.

Variable sdk : Sdk.backend.

(** The content of the [.env] file that [dotenv.config()] loads. *)
Variable dotenvFile : gmap string string.

(** [new Date().toISOString()] at its [n]-th evaluation. *)
Variable clock : nat -> string.

(** [JSON.stringify], used for the [metadata] column. *)
Variable JSON_stringify : js_value -> string.

Definition obj (fields : list (string * js_value)) : js_value := JObject fields.

(** ** [env-variable-example/index.ts] *)

Definition envIndex_schema : list Sdk.column :=
  [("id", "INTEGER", "REQUIRED");
   ("name", "STRING", "REQUIRED");
   ("created_at", "TIMESTAMP", "REQUIRED")].

Definition envIndex_rows : list js_value :=
  [obj [("id", JNumber 1); ("name", JString "Alice"); ("created_at", JString (clock 0))];
   obj [("id", JNumber 2); ("name", JString "Bob"); ("created_at", JString (clock 1))];
   obj [("id", JNumber 3); ("name", JString "Charlie"); ("created_at", JString (clock 2))]].

Definition envIndex_query (dataset : Sdk.Dataset) (tableId : string) : string :=
  "
      SELECT id, name, created_at
      FROM `" +:+ Sdk.dataset_id dataset +:+ "." +:+ tableId +:+ "`
      ORDER BY id
    ".

Definition envIndex_aggregationQuery (dataset : Sdk.Dataset) (tableId : string)
  : string :=
  "
      SELECT COUNT(*) as total, MAX(id) as max_id
      FROM `" +:+ Sdk.dataset_id dataset +:+ "." +:+ tableId +:+ "`
    ".

(** Lines 49-117: the body of the [try] block of [main]. Each
    [${...}] of the template literals of lines 101 and 115 reads its
    value and converts it to a string before the next one is read. *)
Definition envIndex_sequence (bigquery : Sdk.BigQuery) : Script.t unit :=
  let datasetId := "test_dataset" in
  dataset <- catchConflict (createDataset sdk bigquery datasetId)
                           (Sdk.dataset bigquery datasetId) ;;
  let tableId := "test_table" in
  table <- catchConflict (createTable sdk dataset tableId envIndex_schema)
                         (Sdk.table dataset tableId) ;;
  insert sdk table envIndex_rows ;;
  job <- createQueryJob sdk bigquery (envIndex_query dataset tableId) ;;
  queryRows <- getQueryResults sdk job ;;
  forEach (fun row =>
             id <- Script.eval (getProp row "id") ;;
             Script.eval (ToString id) ;;
             name <- Script.eval (getProp row "name") ;;
             Script.eval (ToString name) ;;
             created_at <- Script.eval (getProp row "created_at") ;;
             value <- Script.eval (getProp created_at "value") ;;
             Script.eval (ToString value) ;;
             Script.ret tt)
          queryRows ;;
  aggJob <- createQueryJob sdk bigquery (envIndex_aggregationQuery dataset tableId) ;;
  aggRows <- getQueryResults sdk aggJob ;;
  total <- Script.eval (getProp (first aggRows) "total") ;;
  Script.eval (ToString total) ;;
  max_id <- Script.eval (getProp (first aggRows) "max_id") ;;
  Script.eval (ToString max_id) ;;
  Script.ret tt.

(** Lines 28-125: [main]. *)
Definition envIndex_main : Script.t unit :=
  orExit1 (envIndex_sequence stubClient).

(** The module: lines 6-15, then [main().catch(console.error)]. *)
Definition envIndex : Script.t unit :=
  Script.dotenv_config dotenvFile ;;
  clearCredentials ;;
  defaultEmulatorHost ;;
  envIndex_main.

(** ** [env-variable-example/test.ts] *)

Definition noResults : JsError.t := JsError.new "No results returned from test query".

(** Lines 47-61: the body of the [try] block of [testConnection]. *)
Definition envTest_sequence (bigquery : Sdk.BigQuery) : Script.t unit :=
  let query := "SELECT 1 AS test_value, CURRENT_TIMESTAMP() AS current_time" in
  job <- createQueryJob sdk bigquery query ;;
  rows <- getQueryResults sdk job ;;
  if (0 <? length rows)%nat then
    Script.eval (getProp (first rows) "test_value") ;;
    current_time <- Script.eval (getProp (first rows) "current_time") ;;
    Script.eval (getProp current_time "value") ;;
    Script.ret tt
  else Script.throw noResults.

Definition envTest_testConnection : Script.t unit :=
  orExit1 (envTest_sequence stubClient).

(** The module: lines 5-12, then [testConnection()]. *)
Definition envTest : Script.t unit :=
  Script.dotenv_config dotenvFile ;;
  clearCredentials ;;
  defaultEmulatorHost ;;
  envTest_testConnection.

(** ** The minimal test script ([testEmulator]) *)

(** [try { query } catch (err) { console.log(...) }] *)
Definition attempt (m : Script.t unit) : Script.t unit :=
  Script.tryCatch m (fun _ => Script.ret tt).

Definition runQuery (bigquery : Sdk.BigQuery) (query : string) : Script.t unit :=
  job <- createQueryJob sdk bigquery query ;;
  _ <- getQueryResults sdk job ;;
  Script.ret tt.

(** [src/unnamed/part_000], lines 15-78. *)
Definition testEmulator : Script.t unit :=
  clearCredentials ;;
  Script.setenv "BIGQUERY_EMULATOR_HOST" "http://localhost:9050" ;;
  Script.tryCatch
    (let bq1 := Sdk.mkBigQuery "test-project" None Sdk.NoAuthClient in
     let query1 := "SELECT 1 AS num, " +:+ quoted "hello" +:+ " AS msg" in
     attempt (runQuery bq1 query1) ;;
     let bq2 := stubClient in
     let query2 := "SELECT 2 AS num, " +:+ quoted "world" +:+ " AS msg" in
     attempt (runQuery bq2 query2))
    (fun _ => Script.ret tt).

(** ** [override-auth-example/simple-index.ts] *)

Definition simpleIndex_schema : list Sdk.column :=
  [("user_id", "INTEGER", "REQUIRED");
   ("username", "STRING", "REQUIRED");
   ("email", "STRING", "NULLABLE");
   ("is_active", "BOOLEAN", "REQUIRED")].

Definition simpleIndex_rows : list js_value :=
  [obj [("user_id", JNumber 1); ("username", JString "alice");
        ("email", JString "alice@example.com"); ("is_active", JBool true)];
   obj [("user_id", JNumber 2); ("username", JString "bob");
        ("email", JString "bob@example.com"); ("is_active", JBool true)];
   obj [("user_id", JNumber 3); ("username", JString "charlie");
        ("email", JNull); ("is_active", JBool false)]].

Definition simpleIndex_query (dataset : Sdk.Dataset) (tableId : string) : string :=
  "
      SELECT user_id, username, email, is_active
      FROM `" +:+ Sdk.dataset_id dataset +:+ "." +:+ tableId +:+ "`
      WHERE is_active = true
      ORDER BY user_id
    ".

(** Lines 48-113: the body of the [try] block of [main], with the
    template literal of line 110. *)
Definition simpleIndex_sequence (bigquery : Sdk.BigQuery) : Script.t unit :=
  let datasetId := "override_test_dataset" in
  dataset <- tryExisting (createDataset sdk bigquery datasetId)
                         (Sdk.dataset bigquery datasetId) ;;
  let tableId := "simple_users" in
  table <- tryExisting (createTable sdk dataset tableId simpleIndex_schema)
                       (Sdk.table dataset tableId) ;;
  insert sdk table simpleIndex_rows ;;
  job <- createQueryJob sdk bigquery (simpleIndex_query dataset tableId) ;;
  queryRows <- getQueryResults sdk job ;;
  forEach (fun row =>
             user_id <- Script.eval (getProp row "user_id") ;;
             Script.eval (ToString user_id) ;;
             username <- Script.eval (getProp row "username") ;;
             Script.eval (ToString username) ;;
             email <- Script.eval (getProp row "email") ;;
             Script.eval (ToString (orValue email (JString "N/A"))) ;;
             Script.ret tt)
          queryRows.

Definition simpleIndex_main : Script.t unit :=
  orExit1 (simpleIndex_sequence stubClient).

(** The module: lines 6-18, then [main().catch(console.error)]. *)
Definition simpleIndex : Script.t unit :=
  Script.dotenv_config dotenvFile ;;
  clearCredentials ;;
  h <- Script.getenv "EMULATOR_HOST" ;;
  let EMULATOR_HOST := orElse h "http://127.0.0.1:9050" in
  Script.setenv "BIGQUERY_EMULATOR_HOST" EMULATOR_HOST ;;
  simpleIndex_main.

(** ** [override-auth-example/index.ts] *)

Definition overrideIndex_schema : list Sdk.column :=
  [("user_id", "INTEGER", "REQUIRED");
   ("username", "STRING", "REQUIRED");
   ("email", "STRING", "NULLABLE");
   ("age", "INTEGER", "NULLABLE");
   ("is_active", "BOOLEAN", "REQUIRED");
   ("registration_date", "TIMESTAMP", "REQUIRED");
   ("metadata", "JSON", "NULLABLE")].

Definition overrideIndex_rows : list js_value :=
  [obj [("user_id", JNumber 1); ("username", JString "alice_wonder");
        ("email", JString "alice@example.com"); ("age", JNumber 28);
        ("is_active", JBool true);
        ("registration_date", JString "2023-01-15T00:00:00.000Z");
        ("metadata", JString (JSON_stringify
           (obj [("role", JString "admin"); ("team", JString "engineering")])))];
   obj [("user_id", JNumber 2); ("username", JString "bob_builder");
        ("email", JString "bob@example.com"); ("age", JNumber 35);
        ("is_active", JBool true);
        ("registration_date", JString "2023-02-20T00:00:00.000Z");
        ("metadata", JString (JSON_stringify
           (obj [("role", JString "developer"); ("team", JString "platform")])))];
   obj [("user_id", JNumber 3); ("username", JString "charlie_chocolate");
        ("email", JNull); ("age", JNull);
        ("is_active", JBool false);
        ("registration_date", JString "2023-03-10T00:00:00.000Z");
        ("metadata", JNull)]].

Definition overrideIndex_query (dataset : Sdk.Dataset) (tableId : string) : string :=
  "
      SELECT user_id, username, email, age, is_active
      FROM `" +:+ Sdk.dataset_id dataset +:+ "." +:+ tableId +:+ "`
      WHERE is_active = true
      ORDER BY user_id
    ".

Definition overrideIndex_statsQuery (dataset : Sdk.Dataset) (tableId : string)
  : string :=
  "
      SELECT 
        COUNT(*) as total_users,
        COUNT(DISTINCT email) as unique_emails,
        AVG(age) as avg_age,
        SUM(CASE WHEN is_active THEN 1 ELSE 0 END) as active_users
      FROM `" +:+ Sdk.dataset_id dataset +:+ "." +:+ tableId +:+ "`
    ".

(** Lines 261-366: the body of the [try] block of [main], with the
    template literals of lines 342 and 361-364; [toFixed] returns a
    string, which needs no conversion. *)
Definition overrideIndex_sequence (bigquery : Sdk.BigQuery) : Script.t unit :=
  let datasetId := "override_test_dataset" in
  dataset <- catchConflict (createDataset sdk bigquery datasetId)
                           (Sdk.dataset bigquery datasetId) ;;
  let tableId := "users_table" in
  table <- catchConflict (createTable sdk dataset tableId overrideIndex_schema)
                         (Sdk.table dataset tableId) ;;
  insert sdk table overrideIndex_rows ;;
  job <- createQueryJob sdk bigquery (overrideIndex_query dataset tableId) ;;
  queryRows <- getQueryResults sdk job ;;
  forEach (fun row =>
             user_id <- Script.eval (getProp row "user_id") ;;
             Script.eval (ToString user_id) ;;
             username <- Script.eval (getProp row "username") ;;
             Script.eval (ToString username) ;;
             email <- Script.eval (getProp row "email") ;;
             Script.eval (ToString (orValue email (JString "N/A"))) ;;
             age <- Script.eval (getProp row "age") ;;
             Script.eval (ToString (orValue age (JString "N/A"))) ;;
             Script.ret tt)
          queryRows ;;
  statsJob <- createQueryJob sdk bigquery (overrideIndex_statsQuery dataset tableId) ;;
  statsRows <- getQueryResults sdk statsJob ;;
  let stats := first statsRows in
  total_users <- Script.eval (getProp stats "total_users") ;;
  Script.eval (ToString total_users) ;;
  unique_emails <- Script.eval (getProp stats "unique_emails") ;;
  Script.eval (ToString unique_emails) ;;
  avg_age <- Script.eval (getProp stats "avg_age") ;;
  (if truthy avg_age
   then avg_age' <- Script.eval (getProp stats "avg_age") ;;
        Script.eval (toFixed avg_age')
   else Script.ret tt) ;;
  active_users <- Script.eval (getProp stats "active_users") ;;
  Script.eval (ToString active_users) ;;
  Script.ret tt.

Definition overrideIndex_main (EMULATOR_HOST : string) : Script.t unit :=
  orExit1 (overrideIndex_sequence (overrideClient EMULATOR_HOST)).

(** The module: [dotenv.config()], the two constants, then
    [main().catch(console.error)]. The credential variables are not
    touched. *)
Definition overrideIndex : Script.t unit :=
  Script.dotenv_config dotenvFile ;;
  h <- Script.getenv "EMULATOR_HOST" ;;
  let EMULATOR_HOST := orElse h "http://127.0.0.1:9050" in
  overrideIndex_main EMULATOR_HOST.

(** ** [override-auth-example/test.ts] *)

(** Lines 105-119: the body of the [try] block of [testConnection]. *)
Definition overrideTest_sequence (bigquery : Sdk.BigQuery) : Script.t unit :=
  let query := "SELECT " +:+ quoted "Hello from override!"
               +:+ " AS message, 42 AS answer" in
  job <- createQueryJob sdk bigquery query ;;
  rows <- getQueryResults sdk job ;;
  if (0 <? length rows)%nat then
    Script.eval (getProp (first rows) "message") ;;
    Script.eval (getProp (first rows) "answer") ;;
    Script.ret tt
  else Script.throw noResults.

Definition overrideTest_testConnection (EMULATOR_HOST : string) : Script.t unit :=
  orExit1 (overrideTest_sequence (overrideClient EMULATOR_HOST)).

(** The module: lines 6-9, then [testConnection()]. The credential
    variables are not touched. *)
Definition overrideTest : Script.t unit :=
  Script.dotenv_config dotenvFile ;;
  h <- Script.getenv "EMULATOR_HOST" ;;
  let EMULATOR_HOST := orElse h "http://127.0.0.1:9050" in
  overrideTest_testConnection EMULATOR_HOST.

(** ** The repository's scripts *)

Inductive script :=
| EnvIndex | EnvTest | TestEmulator | SimpleIndex | OverrideIndex | OverrideTest.

Definition program (s : script) : Script.t unit :=
  match s with
  | EnvIndex => envIndex
  | EnvTest => envTest
  | TestEmulator => testEmulator
  | SimpleIndex => simpleIndex
  | OverrideIndex => overrideIndex
  | OverrideTest => overrideTest
  end.

(** How each script calls its entry function. *)
Definition entry (s : script) : toplevel :=
  match s with
  | EnvIndex | SimpleIndex | OverrideIndex => CatchConsoleError
  | EnvTest | TestEmulator | OverrideTest => Floating
  end.

(** The scripts whose entry function ends its [catch] block with
    [process.exit(1)]; the minimal test script only logs. *)
Definition hasExit1 (s : script) : bool :=
  match s with
  | TestEmulator => false
  | _ => true
  end.

(** A run of a script in the environment [env0]. *)
Definition run (s : script) (env0 : gmap string string) : ending unit * Process :=
  program s (mkProcess env0 []).

(** The exit code of the run. *)
Definition status (s : script) (env0 : gmap string string) : Z :=
  exitCode (entry s) (run s env0).1.

(** ** Vocabulary of the statements about scripts *)

(** The example sequence of a script: the statements of the module and
    of the outer [try] block, in order, without the [catch] block. *)
Definition sequence (s : script) : Script.t unit :=
  match s with
  | EnvIndex =>
      Script.dotenv_config dotenvFile ;;
      clearCredentials ;;
      defaultEmulatorHost ;;
      envIndex_sequence stubClient
  | EnvTest =>
      Script.dotenv_config dotenvFile ;;
      clearCredentials ;;
      defaultEmulatorHost ;;
      envTest_sequence stubClient
  | TestEmulator =>
      clearCredentials ;;
      Script.setenv "BIGQUERY_EMULATOR_HOST" "http://localhost:9050" ;;
      attempt (runQuery (Sdk.mkBigQuery "test-project" None Sdk.NoAuthClient)
                        ("SELECT 1 AS num, " +:+ quoted "hello" +:+ " AS msg")) ;;
      attempt (runQuery stubClient
                        ("SELECT 2 AS num, " +:+ quoted "world" +:+ " AS msg"))
  | SimpleIndex =>
      Script.dotenv_config dotenvFile ;;
      clearCredentials ;;
      h <- Script.getenv "EMULATOR_HOST" ;;
      Script.setenv "BIGQUERY_EMULATOR_HOST" (orElse h "http://127.0.0.1:9050") ;;
      simpleIndex_sequence stubClient
  | OverrideIndex =>
      Script.dotenv_config dotenvFile ;;
      h <- Script.getenv "EMULATOR_HOST" ;;
      overrideIndex_sequence (overrideClient (orElse h "http://127.0.0.1:9050"))
  | OverrideTest =>
      Script.dotenv_config dotenvFile ;;
      h <- Script.getenv "EMULATOR_HOST" ;;
      overrideTest_sequence (overrideClient (orElse h "http://127.0.0.1:9050"))
  end.

(** The errors a script recovers from: in the two [index.ts] a
    creation that fails with code 409, in [simple-index.ts] also one
    whose message contains [already]. *)
Definition recovers (s : script) (r : Sdk.request) (e : JsError.t) : bool :=
  match s with
  | EnvIndex | OverrideIndex => Sdk.creates r && isConflict e
  | SimpleIndex => Sdk.creates r && (isConflict e || saysAlready e)
  | EnvTest | OverrideTest | TestEmulator => false
  end.

(** A journal entry that does not stop the script: the call succeeded,
    or the script recovered from its failure. *)
Definition harmless (s : script) (entry : Entry) : bool :=
  match failure entry with
  | None => true
  | Some e => recovers s (request entry) e
  end.

End Programs.

(** The variables that hold real credentials and project ids. *)
Definition credentialVariables : list string :=
  ["GOOGLE_APPLICATION_CREDENTIALS"; "GOOGLE_CLOUD_PROJECT"; "GCLOUD_PROJECT"].

(** None of the credential variables is set in [e]. *)
Definition withoutCredentials (e : gmap string string) : Prop :=
  Forall (fun name => e !! name = None) credentialVariables.

(** The scripts of the environment-variable approach and the two that
    follow it ([simple-index.ts], the minimal test). *)
Definition clearsCredentials (s : script) : bool :=
  match s with
  | OverrideIndex | OverrideTest => false
  | _ => true
  end.

(** Sample services for worked runs of the scripts. *)
Module SampleSdk.

(** A row with the nested values the scripts read. *)
Definition row : js_value :=
  JObject [("created_at", JObject [("value", JString "2025-08-10T07:54:29Z")]);
           ("current_time", JObject [("value", JString "2025-08-10T07:54:29Z")]);
           ("avg_age", JNumber 31)].

(** A service on which the calls selected by [fails] are rejected
    with [e] and all others succeed. *)
Definition rejecting (fails : Sdk.request -> bool) (e : JsError.t) : Sdk.backend :=
  let answer {A} (r : Sdk.request) (a : A) : completion A :=
    if fails r then Throw e else Return a in
  Sdk.mkBackend
    (fun _ bigquery id => answer (Sdk.CreateDataset bigquery id) (Sdk.mkDataset id))
    (fun _ d id schema => answer (Sdk.CreateTable d id schema) (Sdk.mkTable d id))
    (fun _ t rows => answer (Sdk.Insert t rows) tt)
    (fun _ bigquery query => answer (Sdk.CreateQueryJob bigquery query)
                                    (Sdk.mkJob "job_1"))
    (fun _ j => answer (Sdk.GetQueryResults j) [row]).

Definition all (r : Sdk.request) : bool := true.
Definition none (r : Sdk.request) : bool := false.
Definition datasets (r : Sdk.request) : bool :=
  match r with
  | Sdk.CreateDataset _ _ => true
  | _ => false
  end.

Definition refused : JsError.t := JsError.new "connect ECONNREFUSED 127.0.0.1:9050".

(** The conflict the emulator reports for an existing dataset. *)
Definition conflict : JsError.t :=
  JsError.mk (Some "Already Exists: Dataset test-project:test_dataset")
             (JNumber 409) None.

(** Not a conflict, but the message says [already]. *)
Definition busy : JsError.t :=
  JsError.mk (Some "a job is already running") (JNumber 500) None.

Definition clock (n : nat) : string := "2025-08-10T07:54:29.920Z".

Definition JSON_stringify (v : js_value) : string := "{}".

Definition status (sdk : Sdk.backend) (s : script) (env0 : gmap string string) : Z :=
  status sdk ∅ clock JSON_stringify s env0.

Definition run (sdk : Sdk.backend) (s : script) (env0 : gmap string string)
  : ending unit * Process :=
  run sdk ∅ clock JSON_stringify s env0.

End SampleSdk.

(* ================================================================== *)
(** * Vocabulary of the statements *)
(* ================================================================== *)

(** [reqOpts.uri] after the call: a present, non-empty uri is rewritten. *)
Definition rewrittenUri (emulatorHost : string) (uri : option string) : option string :=
  match uri with
  | Some u => if truthyString (Some u) then Some (rewriteUri emulatorHost u) else Some u
  | None => None
  end.

(** The descriptor after the call. *)
Definition redirected (emulatorHost : string) (r : RequestOptions.t) : RequestOptions.t :=
  RequestOptions.mk (rewrittenUri emulatorHost (RequestOptions.uri r))
                    (RequestOptions.method r) (RequestOptions.headers r)
                    (RequestOptions.body r) (RequestOptions.callback r).

(** The normalised result of a response whose body text is [t]. *)
Definition normalise (JSON_parse : string -> option js_value)
           (response : Response.t) (t : string) : Result.t :=
  Result.mk (Response.status response) (parseBody JSON_parse t)
            (fromEntries (Response.headers response)).

(** What the callback is invoked with once a response is there. *)
Definition notification (response : Response.t) (result : Result.t) : CallbackArgs.t :=
  if Response.ok response
  then CallbackArgs.mk None (Result.body result) (Some result)
  else CallbackArgs.mk (Some (statusError (Response.status response) result))
                       JNull (Some result).

(** The callback, if there is one, returns normally on [args]. *)
Definition accepts (callback : option Callback) (args : CallbackArgs.t) : Prop :=
  match callback with
  | Some f => f args = Return tt
  | None => True
  end.

(** The dispatch fails at the network level with [e]: [fetch] rejects,
    or the body cannot be read. *)
Definition networkFailure (net : Network) (uri : option string)
           (options : RequestInit.t) (e : JsError.t) : Prop :=
  net O uri options = Throw e
  \/ exists response, net O uri options = Return response
                      /\ Response.text response = Throw e.

(** Sample parameters for worked runs. *)
Module Sample.

(** A [JSON.parse] that knows the empty object only. *)
Definition JSON_parse (s : string) : option js_value :=
  if String.eqb s "{}" then Some (JObject []) else None.

Definition JSON_stringify (v : js_value) : completion (option string) :=
  match v with
  | JObject [] => Return (Some "{}")
  | _ => Return (Some "null")
  end.

(** A [JSON.stringify] that is handed a cyclic structure. *)
Definition circular : JsError.t := JsError.new "Converting circular structure to JSON".
Definition unserialisable (v : js_value) : completion (option string) :=
  Throw circular.

(** A service that answers every request with the same response. *)
Definition answers (status : Z) (text : string) : Network :=
  fun _ _ _ => Return (Response.mk status [("content-type", "text/plain")] (Return text)).

(** A service that cannot be reached. *)
Definition refused : JsError.t := JsError.new "connect ECONNREFUSED 127.0.0.1:9050".
Definition unreachable : Network := fun _ _ _ => Throw refused.

(** [(err) => { if (err) throw err; }] *)
Definition rethrow : Callback :=
  fun args => match CallbackArgs.error args with
              | Some e => Throw e
              | None => Return tt
              end.

(** [() => {}] *)
Definition ignore : Callback := fun _ => Return tt.

Definition descriptor (uri : string) (headers : option (gmap string string))
           (callback : option Callback) : RequestOptions.t :=
  RequestOptions.mk (Some uri) (Some "POST") headers (JObject []) callback.

Definition queries : string :=
  "https://bigquery.googleapis.com/bigquery/v2/projects/test-project/queries".

Definition emulator : string := "http://127.0.0.1:9050".

(** The responses of [answers 404 "not found"] and of
    [answers 200 "plain text"]. *)
Definition notFound : Response.t :=
  Response.mk 404 [("content-type", "text/plain")] (Return "not found").

Definition plain : Response.t :=
  Response.mk 200 [("content-type", "text/plain")] (Return "plain text").

Definition run (v : variant) (emulatorHost : string) (net : Network)
           (r : RequestOptions.t) : completion Result.t * World :=
  call (createCustomAuthRequest JSON_parse JSON_stringify v emulatorHost net) r.

End Sample.

(* ================================================================== *)
(** * A program logic for scripts *)
(* ================================================================== *)

(** From a process that satisfies [P], the script [m] ends normally in a
    process that satisfies [Q], or by an exception [e] in a process that
    satisfies [R e]; it does not leave through [process.exit]. *)
Definition triple {A} (P : Process -> Prop) (m : Script.t A)
           (Q : A -> Process -> Prop) (R : JsError.t -> Process -> Prop) : Prop :=
  forall p, P p ->
    match m p with
    | (Done a, p') => Q a p'
    | (Failed e, p') => R e p'
    | (Exited _, _) => False
    end.

(** [m] keeps the invariant [I] when it ends normally and establishes
    [J] when it throws. *)
Definition keeps {A} (I J : Process -> Prop) (m : Script.t A) : Prop :=
  triple I m (fun _ => I) (fun _ => J).

(** Every call in the journal succeeded or was recovered from. *)
Definition settled (s : script) (p : Process) : Prop :=
  forallb (harmless s) (journal p) = true.

(** No credential variable is set, and none was set when any of the
    calls in the journal was issued. *)
Definition cleared (p : Process) : Prop :=
  withoutCredentials (env p)
  /\ Forall (fun entry => withoutCredentials (env_at entry)) (journal p).

Definition anything (p : Process) : Prop := True.

Definition credentials : string := "GOOGLE_APPLICATION_CREDENTIALS".

(** The first call of the journal was issued with the credentials
    variable set to [value]. *)
Definition exposed (value : string) (p : Process) : Prop :=
  exists entry, journal p !! O = Some entry
                /\ env_at entry !! credentials = Some value.

(** No call has been issued yet, and the credentials variable is set. *)
Definition exposing (value : string) (p : Process) : Prop :=
  journal p = [] /\ env p !! credentials = Some value.

(** Case analysis on the innermost scrutinee of the goal. *)
Ltac case_innermost :=
  match goal with
  | |- context [match ?x with _ => _ end] =>
      lazymatch x with
      | context [match _ with _ => _ end] => fail
      | _ => destruct x eqn:?
      end
  end.

(* ================================================================== *)
(** * Further vocabulary *)
(* ================================================================== *)

(** [v == null] *)
Definition nullish (v : js_value) : bool :=
  match v with
  | JUndefined | JNull => true
  | _ => false
  end.

(** [BIGQUERY_EMULATOR_HOST] as the client library finds it at every
    call of a script started in [env0]: the two scripts of the
    environment-variable approach keep a value that is set (in the
    environment or in the [.env] file) and default it otherwise,
    [simple-index.ts] copies [EMULATOR_HOST] or the default, the minimal
    test overwrites it, the two override scripts leave it alone. *)
Definition emulatorHostAtCalls (dotenvFile : gmap string string) (s : script)
           (env0 : gmap string string) : option string :=
  let loaded := env0 ∪ dotenvFile in
  match s with
  | EnvIndex | EnvTest =>
      Some (orElse (loaded !! "BIGQUERY_EMULATOR_HOST") "http://127.0.0.1:9050")
  | SimpleIndex =>
      Some (orElse (loaded !! "EMULATOR_HOST") "http://127.0.0.1:9050")
  | TestEmulator => Some "http://localhost:9050"
  | OverrideIndex | OverrideTest => loaded !! "BIGQUERY_EMULATOR_HOST"
  end.

(** The variable [name] has the value [x] (or is unset) and no call has
    been issued yet. *)
Definition unissued (name : string) (x : option string) (p : Process) : Prop :=
  journal p = [] /\ env p !! name = x.

(** The variable [name] has the value [x] now and had it at every call
    of the journal. *)
Definition constant (name : string) (x : option string) (p : Process) : Prop :=
  env p !! name = x
  /\ Forall (fun entry => env_at entry !! name = x) (journal p).

(** The journal is settled, or it is a settled journal followed by one
    failed call. *)
Definition stopped (s : script) (p : Process) : Prop :=
  settled s p
  \/ exists p0 r e, settled s p0 /\ p = Script.note r (Some e) p0.

(** The five kinds of call. *)
Inductive callKind :=
| DatasetCreation | TableCreation | Insertion | QueryJob | QueryResults.

Definition kindOf (r : Sdk.request) : callKind :=
  match r with
  | Sdk.CreateDataset _ _ => DatasetCreation
  | Sdk.CreateTable _ _ _ => TableCreation
  | Sdk.Insert _ _ => Insertion
  | Sdk.CreateQueryJob _ _ => QueryJob
  | Sdk.GetQueryResults _ => QueryResults
  end.

(** The kinds of the calls issued so far, in order. *)
Definition kinds (p : Process) : list callKind :=
  kindOf <$> (request <$> journal p).

(** The calls of a script in the order of its text. *)
Definition plan (s : script) : list callKind :=
  match s with
  | EnvIndex | OverrideIndex =>
      [DatasetCreation; TableCreation; Insertion;
       QueryJob; QueryResults; QueryJob; QueryResults]
  | SimpleIndex =>
      [DatasetCreation; TableCreation; Insertion; QueryJob; QueryResults]
  | EnvTest | OverrideTest => [QueryJob; QueryResults]
  | TestEmulator => [QueryJob; QueryResults; QueryJob; QueryResults]
  end.

(** The first [n] calls of the plan were issued, and no other. *)
Definition progress (s : script) (n : nat) (p : Process) : Prop :=
  kinds p = take n (plan s).

Definition planned (s : script) (p : Process) : Prop :=
  exists n, progress s n p.

Definition isQueryJob (r : Sdk.request) : bool :=
  match r with
  | Sdk.CreateQueryJob _ _ => true
  | _ => false
  end.

(** The rows with which [env-variable-example/test.ts] reports success:
    there is a first row, and it and its [current_time] are objects (not
    [null] or [undefined]). *)
Definition envTest_accepts (rows : list js_value) : bool :=
  match rows with
  | [] => false
  | row :: _ =>
      match getProp row "current_time" with
      | Return current_time => negb (nullish current_time)
      | Throw _ => false
      end
  end.

(** The rows with which [override-auth-example/test.ts] reports
    success: there is a first row and it is not [null] or [undefined]. *)
Definition overrideTest_accepts (rows : list js_value) : bool :=
  match rows with
  | [] => false
  | row :: _ => negb (nullish row)
  end.

(** The value can be converted to a string. *)
Definition convertible (v : js_value) : bool :=
  match ToString v with
  | Return _ => true
  | Throw _ => false
  end.

(** A row that [env-variable-example/index.ts] can print: an object
    whose [id] and [name] can be converted to strings and whose
    [created_at] is neither [null] nor [undefined] and has a [value]
    that can be converted. *)
Definition printable (row : js_value) : bool :=
  match row with
  | JObject fields =>
      convertible (field "id" fields)
      && convertible (field "name" fields)
      && match getProp (field "created_at" fields) "value" with
         | Return value => convertible value
         | Throw _ => false
         end
  | _ => false
  end.

(** A first row of the aggregation query that
    [env-variable-example/index.ts] can print: it is there, and if it
    is an object its [total] and [max_id] can be converted to strings
    (of any other value both are [undefined]). *)
Definition summarised (row : js_value) : bool :=
  match row with
  | JUndefined | JNull => false
  | JObject fields =>
      convertible (field "total" fields) && convertible (field "max_id" fields)
  | _ => true
  end.

(** The three scripts that create a dataset and a table. *)
Definition creating (s : script) : bool :=
  match s with
  | EnvIndex | SimpleIndex | OverrideIndex => true
  | _ => false
  end.

(** The call a script makes after the creation [r], on the reference
    to the resource: the table is created in [bigquery.dataset(id)],
    the rows are inserted into [dataset.table(id)]. *)
Definition followUp (tableId : string) (schema : list Sdk.column)
           (rows : list js_value) (r : Sdk.request) : Sdk.request :=
  match r with
  | Sdk.CreateDataset bigquery datasetId =>
      Sdk.CreateTable (Sdk.dataset bigquery datasetId) tableId schema
  | Sdk.CreateTable d id _ => Sdk.Insert (Sdk.table d id) rows
  | other => other
  end.

(** The same, with the table, the schema and the rows of each script. *)
Definition proceeds (clock : nat -> string) (JSON_stringify : js_value -> string)
           (s : script) : Sdk.request -> Sdk.request :=
  match s with
  | EnvIndex => followUp "test_table" envIndex_schema (envIndex_rows clock)
  | SimpleIndex => followUp "simple_users" simpleIndex_schema simpleIndex_rows
  | OverrideIndex =>
      followUp "users_table" overrideIndex_schema (overrideIndex_rows JSON_stringify)
  | _ => fun r => r
  end.

(** The script [m] only adds calls to the journal. *)
Definition appends {A} (m : Script.t A) : Prop :=
  forall p, journal p `prefix_of` journal (m p).2.

(** A service whose queries return no row. *)
Definition emptyHanded : Sdk.backend :=
  Sdk.mkBackend
    (fun _ _ id => Return (Sdk.mkDataset id))
    (fun _ d id _ => Return (Sdk.mkTable d id))
    (fun _ _ _ => Return tt)
    (fun _ _ _ => Return (Sdk.mkJob "job_1"))
    (fun _ _ => Return []).

(* ================================================================== *)
(** * Worked rewrites *)
(* ================================================================== *)

Example rewrite_ex1 :
  rewriteUri "http://127.0.0.1:9050"
             "https://bigquery.googleapis.com/bigquery/v2/projects/p/queries"
  = "http://127.0.0.1:9050/bigquery/v2/projects/p/queries".
Proof. reflexivity. Qed.

Example rewrite_ex2 :
  rewriteUri "https://localhost:9050"
             "http://bigquery.googleapis.com/bigquery/v2/projects/p/queries?a=b"
  = "http://localhost:9050/bigquery/v2/projects/p/queries?a=b".
Proof. reflexivity. Qed.

Example rewrite_ex3 :
  rewriteUri "http://127.0.0.1:9050"
             "https://bigquery.googleapis.com/q?ref=http://www.googleapis.com/x"
  = "http://127.0.0.1:9050/q?ref=http://127.0.0.1:9050/x".
Proof. reflexivity. Qed.

(** The class needs one character at least, and it is greedy: the
    match ends at the last [.googleapis.com] before the first slash. *)
Example rewrite_empty_host :
  rewriteUri "http://127.0.0.1:9050" "https://.googleapis.com/x"
  = "https://.googleapis.com/x".
Proof. reflexivity. Qed.

Example rewrite_greedy :
  rewriteUri "http://127.0.0.1:9050" "https://a.googleapis.com.googleapis.com/x"
  = "http://127.0.0.1:9050/x".
Proof. reflexivity. Qed.

(** The patterns are not anchored, and a dollar pattern in the
    replacement is expanded. *)
Example rewrite_inside :
  rewriteUri "http://127.0.0.1:9050" "see https://b.googleapis.com/x"
  = "see http://127.0.0.1:9050/x".
Proof. reflexivity. Qed.

Example rewrite_dollar :
  rewriteUri "http://h/$&" "https://b.googleapis.com/x"
  = "http://h/https://b.googleapis.com/x".
Proof. reflexivity. Qed.

(* ================================================================== *)
(** * Facts about the string primitives *)
(* ================================================================== *)

Module JsStringFacts.
Import JsString UriShape.

Lemma append_nil_r (s : string) : s +:+ "" = s.
Proof. induction s as [|c s IH]; simpl; [reflexivity | now f_equal]. Qed.

Lemma append_assoc (a b c : string) : (a +:+ b) +:+ c = a +:+ (b +:+ c).
Proof. induction a as [|x a IH]; simpl; [reflexivity | now f_equal]. Qed.

Lemma length_append (a b : string) :
  String.length (a +:+ b) = (String.length a + String.length b)%nat.
Proof. induction a as [|x a IH]; simpl; [reflexivity | now f_equal]. Qed.

Lemma startsWith_append (p t : string) : startsWith (p +:+ t) p = true.
Proof.
  induction p as [|c p IH]; simpl; [reflexivity|].
  now rewrite Ascii.eqb_refl.
Qed.

Lemma startsWith_inv (s p : string) :
  startsWith s p = true -> s = p +:+ drop (String.length p) s.
Proof.
  revert s; induction p as [|c p IH]; intros s H; simpl in *; [reflexivity|].
  destruct s as [|d s]; [discriminate|].
  destruct (Ascii.eqb_spec c d) as [->|]; [|discriminate].
  f_equal. now apply IH.
Qed.

Lemma startsWith_common (a s p : string) :
  startsWith (a +:+ s) (a +:+ p) = startsWith s p.
Proof.
  induction a as [|c a IH]; simpl; [reflexivity|].
  now rewrite Ascii.eqb_refl.
Qed.

Lemma startsWith_split (s p : string) :
  startsWith s p = true -> exists t, s = p +:+ t.
Proof. intros H. eexists. now apply startsWith_inv. Qed.

Lemma drop_append (a b : string) : drop (String.length a) (a +:+ b) = b.
Proof. induction a as [|x a IH]; simpl; [reflexivity | exact IH]. Qed.

Lemma take_append (a b : string) : take (String.length a) (a +:+ b) = a.
Proof. induction a as [|x a IH]; simpl; [reflexivity | now f_equal]. Qed.

(** A replacement text without dollars is inserted as it is. *)
Lemma getSubstitution_dollarFree (f : found) (r : string) :
  dollarFree r = true -> getSubstitution f r = r.
Proof.
  induction r as [|c r IH]; simpl; [reflexivity|].
  intros [Hc Hr]%andb_prop.
  destruct (Ascii.eqb c "$"); [discriminate|].
  now rewrite IH.
Qed.

(** A prefix test against a slash-free word cannot tell [e] from [e]
    followed by a path. *)
Lemma startsWith_path (p e rest : string) :
  slashFree p = true -> p <> "" -> pathLike rest = true ->
  startsWith (e +:+ rest) p = startsWith e p.
Proof.
  revert e; induction p as [|c p IH]; intros e Hp Hne Hrest; [congruence|].
  simpl in Hp. apply andb_prop in Hp as [Hc Hp].
  destruct e as [|d e]; simpl.
  - destruct rest as [|x rest]; [reflexivity|].
    simpl in Hrest. apply Ascii.eqb_eq in Hrest as ->.
    destruct (Ascii.eqb_spec c "/") as [->|]; [discriminate | reflexivity].
  - destruct (Ascii.eqb c d); [|reflexivity].
    destruct p as [|c' p]; [reflexivity|].
    apply IH; [exact Hp | discriminate | exact Hrest].
Qed.

End JsStringFacts.

Module RegexFacts.
Import JsString UriShape JsStringFacts Regex.

Lemma matchHere_lit (p : string) (r : regex) (s : string) :
  matchHere (Lit p :: r) s
  = match matchLit p s with
    | Some n => Nat.add n <$> matchHere r (drop n s)
    | None => None
    end.
Proof. reflexivity. Qed.

Lemma matchHere_plus (c : ascii) (r : regex) (s : string) :
  matchHere (PlusNot c :: r) s = plusNot c (matchHere r) s.
Proof. reflexivity. Qed.

(** The greedy star runs over a whole [c]-free word when the rest of
    the pattern can be matched behind it. *)
Lemma starNot_word (c : ascii) (k : string -> option nat) (h s : string) (n : nat) :
  allChars (fun d => negb (Ascii.eqb d c)) h = true ->
  starNot c k s = Some n ->
  starNot c k (h +:+ s) = Some (String.length h + n)%nat.
Proof.
  intros Hh Hs. induction h as [|d h IH]; simpl in *; [exact Hs|].
  apply andb_prop in Hh as [Hd Hh].
  destruct (Ascii.eqb d c); [discriminate|].
  now rewrite (IH Hh).
Qed.

(** Behind the host name the star stops at the path: the last place
    where [.googleapis.com] can be matched is its own occurrence. *)
Lemma starNot_googleapis (rest : string) :
  pathLike rest = true ->
  starNot "/" (matchHere [Lit ".googleapis.com"]) (".googleapis.com" +:+ rest)
  = Some 15%nat.
Proof.
  intros Hrest. destruct rest as [|x rest]; [reflexivity|].
  simpl in Hrest. apply Ascii.eqb_eq in Hrest as ->. reflexivity.
Qed.

Lemma plusNot_host (h rest : string) :
  h <> "" -> slashFree h = true -> pathLike rest = true ->
  plusNot "/" (matchHere [Lit ".googleapis.com"])
          (h +:+ ".googleapis.com" +:+ rest)
  = Some (String.length h + 15)%nat.
Proof.
  intros Hne Hh Hrest. destruct h as [|d h]; [congruence|].
  simpl in Hh. apply andb_prop in Hh as [Hd Hh].
  simpl. destruct (Ascii.eqb d "/"); [discriminate|].
  rewrite (starNot_word "/" _ h _ 15); [reflexivity | exact Hh |].
  now apply starNot_googleapis.
Qed.

(** A cloud-API uri is matched at its head, up to the end of the host. *)
Lemma exec_googleapis (scheme h rest : string) :
  h <> "" -> slashFree h = true -> pathLike rest = true ->
  exec [Lit scheme; PlusNot "/"; Lit ".googleapis.com"]
       (scheme +:+ h +:+ ".googleapis.com" +:+ rest)
  = Some (Found "" (scheme +:+ h +:+ ".googleapis.com") rest).
Proof.
  intros Hne Hh Hrest.
  set (u := scheme +:+ h +:+ ".googleapis.com" +:+ rest).
  assert (Hm : matchHere [Lit scheme; PlusNot "/"; Lit ".googleapis.com"] u
               = Some (String.length scheme + (String.length h + 15))%nat).
  { unfold u. rewrite matchHere_lit. unfold matchLit.
    rewrite startsWith_append, drop_append, matchHere_plus.
    now rewrite (plusNot_host h rest Hne Hh Hrest). }
  destruct u as [|c u'] eqn:Hu; cbn [exec]; rewrite Hm; f_equal.
  - exfalso. destruct scheme; [destruct h; [congruence|]|]; discriminate.
  - rewrite <- Hu. unfold u.
    replace (scheme +:+ h +:+ ".googleapis.com" +:+ rest)
      with ((scheme +:+ h +:+ ".googleapis.com") +:+ rest)
      by now rewrite !append_assoc.
    replace (String.length scheme + (String.length h + 15))%nat
      with (String.length (scheme +:+ h +:+ ".googleapis.com"))
      by now rewrite !length_append.
    now rewrite take_append, drop_append.
Qed.

Lemma replace_googleapis (scheme h rest e : string) :
  h <> "" -> slashFree h = true -> pathLike rest = true ->
  dollarFree e = true ->
  replace (scheme +:+ h +:+ ".googleapis.com" +:+ rest)
          [Lit scheme; PlusNot "/"; Lit ".googleapis.com"] e
  = e +:+ rest.
Proof.
  intros Hne Hh Hrest He. unfold replace, replaceWith.
  rewrite exec_googleapis by assumption. cbn [before after].
  now rewrite getSubstitution_dollarFree.
Qed.

Lemma replace_no_match (r : regex) (s e : string) :
  exec r s = None -> replace s r e = s.
Proof. intros H. unfold replace, replaceWith. now rewrite H. Qed.

End RegexFacts.

(* ================================================================== *)
(** * One call of the request function, step by step *)
(* ================================================================== *)

Section RequestFacts.

Variable JSON_parse : string -> option js_value.
Variable JSON_stringify : js_value -> completion (option string).
Variable emulatorHost : string.
Variable net : Network.

Lemma redirect_run (w : World) :
  redirect emulatorHost w
  = (Return tt, mkWorld (redirected emulatorHost (reqOpts w)) (dispatched w) (invoked w)).
Proof.
  destruct w as [[uri m h b cb] d i].
  unfold redirect, redirected, rewrittenUri, rewriteUri, downgradeLoopback,
    bind, readReqOpts, when, assignUri, ret, truthyString.
  cbn -[JsString.startsWith JsString.replace replaceGoogleApis].
  destruct uri as [u|]; [|reflexivity].
  destruct (String.eqb u "");
    cbn -[JsString.startsWith JsString.replace replaceGoogleApis];
    [reflexivity|].
  destruct (JsString.startsWith _ "https://127.0.0.1"
            || JsString.startsWith _ "https://localhost"); reflexivity.
Qed.

(** The effects common to both copies, after the redirect. *)
Lemma exchange_run (r : RequestOptions.t) (d : list (option string * RequestInit.t))
      (i : list CallbackArgs.t) :
  exchange JSON_parse JSON_stringify net (mkWorld r d i)
  = match prepareFetchOptions JSON_stringify r with
    | Throw e => (Throw e, mkWorld r d i)
    | Return options =>
        let d' := (d ++ [(RequestOptions.uri r, options)])%list in
        match net (length d) (RequestOptions.uri r) options with
        | Throw e => (Throw e, mkWorld r d' i)
        | Return response =>
            match Response.text response with
            | Throw e => (Throw e, mkWorld r d' i)
            | Return t =>
                let result := normalise JSON_parse response t in
                match RequestOptions.callback r with
                | None => (Return result, mkWorld r d' i)
                | Some callback =>
                    let args := notification response result in
                    match callback args with
                    | Return _ => (Return result, mkWorld r d' (i ++ [args])%list)
                    | Throw e => (Throw e, mkWorld r d' (i ++ [args])%list)
                    end
                end
            end
        end
    end.
Proof.
  cbn zeta. unfold exchange, bind, readReqOpts, fetch, await; cbn.
  destruct (prepareFetchOptions JSON_stringify r) as [options|e]; [|reflexivity].
  cbn.
  destruct (net (length d) _ _) as [response|e]; [|reflexivity].
  destruct (Response.text response) as [t|e]; [|reflexivity].
  destruct (RequestOptions.callback r) as [callback|]; [|reflexivity].
  unfold notification, normalise, invoke, ret; cbn.
  destruct (Response.ok response); cbn;
    match goal with |- context [callback ?a] => destruct (callback a) end;
    reflexivity.
Qed.

Lemma relay_run (e : JsError.t) (r : RequestOptions.t)
      (d : list (option string * RequestInit.t)) (i : list CallbackArgs.t) :
  relay e (mkWorld r d i)
  = match RequestOptions.callback r with
    | None => (Throw e, mkWorld r d i)
    | Some callback =>
        let args := CallbackArgs.mk (Some e) JUndefined None in
        match callback args with
        | Return _ => (Throw e, mkWorld r d (i ++ [args])%list)
        | Throw e' => (Throw e', mkWorld r d (i ++ [args])%list)
        end
    end.
Proof.
  unfold relay, bind, readReqOpts, invoke, throw, ret; cbn.
  destruct (RequestOptions.callback r) as [callback|]; [|reflexivity].
  destruct (callback _); reflexivity.
Qed.

Lemma test_run (r : RequestOptions.t) :
  call (makeAuthenticatedRequest_test JSON_parse JSON_stringify emulatorHost net) r
  = exchange JSON_parse JSON_stringify net
             (mkWorld (redirected emulatorHost r) [] []).
Proof.
  unfold call, makeAuthenticatedRequest_test, bind.
  now rewrite redirect_run.
Qed.

Lemma index_run (r : RequestOptions.t) :
  call (makeAuthenticatedRequest_index JSON_parse JSON_stringify emulatorHost net) r
  = match exchange JSON_parse JSON_stringify net
                   (mkWorld (redirected emulatorHost r) [] []) with
    | (Return a, w) => (Return a, w)
    | (Throw e, w) => relay e w
    end.
Proof.
  unfold call, makeAuthenticatedRequest_index, bind, tryCatch.
  now rewrite redirect_run.
Qed.

End RequestFacts.

(* ================================================================== *)
(** * The rewrite of a cloud-API uri *)
(* ================================================================== *)

Module RewriteFacts.
Import JsString UriShape JsStringFacts RegexFacts.

Lemma replaceGoogleApis_cloud (e : string) (secure : bool) (host rest : string) :
  host <> "" -> slashFree host = true -> pathLike rest = true ->
  dollarFree e = true ->
  (if secure
   then Regex.exec re_http_googleapis (e +:+ rest) = None
   else Regex.exec re_https_googleapis (cloudUri false host rest) = None) ->
  replaceGoogleApis e (cloudUri secure host rest) = e +:+ rest.
Proof.
  intros Hne Hh Hrest He Hother. unfold replaceGoogleApis, cloudUri.
  destruct secure; cbn [scheme].
  - unfold re_https_googleapis.
    rewrite replace_googleapis by assumption.
    now apply replace_no_match.
  - rewrite (replace_no_match re_https_googleapis) by exact Hother.
    unfold re_http_googleapis.
    now apply replace_googleapis.
Qed.

(** The downgrade looks at the base URL only. *)
Lemma downgradeLoopback_base (e rest : string) :
  hasScheme e = true -> pathLike rest = true ->
  downgradeLoopback (e +:+ rest) = downgradeLoopback e +:+ rest.
Proof.
  intros He Hrest. unfold hasScheme in He.
  apply orb_prop in He as [He|He];
    apply startsWith_split in He as [t ->]; [reflexivity|].
  unfold downgradeLoopback. rewrite append_assoc.
  change "https://127.0.0.1" with ("https://" +:+ "127.0.0.1").
  change "https://localhost" with ("https://" +:+ "localhost").
  rewrite !startsWith_common.
  rewrite !(fun p Hp Hne => startsWith_path p t rest Hp Hne Hrest)
    by (reflexivity || discriminate).
  destruct (startsWith t "127.0.0.1" || startsWith t "localhost");
    reflexivity.
Qed.

Lemma rewriteUri_cloud (e : string) (secure : bool) (host rest : string) :
  host <> "" -> slashFree host = true -> pathLike rest = true ->
  hasScheme e = true -> dollarFree e = true ->
  (if secure
   then Regex.exec re_http_googleapis (e +:+ rest) = None
   else Regex.exec re_https_googleapis (cloudUri false host rest) = None) ->
  rewriteUri e (cloudUri secure host rest) = downgradeLoopback e +:+ rest.
Proof.
  intros. unfold rewriteUri.
  rewrite replaceGoogleApis_cloud by assumption.
  now apply downgradeLoopback_base.
Qed.

(** A uri that begins with one of the prefixes the program tests for
    leaves the downgrade with the [http] scheme. *)
Lemma downgradeLoopback_http (u : string) :
  loopbackPrefixed u = true ->
  startsWith (downgradeLoopback u) "http://" = true
  /\ startsWith (downgradeLoopback u) "https://" = false.
Proof.
  unfold loopbackPrefixed, loopbackPrefixes. cbn [existsb scheme].
  rewrite orb_false_r.
  intros H.
  repeat (apply orb_prop in H as [H|H]);
    apply startsWith_split in H as [t ->]; split; reflexivity.
Qed.

End RewriteFacts.

(* ================================================================== *)
(** * The request function: what a call leaves behind *)
(* ================================================================== *)

Section RequestClaims.
Import JsString UriShape.

Variable JSON_parse : string -> option js_value.
Variable JSON_stringify : js_value -> completion (option string).
Variable emulatorHost : string.
Variable net : Network.

#[local] Abbreviation request v :=
  (createCustomAuthRequest JSON_parse JSON_stringify v emulatorHost net).

(** The options do not depend on the uri. *)
Lemma prepare_redirected (r : RequestOptions.t) :
  prepareFetchOptions JSON_stringify (redirected emulatorHost r)
  = prepareFetchOptions JSON_stringify r.
Proof. reflexivity. Qed.

(** Whatever happens, the descriptor ends up redirected; one request
    has been dispatched, to the redirected uri, unless the body could
    not be serialised, and then none has. *)
Lemma after_call (v : variant) (r : RequestOptions.t) :
  let r' := redirected emulatorHost r in
  let w := (call (request v) r).2 in
  reqOpts w = r'
  /\ dispatched w = match prepareFetchOptions JSON_stringify r with
                    | Return options => [(RequestOptions.uri r', options)]
                    | Throw _ => []
                    end.
Proof.
  cbn zeta. destruct v; unfold createCustomAuthRequest.
  - rewrite index_run, exchange_run, prepare_redirected. cbn [length app].
    repeat (first [case_innermost | rewrite relay_run];
            cbn [fst snd reqOpts dispatched]); auto.
  - rewrite test_run, exchange_run, prepare_redirected. cbn [length app].
    repeat (case_innermost; cbn [fst snd reqOpts dispatched]); auto.
Qed.

(** The run of either copy once the options are there. *)
Lemma exchange_prepared (r : RequestOptions.t) (options : RequestInit.t) :
  let r' := redirected emulatorHost r in
  let d := [(RequestOptions.uri r', options)] in
  prepareFetchOptions JSON_stringify r = Return options ->
  exchange JSON_parse JSON_stringify net (mkWorld r' [] [])
  = match net O (RequestOptions.uri r') options with
    | Throw e => (Throw e, mkWorld r' d [])
    | Return response =>
        match Response.text response with
        | Throw e => (Throw e, mkWorld r' d [])
        | Return t =>
            let result := normalise JSON_parse response t in
            match RequestOptions.callback r with
            | None => (Return result, mkWorld r' d [])
            | Some callback =>
                let args := notification response result in
                match callback args with
                | Return _ => (Return result, mkWorld r' d [args])
                | Throw e => (Throw e, mkWorld r' d [args])
                end
            end
        end
    end.
Proof.
  cbn zeta. intros Hoptions.
  now rewrite exchange_run, prepare_redirected, Hoptions.
Qed.

(** The merged headers: the caller's entries, and the default content
    type unless the caller has an entry of that name. *)
Lemma prepared_headers (r : RequestOptions.t) (options : RequestInit.t) (k : string) :
  prepareFetchOptions JSON_stringify r = Return options ->
  RequestInit.headers options !! k
  = match default ∅ (RequestOptions.headers r) !! k with
    | Some x => Some x
    | None => if String.eqb k "Content-Type" then Some "application/json" else None
    end.
Proof.
  unfold prepareFetchOptions, spread. intros Hoptions.
  assert (Hheaders : RequestInit.headers options
                     = default ∅ (RequestOptions.headers r)
                       ∪ {[ "Content-Type" := "application/json" ]}).
  { destruct (truthy (RequestOptions.body r)).
    - destruct (JSON_stringify _); [|discriminate].
      now injection Hoptions as <-.
    - now injection Hoptions as <-. }
  rewrite Hheaders, lookup_union.
  destruct (default ∅ (RequestOptions.headers r) !! k) as [x|] eqn:Hk;
    cbn; try reflexivity;
    destruct (String.eqb_spec k "Content-Type") as [->|Hne];
    try (rewrite lookup_singleton_eq; reflexivity);
    rewrite lookup_singleton_ne by congruence; reflexivity.
Qed.

Lemma rewrittenUri_some (uri : string) :
  uri <> "" ->
  rewrittenUri emulatorHost (Some uri) = Some (rewriteUri emulatorHost uri).
Proof.
  intros Hne. unfold rewrittenUri, truthyString.
  destruct (String.eqb_spec uri ""); [congruence | reflexivity].
Qed.

(** C1 (amended). For a descriptor whose uri is
    [scheme://<host>.googleapis.com<rest>], with a non-empty host free
    of slashes and a rest that is empty or begins with a slash, and
    for an emulator base URL that has the http or https scheme and
    holds no dollar sign: if there is no second occurrence of the
    pattern to replace, the call leaves in the descriptor the uri made
    of the emulator base URL, with the loopback downgrade of its
    scheme applied, followed by the unchanged rest; and this is the
    uri of the one request it dispatches (none is dispatched when the
    body cannot be serialised). *)
Theorem C1_cloud_uri_redirected
        (v : variant) (r : RequestOptions.t) (secure : bool) (host rest : string) :
  RequestOptions.uri r = Some (cloudUri secure host rest) ->
  host <> "" -> slashFree host = true -> pathLike rest = true ->
  hasScheme emulatorHost = true -> dollarFree emulatorHost = true ->
  (if secure
   then Regex.exec re_http_googleapis (emulatorHost +:+ rest) = None
   else Regex.exec re_https_googleapis (cloudUri false host rest) = None) ->
  let w := (call (request v) r).2 in
  let uri' := downgradeLoopback emulatorHost +:+ rest in
  RequestOptions.uri (reqOpts w) = Some uri'
  /\ dispatched w = match prepareFetchOptions JSON_stringify r with
                    | Return options => [(Some uri', options)]
                    | Throw _ => []
                    end.
Proof.
  intros Huri Hne Hhost Hrest Hscheme Hdollar Hother w uri'.
  destruct (after_call v r) as [Hreq Hdisp]. fold w in Hreq, Hdisp.
  assert (Hnew : RequestOptions.uri (redirected emulatorHost r) = Some uri').
  { unfold redirected; cbn [RequestOptions.uri]. rewrite Huri.
    rewrite rewrittenUri_some by (destruct secure; discriminate).
    f_equal. now apply RewriteFacts.rewriteUri_cloud. }
  rewrite Hreq, Hdisp, Hnew. split; reflexivity.
Qed.

(** C2 (amended). Whatever the original uri and its scheme: when the
    uri, after the host replacement, begins with [scheme://127.0.0.1]
    or [scheme://localhost] (the two spellings the program tests
    for), the uri the call leaves in the descriptor has the http
    scheme, not https, and the one request that is dispatched goes to
    it (none is dispatched when the body cannot be serialised). *)
Theorem C2_loopback_dispatched_over_http
        (v : variant) (r : RequestOptions.t) (uri : string) :
  RequestOptions.uri r = Some uri -> uri <> "" ->
  loopbackPrefixed (replaceGoogleApis emulatorHost uri) = true ->
  let w := (call (request v) r).2 in
  exists uri',
    RequestOptions.uri (reqOpts w) = Some uri'
    /\ startsWith uri' "http://" = true
    /\ startsWith uri' "https://" = false
    /\ dispatched w = match prepareFetchOptions JSON_stringify r with
                      | Return options => [(Some uri', options)]
                      | Throw _ => []
                      end.
Proof.
  intros Huri Hne Hloop w.
  destruct (after_call v r) as [Hreq Hdisp]. fold w in Hreq, Hdisp.
  assert (Hnew : RequestOptions.uri (redirected emulatorHost r)
                 = Some (rewriteUri emulatorHost uri)).
  { unfold redirected; cbn [RequestOptions.uri].
    now rewrite Huri, rewrittenUri_some. }
  exists (rewriteUri emulatorHost uri).
  rewrite Hreq, Hdisp, Hnew. split; [reflexivity|].
  destruct (RewriteFacts.downgradeLoopback_http _ Hloop) as [Hhttp Hhttps].
  repeat split; assumption.
Qed.

(** C9. A call writes the [uri] field of the caller's descriptor and
    nothing else: afterwards the descriptor holds the rewritten uri,
    and its method, headers, body and callback are those the caller
    passed. *)
Theorem C9_only_uri_is_mutated (v : variant) (r : RequestOptions.t) :
  let r' := reqOpts (call (request v) r).2 in
  RequestOptions.uri r' = rewrittenUri emulatorHost (RequestOptions.uri r)
  /\ RequestOptions.method r' = RequestOptions.method r
  /\ RequestOptions.headers r' = RequestOptions.headers r
  /\ RequestOptions.body r' = RequestOptions.body r
  /\ RequestOptions.callback r' = RequestOptions.callback r.
Proof.
  cbn zeta. destruct (after_call v r) as [-> _].
  unfold redirected; cbn. repeat split; reflexivity.
Qed.

(** C10 (amended). The headers of the dispatched request hold every
    header of the caller, and their [Content-Type] entry is the
    caller's entry of that name when there is one and
    [application/json] otherwise. (One request is dispatched, unless
    the body cannot be serialised, and then none is.) *)
Theorem C10_caller_headers_take_precedence (v : variant) (r : RequestOptions.t) :
  let supplied := default ∅ (RequestOptions.headers r) in
  match prepareFetchOptions JSON_stringify r with
  | Return options =>
      (exists uri, dispatched (call (request v) r).2 = [(uri, options)])
      /\ (forall k x, supplied !! k = Some x ->
                      RequestInit.headers options !! k = Some x)
      /\ RequestInit.headers options !! "Content-Type"
         = Some (default "application/json" (supplied !! "Content-Type"))
  | Throw _ => dispatched (call (request v) r).2 = []
  end.
Proof.
  cbn zeta. destruct (after_call v r) as [_ Hdisp].
  destruct (prepareFetchOptions JSON_stringify r) as [options|e] eqn:Hoptions;
    [|exact Hdisp].
  split; [eexists; exact Hdisp|]. split.
  - intros k x Hk. now rewrite (prepared_headers r options k Hoptions), Hk.
  - rewrite (prepared_headers r options _ Hoptions).
    now destruct (default ∅ (RequestOptions.headers r) !! "Content-Type").
Qed.

(** C3 (amended). When the descriptor carries a callback, the
    response has a status outside 200-299, its body has been read and
    the callback returns normally: the callback is invoked exactly
    once, with a non-null error (and the result as third argument),
    and the promise resolves with the normalised result. *)
Theorem C3_status_error_goes_to_callback_only
        (v : variant) (r : RequestOptions.t) (callback : Callback)
        (options : RequestInit.t) (response : Response.t) (t : string) :
  let r' := redirected emulatorHost r in
  let result := normalise JSON_parse response t in
  let args :=
    CallbackArgs.mk (Some (statusError (Response.status response) result))
                    JNull (Some result) in
  RequestOptions.callback r = Some callback ->
  prepareFetchOptions JSON_stringify r = Return options ->
  net O (RequestOptions.uri r') options = Return response ->
  Response.text response = Return t ->
  Response.ok response = false ->
  callback args = Return tt ->
  (call (request v) r).1 = Return result
  /\ invoked (call (request v) r).2 = [args]
  /\ is_Some (CallbackArgs.error args).
Proof.
  intros r' result args Hcb Hoptions Hnet Htext Hok Hret.
  assert (Hrun := exchange_prepared r options Hoptions).
  cbn zeta in Hrun. fold r' in Hrun. rewrite Hnet, Htext, Hcb in Hrun.
  unfold notification in Hrun. rewrite Hok in Hrun.
  fold result in Hrun. fold args in Hrun. rewrite Hret in Hrun.
  destruct v; unfold createCustomAuthRequest;
    [rewrite index_run | rewrite test_run]; fold r'; rewrite Hrun; cbn; eauto.
Qed.

(** C4 (amended). A body text that [JSON.parse] rejects makes the
    parsing step yield the text itself, not an exception. When the
    caller's callback, if there is one, returns normally on being
    handed the result, the call resolves with the result whose body
    is that text, and the callback has been handed that result and no
    other. *)
Theorem C4_unparseable_body_is_returned_raw
        (v : variant) (r : RequestOptions.t) (options : RequestInit.t)
        (response : Response.t) (t : string) :
  let r' := redirected emulatorHost r in
  let result :=
    Result.mk (Response.status response) (JString t)
              (fromEntries (Response.headers response)) in
  prepareFetchOptions JSON_stringify r = Return options ->
  net O (RequestOptions.uri r') options = Return response ->
  Response.text response = Return t ->
  JSON_parse t = None ->
  accepts (RequestOptions.callback r) (notification response result) ->
  parseBody JSON_parse t = JString t
  /\ (call (request v) r).1 = Return result
  /\ invoked (call (request v) r).2
     = match RequestOptions.callback r with
       | Some _ => [notification response result]
       | None => []
       end.
Proof.
  intros r' result Hoptions Hnet Htext Hparse Haccepts.
  assert (Hbody : parseBody JSON_parse t = JString t)
    by (unfold parseBody; now rewrite Hparse).
  assert (Hres : normalise JSON_parse response t = result)
    by (unfold normalise; now rewrite Hbody).
  split; [exact Hbody|].
  assert (Hrun := exchange_prepared r options Hoptions).
  cbn zeta in Hrun. fold r' in Hrun. rewrite Hnet, Htext, Hres in Hrun.
  unfold accepts in Haccepts.
  destruct (RequestOptions.callback r) as [callback|].
  - rewrite Haccepts in Hrun.
    destruct v; unfold createCustomAuthRequest;
      [rewrite index_run | rewrite test_run]; fold r'; rewrite Hrun;
      split; reflexivity.
  - destruct v; unfold createCustomAuthRequest;
      [rewrite index_run | rewrite test_run]; fold r'; rewrite Hrun;
      split; reflexivity.
Qed.

(** C7 (amended). When the dispatch fails at the network level with
    [e], neither copy of the function dispatches a second request.
    The function of [index.ts] invokes the callback, if there is one,
    once with [e] and rejects the promise (with [e], if the callback
    returns normally). The simplified function of [test.ts] rejects
    the promise with [e] and does not invoke the callback. *)
Theorem C7_network_failure_is_relayed
        (r : RequestOptions.t) (options : RequestInit.t) (e : JsError.t) :
  let r' := redirected emulatorHost r in
  let args := CallbackArgs.mk (Some e) JUndefined None in
  let index := call (request IndexTs) r in
  let test := call (request TestTs) r in
  prepareFetchOptions JSON_stringify r = Return options ->
  networkFailure net (RequestOptions.uri r') options e ->
  ((exists e', index.1 = Throw e')
   /\ (accepts (RequestOptions.callback r) args -> index.1 = Throw e)
   /\ invoked index.2 = match RequestOptions.callback r with
                        | Some _ => [args]
                        | None => []
                        end
   /\ length (dispatched index.2) = 1%nat)
  /\ (test.1 = Throw e
      /\ invoked test.2 = []
      /\ length (dispatched test.2) = 1%nat).
Proof.
  intros r' args index test Hoptions Hfail.
  assert (Hrun : exchange JSON_parse JSON_stringify net (mkWorld r' [] [])
                 = (Throw e,
                    mkWorld r' [(RequestOptions.uri r', options)] [])).
  { assert (Hrun := exchange_prepared r options Hoptions).
    cbn zeta in Hrun. fold r' in Hrun. rewrite Hrun.
    destruct Hfail as [Hnet | (response & Hnet & Htext)].
    - now rewrite Hnet.
    - now rewrite Hnet, Htext. }
  split.
  - subst index. unfold createCustomAuthRequest.
    rewrite index_run. fold r'. rewrite Hrun, relay_run.
    change (RequestOptions.callback r') with (RequestOptions.callback r).
    unfold accepts. fold args.
    destruct (RequestOptions.callback r) as [callback|]; cbn [app].
    + destruct (callback args) as [[]|e'] eqn:Hcall; cbn;
        repeat split; eauto; intros; congruence.
    + cbn. repeat split; eauto.
  - subst test. unfold createCustomAuthRequest.
    rewrite test_run. fold r'. rewrite Hrun. cbn. repeat split.
Qed.

End RequestClaims.

(* ================================================================== *)
(** * Worked calls *)
(* ================================================================== *)

Module RequestRuns.
Import JsString UriShape Sample.

(** The default setup: the query endpoint is redirected to the
    emulator. *)
Lemma C1_witness :
  let w := (run IndexTs emulator (answers 200 "{}")
                       (descriptor queries None None)).2 in
  RequestOptions.uri (reqOpts w)
  = Some "http://127.0.0.1:9050/bigquery/v2/projects/test-project/queries".
Proof.
  refine (proj1 (C1_cloud_uri_redirected
                   JSON_parse JSON_stringify emulator
                   (answers 200 "{}") IndexTs
                   (descriptor queries None None)
                   true "bigquery" "/bigquery/v2/projects/test-project/queries"
                   _ _ _ _ _ _ _));
    first [reflexivity | discriminate].
Defined.

(** Two uris for which the claim as stated fails. A second cloud-API
    URL inside the query is rewritten as well, so the query does not
    stay as it was; and an https base URL on a loopback host is not
    the prefix of the rewritten uri, which has been downgraded. *)
Lemma C1_counterexample :
  (let rest := "/q?ref=http://www.googleapis.com/x" in
   let w := (run IndexTs emulator (answers 200 "{}")
               (descriptor (cloudUri true "bigquery" rest) None None)).2 in
   slashFree "bigquery" = true /\ pathLike rest = true
   /\ RequestOptions.uri (reqOpts w)
      = Some "http://127.0.0.1:9050/q?ref=http://127.0.0.1:9050/x"
   /\ RequestOptions.uri (reqOpts w) <> Some (emulator +:+ rest))
  /\
  (let base := "https://localhost:9050" in
   let rest := "/bigquery/v2/projects/test-project/queries" in
   let w := (run IndexTs base (answers 200 "{}")
               (descriptor (cloudUri true "bigquery" rest) None None)).2 in
   RequestOptions.uri (reqOpts w)
   = Some "http://localhost:9050/bigquery/v2/projects/test-project/queries"
   /\ RequestOptions.uri (reqOpts w) <> Some (base +:+ rest)).
Proof.
  cbn zeta. repeat split; try reflexivity; vm_compute; discriminate.
Qed.

(** An https base URL on localhost: the request goes out over http. *)
Lemma C2_witness :
  let w := (run TestTs "https://localhost:9050" (answers 200 "{}")
                (descriptor queries None None)).2 in
  exists uri',
    RequestOptions.uri (reqOpts w) = Some uri'
    /\ startsWith uri' "http://" = true
    /\ startsWith uri' "https://" = false
    /\ dispatched w
       = [(Some uri',
           RequestInit.mk "POST" {[ "Content-Type" := "application/json" ]}
                          (Some "{}"))].
Proof.
  refine (C2_loopback_dispatched_over_http
            JSON_parse JSON_stringify "https://localhost:9050"
            (answers 200 "{}") TestTs
            (descriptor queries None None) queries _ _ _);
    first [reflexivity | discriminate].
Defined.

(** The claim as stated fails for the loopback addresses that the
    program does not test for. With the emulator at the IPv6 loopback
    address [::1], or at 127.0.0.2, behind https, the host of the
    rewritten uri is a loopback address and the request goes out over
    https. *)
Lemma C2_counterexample :
  (let w := (run IndexTs "https://[::1]:9050" (answers 200 "{}")
                 (descriptor queries None None)).2 in
   let uri' := "https://[::1]:9050/bigquery/v2/projects/test-project/queries" in
   exists options, dispatched w = [(Some uri', options)])
  /\
  (let w := (run TestTs "https://127.0.0.2:9050" (answers 200 "{}")
                 (descriptor queries None None)).2 in
   let uri' := "https://127.0.0.2:9050/bigquery/v2/projects/test-project/queries" in
   exists options, dispatched w = [(Some uri', options)]).
Proof. cbn zeta. split; eexists; vm_compute; reflexivity. Qed.

(** A 404 answer and a callback that returns. *)
Lemma C3_witness :
  let r := descriptor queries None (Some ignore) in
  let result := normalise JSON_parse notFound "not found" in
  let args := CallbackArgs.mk (Some (statusError 404 result)) JNull (Some result) in
  let run := run TestTs emulator (answers 404 "not found") r in
  run.1 = Return result /\ invoked run.2 = [args]
  /\ is_Some (CallbackArgs.error args).
Proof.
  refine (C3_status_error_goes_to_callback_only
            JSON_parse JSON_stringify emulator
            (answers 404 "not found") TestTs
            (descriptor queries None (Some ignore))
            ignore _ notFound "not found" _ _ _ _ _ _);
    reflexivity.
Defined.

(** The claim as stated fails for a callback that throws the error it
    is given, [(err) => { if (err) throw err; }]: the function of
    [index.ts] invokes it a second time from its [catch] block, and
    the promise rejects with the very error the callback received. *)
Lemma C3_counterexample :
  let r := descriptor queries None (Some rethrow) in
  let result := normalise JSON_parse notFound "not found" in
  let e := statusError 404 result in
  let run := run IndexTs emulator (answers 404 "not found") r in
  invoked run.2 = [CallbackArgs.mk (Some e) JNull (Some result);
                   CallbackArgs.mk (Some e) JUndefined None]
  /\ run.1 = Throw e.
Proof. cbn zeta. split; vm_compute; reflexivity. Qed.

(** A body that is not JSON, and a callback that returns. *)
Lemma C4_witness :
  let r := descriptor queries None (Some ignore) in
  let result := Result.mk 200 (JString "plain text")
                          (fromEntries [("content-type", "text/plain")]) in
  parseBody JSON_parse "plain text" = JString "plain text"
  /\ (run IndexTs emulator (answers 200 "plain text") r).1 = Return result
  /\ invoked (run IndexTs emulator (answers 200 "plain text") r).2
     = [CallbackArgs.mk None (JString "plain text") (Some result)].
Proof.
  refine (C4_unparseable_body_is_returned_raw
            JSON_parse JSON_stringify emulator
            (answers 200 "plain text") IndexTs
            (descriptor queries None (Some ignore))
            _ plain "plain text" _ _ _ _ _);
    reflexivity.
Defined.

(** The claim as stated fails when the callback throws: the body of
    the 404 answer is not JSON, the callback
    [(err) => { if (err) throw err; }] throws the error it is given,
    and the call returns no result at all: the promise rejects, in
    both copies of the function. *)
Lemma C4_counterexample :
  let r := descriptor queries None (Some rethrow) in
  let result := normalise JSON_parse notFound "not found" in
  JSON_parse "not found" = None
  /\ (run TestTs emulator (answers 404 "not found") r).1
     = Throw (statusError 404 result)
  /\ (run IndexTs emulator (answers 404 "not found") r).1
     = Throw (statusError 404 result).
Proof. cbn zeta. repeat split; vm_compute; reflexivity. Qed.

(** The emulator is down; the descriptor carries a callback. *)
Lemma C7_witness :
  let r := descriptor queries None (Some ignore) in
  let args := CallbackArgs.mk (Some refused) JUndefined None in
  let index := run IndexTs emulator unreachable r in
  let test := run TestTs emulator unreachable r in
  ((exists e', index.1 = Throw e')
   /\ (accepts (RequestOptions.callback r) args -> index.1 = Throw refused)
   /\ invoked index.2 = [args]
   /\ length (dispatched index.2) = 1%nat)
  /\ (test.1 = Throw refused
      /\ invoked test.2 = []
      /\ length (dispatched test.2) = 1%nat).
Proof.
  refine (C7_network_failure_is_relayed
            JSON_parse JSON_stringify emulator unreachable
            (descriptor queries None (Some ignore))
            _ refused _ _).
  - reflexivity.
  - left. reflexivity.
Defined.

(** The claim as stated fails for the function of [test.ts]: the
    emulator is down, the descriptor carries a callback, and the
    callback is never invoked. *)
Lemma C7_counterexample :
  let r := descriptor queries None (Some ignore) in
  let run := run TestTs emulator unreachable r in
  is_Some (RequestOptions.callback r)
  /\ run.1 = Throw refused
  /\ invoked run.2 = [].
Proof. cbn zeta. repeat split; eauto. Qed.

(** The claim as stated fails in one direction: a caller who supplies
    [Content-Type: application/json] gets that content type, although
    the header is the caller's own. And a header named in lower case
    does not displace the default: both entries are dispatched. *)
Lemma C10_counterexample :
  (let supplied : gmap string string := {[ "Content-Type" := "application/json" ]} in
   let r := descriptor queries (Some supplied) None in
   exists uri options,
     dispatched (run IndexTs emulator (answers 200 "{}") r).2
     = [(uri, options)]
     /\ RequestInit.headers options !! "Content-Type" = Some "application/json"
     /\ supplied !! "Content-Type" <> None)
  /\
  (let supplied : gmap string string := {[ "content-type" := "text/plain" ]} in
   let r := descriptor queries (Some supplied) None in
   exists uri options,
     dispatched (run IndexTs emulator (answers 200 "{}") r).2
     = [(uri, options)]
     /\ RequestInit.headers options !! "Content-Type" = Some "application/json"
     /\ RequestInit.headers options !! "content-type" = Some "text/plain").
Proof.
  cbn zeta. split; do 2 eexists; (split; [reflexivity|]);
    split; vm_compute; congruence.
Qed.

End RequestRuns.

(* ================================================================== *)
(** * Rules of the program logic *)
(* ================================================================== *)

Module ScriptLogic.

Section Rules.
Context {A B : Type}.
Implicit Types (P : Process -> Prop) (R : JsError.t -> Process -> Prop).

Lemma triple_conseq P P' (m : Script.t A) (Q Q' : A -> Process -> Prop) R R' :
  triple P m Q R ->
  (forall p, P' p -> P p) ->
  (forall a p, Q a p -> Q' a p) ->
  (forall e p, R e p -> R' e p) ->
  triple P' m Q' R'.
Proof.
  intros Hm HP HQ HR p Hp. specialize (Hm p (HP p Hp)).
  destruct (m p) as [[a|e|c] p']; auto.
Qed.

Lemma triple_bind P (m : Script.t A) (k : A -> Script.t B)
      (Q : A -> Process -> Prop) (Q' : B -> Process -> Prop) R :
  triple P m Q R ->
  (forall a, triple (Q a) (k a) Q' R) ->
  triple P (Script.bind m k) Q' R.
Proof.
  intros Hm Hk p Hp. specialize (Hm p Hp). unfold Script.bind.
  destruct (m p) as [[a|e|c] p']; [|assumption|contradiction].
  exact (Hk a p' Hm).
Qed.

Lemma triple_tryCatch P (body : Script.t A) (handler : JsError.t -> Script.t A)
      (Q : A -> Process -> Prop) R R' :
  triple P body Q R' ->
  (forall e, triple (R' e) (handler e) Q R) ->
  triple P (Script.tryCatch body handler) Q R.
Proof.
  intros Hm Hh p Hp. specialize (Hm p Hp). unfold Script.tryCatch.
  destruct (body p) as [[a|e|c] p']; [assumption| |contradiction].
  exact (Hh e p' Hm).
Qed.

Lemma triple_perform P (f : Sdk.context -> completion A) (r : Sdk.request)
      (Q : A -> Process -> Prop) R :
  (forall a p, P p -> Q a (Script.note r None p)) ->
  (forall e p, P p -> R e (Script.note r (Some e) p)) ->
  triple P (Script.perform f r) Q R.
Proof.
  intros HQ HR p Hp. unfold Script.perform.
  destruct (f (Script.context p)); auto.
Qed.

End Rules.

(** ** Invariants *)

Section Invariants.
Variables I J : Process -> Prop.
Hypothesis I_J : forall p, I p -> J p.
Hypothesis I_success : forall r p, I p -> I (Script.note r None p).
Hypothesis J_failure : forall r e p, I p -> J (Script.note r (Some e) p).

Lemma keeps_ret {A} (a : A) : keeps I J (Script.ret a).
Proof. intros p Hp. exact Hp. Qed.

Lemma keeps_throw {A} (e : JsError.t) : keeps I J (@Script.throw A e).
Proof. intros p Hp. cbn. auto. Qed.

Lemma keeps_eval {A} (c : completion A) : keeps I J (Script.eval c).
Proof. intros p Hp. destruct c; cbn; auto. Qed.

Lemma keeps_getenv (name : string) : keeps I J (Script.getenv name).
Proof. intros [e j] Hp. exact Hp. Qed.

Lemma keeps_bind {A B} (m : Script.t A) (k : A -> Script.t B) :
  keeps I J m -> (forall a, keeps I J (k a)) -> keeps I J (Script.bind m k).
Proof. intros Hm Hk. eapply triple_bind; [exact Hm | exact Hk]. Qed.

Lemma keeps_if {A} (b : bool) (m1 m2 : Script.t A) :
  keeps I J m1 -> keeps I J m2 -> keeps I J (if b then m1 else m2).
Proof. now destruct b. Qed.

Lemma keeps_forEach {A} (f : A -> Script.t unit) (l : list A) :
  (forall x, keeps I J (f x)) -> keeps I J (forEach f l).
Proof.
  intros Hf. induction l as [|x l IH]; cbn [forEach].
  - apply keeps_ret.
  - apply keeps_bind; [apply Hf | intros _; exact IH].
Qed.

Lemma keeps_perform {A} (f : Sdk.context -> completion A) (r : Sdk.request) :
  keeps I J (Script.perform f r).
Proof. apply triple_perform; auto. Qed.

(** A handler that swallows the exception. *)
Lemma keeps_attempt (m : Script.t unit) :
  (forall p, J p -> I p) -> keeps I J m -> keeps I J (attempt m).
Proof.
  intros HJ Hm. eapply triple_tryCatch; [exact Hm|].
  intros e p Hp. cbn. auto.
Qed.

(** Handlers that return a fallback or throw again. *)
Lemma keeps_catchConflict {A} (promise : Script.t A) (existing : A) :
  (forall p, J p -> I p) -> keeps I J promise ->
  keeps I J (catchConflict promise existing).
Proof.
  intros HJ Hm. eapply triple_tryCatch; [exact Hm|].
  intros e p Hp. destruct (isConflict e); cbn; auto.
Qed.

Lemma keeps_tryExisting {A} (promise : Script.t A) (existing : A) :
  (forall p, J p -> I p) -> keeps I J promise ->
  keeps I J (tryExisting promise existing).
Proof.
  intros HJ Hm. eapply triple_tryCatch; [exact Hm|].
  intros e p Hp. destruct (isConflict e || saysAlready e); cbn; auto.
Qed.

End Invariants.

(** One step of a proof that a script keeps an invariant; [side]
    proves the facts about the invariant itself. *)
Ltac keep side :=
  lazymatch goal with
  | |- keeps _ _ (Script.bind _ _) => apply keeps_bind; [|intros ?]
  | |- keeps _ _ (Script.perform _ _) => apply keeps_perform; side
  | |- keeps _ _ (Script.eval _) => apply keeps_eval; side
  | |- keeps _ _ (Script.ret _) => apply keeps_ret
  | |- keeps _ _ (Script.throw _) => apply keeps_throw; side
  | |- keeps _ _ (Script.getenv _) => apply keeps_getenv
  | |- keeps _ _ (forEach _ _) => apply keeps_forEach; intros ?
  | |- keeps _ _ (if _ then _ else _) => apply keeps_if
  | |- keeps _ _ (attempt _) => apply keeps_attempt; [side|]
  | |- keeps _ _ (catchConflict _ _) => apply keeps_catchConflict; [side|]
  | |- keeps _ _ (tryExisting _ _) => apply keeps_tryExisting; [side|]
  end.

(** Read a triple as the statement of an invariant. *)
Ltac as_keeps :=
  lazymatch goal with
  | |- triple ?I ?m (fun _ => ?I) (fun _ => ?J) => change (keeps I J m)
  end.

(** The definitions a script is made of. *)
Ltac unfold_script :=
  unfold sequence, envIndex_sequence, envTest_sequence, simpleIndex_sequence,
    overrideIndex_sequence, overrideTest_sequence, runQuery, clearCredentials,
    defaultEmulatorHost, createDataset, createTable, insert, createQueryJob,
    getQueryResults;
  cbn zeta.

End ScriptLogic.

(* ================================================================== *)
(** * Invariants of the scripts *)
(* ================================================================== *)

Module ScriptInvariants.
Import ScriptLogic.

(** ** The journal holds no failure that was not recovered from *)

Lemma settled_note (s : script) (r : Sdk.request) (f : option JsError.t) (p : Process) :
  settled s p ->
  match f with Some e => recovers s r e = true | None => True end ->
  settled s (Script.note r f p).
Proof.
  unfold settled, Script.note. cbn [journal]. intros Hp Hf.
  rewrite forallb_app, Hp. cbn. unfold harmless; cbn.
  destruct f; [now rewrite Hf | reflexivity].
Qed.

Lemma settled_success (s : script) (r : Sdk.request) (p : Process) :
  settled s p -> settled s (Script.note r None p).
Proof. intros Hp. now apply settled_note. Qed.

Lemma settled_setenv (s : script) (name value : string) :
  keeps (settled s) anything (Script.setenv name value).
Proof. intros [e j] Hp. exact Hp. Qed.

Lemma settled_unsetenv (s : script) (name : string) :
  keeps (settled s) anything (Script.unsetenv name).
Proof. intros [e j] Hp. exact Hp. Qed.

Lemma settled_dotenv (s : script) (file : gmap string string) :
  keeps (settled s) anything (Script.dotenv_config file).
Proof. intros [e j] Hp. exact Hp. Qed.

(** A creation behind [catchConflict]: the conflict is recovered from. *)
Lemma settled_catchConflict {A} (s : script) (f : Sdk.context -> completion A)
      (r : Sdk.request) (existing : A) :
  (forall e, isConflict e = true -> recovers s r e = true) ->
  keeps (settled s) anything (catchConflict (Script.perform f r) existing).
Proof.
  intros Hrec. unfold catchConflict.
  apply triple_tryCatch
    with (R' := fun e p' => exists p, settled s p /\ p' = Script.note r (Some e) p).
  - apply triple_perform; eauto using settled_success.
  - intros e p (p0 & Hp0 & ->).
    destruct (isConflict e) eqn:He; cbn; [|exact Logic.I].
    apply settled_note; auto.
Qed.

(** A creation behind [tryExisting]. *)
Lemma settled_tryExisting {A} (s : script) (f : Sdk.context -> completion A)
      (r : Sdk.request) (existing : A) :
  (forall e, isConflict e || saysAlready e = true -> recovers s r e = true) ->
  keeps (settled s) anything (tryExisting (Script.perform f r) existing).
Proof.
  intros Hrec. unfold tryExisting.
  apply triple_tryCatch
    with (R' := fun e p' => exists p, settled s p /\ p' = Script.note r (Some e) p).
  - apply triple_perform; eauto using settled_success.
  - intros e p (p0 & Hp0 & ->).
    destruct (isConflict e || saysAlready e) eqn:He; cbn; [|exact Logic.I].
    apply settled_note; auto.
Qed.

Ltac settle :=
  lazymatch goal with
  | |- keeps _ _ (catchConflict _ _) =>
      apply settled_catchConflict; intros ? He; cbn; rewrite He; reflexivity
  | |- keeps _ _ (tryExisting _ _) =>
      apply settled_tryExisting; intros ? He; cbn; exact He
  | |- keeps _ _ (Script.setenv _ _) => apply settled_setenv
  | |- keeps _ _ (Script.unsetenv _) => apply settled_unsetenv
  | |- keeps _ _ (Script.dotenv_config _) => apply settled_dotenv
  | |- _ => keep ltac:(solve [unfold anything; eauto using settled_success])
  end.

(** ** No credential variable is set *)

Lemma cleared_note (r : Sdk.request) (f : option JsError.t) (p : Process) :
  cleared p -> cleared (Script.note r f p).
Proof.
  intros [He Hj]. split; [exact He|]. cbn [journal Script.note].
  apply Forall_app. split; [exact Hj|]. now constructor.
Qed.

Lemma cleared_setenv (value : string) :
  keeps cleared cleared (Script.setenv "BIGQUERY_EMULATOR_HOST" value).
Proof.
  intros [e j] [He Hj]. split; [|exact Hj]. cbn [env] in *.
  unfold withoutCredentials, credentialVariables in *.
  repeat match goal with
         | H : Forall _ (_ :: _) |- _ => apply Forall_cons in H as [? H]
         end.
  repeat constructor; now rewrite lookup_insert_ne.
Qed.

(** The three [delete] statements establish the invariant. *)
Lemma clearCredentials_cleared :
  triple (fun p => journal p = []) clearCredentials
         (fun _ => cleared) (fun _ => cleared).
Proof.
  intros [e j] Hj. cbn in Hj. subst j. cbn. split; [|constructor].
  cbn [env]. unfold withoutCredentials, credentialVariables.
  repeat constructor; rewrite ?lookup_delete_eq;
    repeat (rewrite lookup_delete_ne by discriminate; rewrite ?lookup_delete_eq);
    reflexivity.
Qed.

Ltac clear_step :=
  lazymatch goal with
  | |- keeps _ _ (Script.setenv _ _) => apply cleared_setenv
  | |- _ => keep ltac:(solve [eauto using cleared_note])
  end.

(** ** The first call was issued with the credentials variable set *)

Lemma exposed_note (value : string) (r : Sdk.request) (f : option JsError.t)
      (p : Process) :
  exposed value p -> exposed value (Script.note r f p).
Proof.
  intros (entry & Hentry & Hvalue). exists entry. split; [|exact Hvalue].
  cbn [journal Script.note]. now apply lookup_app_l_Some.
Qed.

Lemma exposing_note (value : string) (r : Sdk.request) (f : option JsError.t)
      (p : Process) :
  exposing value p -> exposed value (Script.note r f p).
Proof.
  intros [Hj He]. eexists. cbn [journal Script.note]. rewrite Hj.
  split; [reflexivity | exact He].
Qed.

Lemma exposing_perform {A} (value : string) (f : Sdk.context -> completion A)
      (r : Sdk.request) :
  triple (exposing value) (Script.perform f r)
         (fun _ => exposed value) (fun _ => exposed value).
Proof. apply triple_perform; eauto using exposing_note. Qed.

Lemma exposing_dotenv (value : string) (file : gmap string string) :
  triple (exposing value) (Script.dotenv_config file)
         (fun _ => exposing value) (fun _ => exposed value).
Proof.
  intros [e j] [Hj He]. split; [exact Hj|]. cbn [env] in *.
  now apply lookup_union_Some_l.
Qed.

Lemma exposing_getenv (value name : string) :
  triple (exposing value) (Script.getenv name)
         (fun _ => exposing value) (fun _ => exposed value).
Proof. intros p Hp. exact Hp. Qed.

Ltac expose_step :=
  keep ltac:(solve [eauto using exposed_note]).

End ScriptInvariants.

(* ================================================================== *)
(** * Runs of the scripts *)
(* ================================================================== *)

Section Runs.
Import ScriptLogic ScriptInvariants.

Variable sdk : Sdk.backend.
Variable dotenvFile : gmap string string.
Variable clock : nat -> string.
Variable JSON_stringify : js_value -> string.

#[local] Abbreviation sequence' := (sequence sdk dotenvFile clock JSON_stringify).
#[local] Abbreviation run' := (run sdk dotenvFile clock JSON_stringify).
#[local] Abbreviation status' := (status sdk dotenvFile clock JSON_stringify).

(** A run is the example sequence, followed by the [catch] block of
    the entry function when the sequence throws. *)
Lemma run_sequence (s : script) (env0 : gmap string string) :
  run' s env0
  = match sequence' s (mkProcess env0 []) with
    | (Failed _, p) => (if hasExit1 s then Exited 1 else Done tt, p)
    | other => other
    end.
Proof.
  destruct s;
    unfold run, program, sequence, envIndex, envTest, testEmulator, simpleIndex,
      overrideIndex, overrideTest, envIndex_main, envTest_testConnection,
      simpleIndex_main, overrideIndex_main, overrideTest_testConnection, orExit1;
    cbn -[envIndex_sequence envTest_sequence simpleIndex_sequence
          overrideIndex_sequence overrideTest_sequence attempt runQuery];
    unfold Script.tryCatch, Script.bind;
    repeat case_innermost; reflexivity.
Qed.

(** The example sequence of a script with a [process.exit(1)] ends
    normally only with a settled journal, and never exits by itself. *)
Lemma sequence_settled (s : script) :
  hasExit1 s = true -> keeps (settled s) anything (sequence' s).
Proof.
  destruct s; intros Hs; try discriminate Hs; unfold_script; repeat settle.
Qed.

(** In the scripts that delete the credential variables, every call
    is issued without them. *)
Lemma sequence_cleared (s : script) :
  clearsCredentials s = true ->
  triple (fun p => journal p = []) (sequence' s) (fun _ => cleared) (fun _ => cleared).
Proof.
  destruct s; intros Hs; try discriminate Hs; unfold sequence.
  - eapply triple_bind with (Q := fun _ p => journal p = []);
      [intros [e j] Hj; exact Hj | intros ?; cbv beta].
    eapply triple_bind; [apply clearCredentials_cleared | intros ?; cbv beta].
    unfold_script. as_keeps. repeat clear_step.
  - eapply triple_bind with (Q := fun _ p => journal p = []);
      [intros [e j] Hj; exact Hj | intros ?; cbv beta].
    eapply triple_bind; [apply clearCredentials_cleared | intros ?; cbv beta].
    unfold_script. as_keeps. repeat clear_step.
  - eapply triple_bind; [apply clearCredentials_cleared | intros ?; cbv beta].
    unfold_script. as_keeps. repeat clear_step.
  - eapply triple_bind with (Q := fun _ p => journal p = []);
      [intros [e j] Hj; exact Hj | intros ?; cbv beta].
    eapply triple_bind; [apply clearCredentials_cleared | intros ?; cbv beta].
    unfold_script. as_keeps. repeat clear_step.
Qed.

(** In the two scripts that do not, the first call is issued with the
    credentials variable as it was. *)
Lemma sequence_exposed (s : script) (value : string) :
  clearsCredentials s = false ->
  triple (exposing value) (sequence' s)
         (fun _ => exposed value) (fun _ => exposed value).
Proof.
  destruct s; intros Hs; try discriminate Hs; unfold sequence.
  - eapply triple_bind; [apply exposing_dotenv | intros ?; cbv beta].
    eapply triple_bind; [apply exposing_getenv | intros h].
    unfold_script.
    eapply triple_bind.
    + eapply triple_tryCatch; [apply exposing_perform|].
      intros e p Hp. destruct (isConflict e); cbn; exact Hp.
    + intros dataset. cbv beta. as_keeps. repeat expose_step.
  - eapply triple_bind; [apply exposing_dotenv | intros ?; cbv beta].
    eapply triple_bind; [apply exposing_getenv | intros h].
    unfold_script.
    eapply triple_bind; [apply exposing_perform | intros job; cbv beta].
    as_keeps. repeat expose_step.
Qed.

(** C6 (where the code departs from the claim). The two scripts of
    the override approach, [index.ts] and [test.ts], do not delete
    the credential variables: when [GOOGLE_APPLICATION_CREDENTIALS]
    is set as the script starts, it is still set, to the same value,
    when the first client call is issued. *)
Theorem C6_override_scripts_keep_credentials
        (s : script) (env0 : gmap string string) (value : string) :
  clearsCredentials s = false ->
  env0 !! credentials = Some value ->
  exposed value (run' s env0).2.
Proof.
  intros Hs Hvalue. rewrite run_sequence.
  assert (Hseq := sequence_exposed s value Hs (mkProcess env0 [])
                                   (conj eq_refl Hvalue)).
  destruct (sequence' s (mkProcess env0 [])) as [[[]|e|c] p];
    [exact Hseq | exact Hseq | contradiction].
Qed.

(** The other four scripts do delete them: every client call of a run
    is issued with none of the three variables set. *)
Lemma credentials_cleared_elsewhere (s : script) (env0 : gmap string string) :
  clearsCredentials s = true -> cleared (run' s env0).2.
Proof.
  intros Hs. rewrite run_sequence.
  assert (Hseq := sequence_cleared s Hs (mkProcess env0 []) eq_refl).
  destruct (sequence' s (mkProcess env0 [])) as [[[]|e|c] p];
    [exact Hseq | exact Hseq | contradiction].
Qed.

(** The example sequence never calls [process.exit]. *)
Lemma sequence_no_exit (s : script) (env0 : gmap string string) (c : Z) :
  (sequence' s (mkProcess env0 [])).1 <> Exited c.
Proof.
  intros Hexit.
  destruct (hasExit1 s) eqn:Hs.
  - assert (Hseq := sequence_settled s Hs (mkProcess env0 []) eq_refl).
    destruct (sequence' s (mkProcess env0 [])) as [[[]|e|c'] p];
      [discriminate | discriminate | contradiction].
  - assert (Hc : clearsCredentials s = true) by (destruct s; (discriminate || reflexivity)).
    assert (Hseq := sequence_cleared s Hc (mkProcess env0 []) eq_refl).
    destruct (sequence' s (mkProcess env0 [])) as [[[]|e|c'] p];
      [discriminate | discriminate | contradiction].
Qed.

Lemma status_sequence (s : script) (env0 : gmap string string) :
  status' s env0
  = if hasExit1 s
    then match (sequence' s (mkProcess env0 [])).1 with
         | Done _ => 0
         | _ => 1
         end
    else 0.
Proof.
  unfold status. rewrite run_sequence.
  pose proof (sequence_no_exit s env0) as Hexit.
  destruct (sequence' s (mkProcess env0 [])) as [[[]|e|c] p]; cbn in *.
  - now destruct (hasExit1 s).
  - now destruct (hasExit1 s), s.
  - now destruct (Hexit c).
Qed.

(** C8 (amended). The exit code of every script is 0 or 1. A script
    whose entry function ends its [catch] block with
    [process.exit(1)] (all but the minimal test script) exits with 0
    when its example sequence runs to the end and with 1 when the
    sequence throws; it throws, in particular, whenever a client call
    failed with an error the script does not recover from. The
    minimal test script catches every failure and always exits
    with 0. *)
Theorem C8_exit_codes (s : script) (env0 : gmap string string) :
  (status' s env0 = 0 \/ status' s env0 = 1)
  /\ status' s env0
     = (if hasExit1 s
        then match (sequence' s (mkProcess env0 [])).1 with
             | Done _ => 0
             | _ => 1
             end
        else 0)
  /\ (hasExit1 s = true ->
      forall (i : nat) (entry : Entry),
        journal (run' s env0).2 !! i = Some entry ->
        harmless s entry = false ->
        status' s env0 = 1).
Proof.
  split; [|split; [apply status_sequence|]].
  - rewrite status_sequence.
    destruct (hasExit1 s); [|now left].
    destruct (sequence' s (mkProcess env0 [])).1; auto.
  - intros Hs i entry Hentry Hharm.
    rewrite status_sequence, Hs. rewrite run_sequence in Hentry.
    assert (Hseq := sequence_settled s Hs (mkProcess env0 []) eq_refl).
    destruct (sequence' s (mkProcess env0 [])) as [[[]|e|c] p];
      [|reflexivity|reflexivity].
    exfalso. cbn in Hentry. unfold settled in Hseq.
    rewrite forallb_forall in Hseq.
    apply list_elem_of_lookup_2, list_elem_of_In in Hentry.
    rewrite (Hseq entry Hentry) in Hharm. discriminate.
Qed.

End Runs.

(* ================================================================== *)
(** * Worked runs of the scripts *)
(* ================================================================== *)

Module ScriptRuns.
Import SampleSdk.

(** The claim as stated fails for [simple-index.ts]: the creation of
    the dataset fails with code 500 and a message that contains
    [already]; the script goes on with the reference to the dataset
    all the same, and ends normally. *)
Lemma C5_counterexample :
  let outcome := run (rejecting datasets busy) SimpleIndex ∅ in
  let dataset := Sdk.dataset stubClient "override_test_dataset" in
  isConflict busy = false
  /\ (request <$> journal outcome.2) !! 0%nat
     = Some (Sdk.CreateDataset stubClient "override_test_dataset")
  /\ (failure <$> journal outcome.2) !! 0%nat = Some (Some busy)
  /\ (request <$> journal outcome.2) !! 1%nat
     = Some (Sdk.CreateTable dataset "simple_users" simpleIndex_schema)
  /\ outcome.1 = Done tt.
Proof. cbn zeta. repeat split; vm_compute; reflexivity. Qed.

(** [test.ts] of the override approach, started with a key file in
    the environment. *)
Lemma C6_witness :
  let env0 : gmap string string := {[ credentials := "/home/me/key.json" ]} in
  exposed "/home/me/key.json"
          (run (rejecting none refused) OverrideTest env0).2.
Proof.
  exact (C6_override_scripts_keep_credentials
           (rejecting none refused) ∅ clock JSON_stringify OverrideTest
           {[ credentials := "/home/me/key.json" ]} "/home/me/key.json"
           eq_refl eq_refl).
Defined.

(** The emulator is down when [env-variable-example/test.ts] runs. *)
Lemma C8_witness :
  status (rejecting all refused) EnvTest ∅ = 1.
Proof.
  refine (proj2 (proj2 (C8_exit_codes (rejecting all refused) ∅ clock
                                      JSON_stringify EnvTest ∅))
                eq_refl 0%nat _ _ _); reflexivity.
Defined.

(** The claim as stated fails for the minimal test script: the
    emulator is down, both queries fail, and the exit code is 0. *)
Lemma C8_counterexample :
  let outcome := run (rejecting all refused) TestEmulator ∅ in
  failure <$> journal outcome.2 = [Some refused; Some refused]
  /\ forallb (harmless TestEmulator) (journal outcome.2) = false
  /\ status (rejecting all refused) TestEmulator ∅ = 0.
Proof. cbn zeta. repeat split; vm_compute; reflexivity. Qed.

End ScriptRuns.

(* ================================================================== *)
(** * More about the request function *)
(* ================================================================== *)

Module MatchFacts.
Import JsString JsStringFacts Regex.

(** Where the star hands over to the rest of the pattern, the rest
    matches. *)
Lemma starNot_hands_over (c : ascii) (k : string -> option nat) (s : string) (n : nat) :
  starNot c k s = Some n -> exists a t, s = a +:+ t /\ is_Some (k t).
Proof.
  revert n; induction s as [|d s IH]; intros n H; cbn in H.
  - exists "", "". split; [reflexivity | eauto].
  - destruct (Ascii.eqb d c).
    + exists "", (String d s). split; [reflexivity | eauto].
    + destruct (starNot c k s) as [m|] eqn:Hs.
      * destruct (IH m eq_refl) as (a & t & -> & Ht).
        exists (String d a), t. split; [reflexivity | exact Ht].
      * exists "", (String d s). split; [reflexivity | eauto].
Qed.

Lemma includes_here (s p : string) : startsWith s p = true -> includes s p = true.
Proof. intros H. destruct s; cbn; now rewrite H. Qed.

Lemma includes_later (a t p : string) :
  includes t p = true -> includes (a +:+ t) p = true.
Proof.
  intros H. induction a as [|c a IH]; [exact H|].
  cbn. rewrite IH. now destruct (startsWith (String c (a +:+ t)) p).
Qed.

(** A match of [scheme [^c]+ domain] at the head of [s] shows the
    domain in [s]. *)
Lemma matchHere_includes (scheme domain : string) (c : ascii) (s : string) (n : nat) :
  matchHere [Lit scheme; PlusNot c; Lit domain] s = Some n ->
  includes s domain = true.
Proof.
  rewrite RegexFacts.matchHere_lit. unfold matchLit.
  destruct (startsWith s scheme) eqn:Hs; [|discriminate].
  apply startsWith_inv in Hs. set (s' := drop (String.length scheme) s) in *.
  rewrite RegexFacts.matchHere_plus. intros H.
  destruct (plusNot c (matchHere [Lit domain]) s') as [m|] eqn:Hm; [|discriminate].
  clear H. unfold plusNot in Hm. destruct s' as [|d s'']; [discriminate|].
  destruct (Ascii.eqb d c); [discriminate|].
  destruct (starNot c (matchHere [Lit domain]) s'') as [m'|] eqn:Hstar; [|discriminate].
  apply starNot_hands_over in Hstar as (a & t & -> & [x Hx]).
  rewrite Hs. apply includes_later.
  change (String d (a +:+ t)) with (String d a +:+ t). apply includes_later.
  apply includes_here.
  rewrite RegexFacts.matchHere_lit in Hx. unfold matchLit in Hx.
  now destruct (startsWith t domain).
Qed.

Lemma exec_includes (scheme domain : string) (c : ascii) (s : string) (f : found) :
  exec [Lit scheme; PlusNot c; Lit domain] s = Some f ->
  includes s domain = true.
Proof.
  revert f; induction s as [|d s IH]; intros f H; cbn [exec] in H.
  - destruct (matchHere _ "") as [n|] eqn:Hn; [|discriminate].
    now apply matchHere_includes in Hn.
  - destruct (matchHere _ (String d s)) as [n|] eqn:Hn.
    + now apply matchHere_includes in Hn.
    + destruct (exec _ s) as [g|] eqn:Hg; [|discriminate].
      apply (includes_later (String d "") s). now apply (IH g).
Qed.

(** Without the cloud domain in it, a uri is not touched by the two
    replacements. *)
Lemma replaceGoogleApis_foreign (e uri : string) :
  includes uri ".googleapis.com" = false -> replaceGoogleApis e uri = uri.
Proof.
  intros H. unfold replaceGoogleApis.
  assert (H1 : exec re_https_googleapis uri = None).
  { destruct (exec re_https_googleapis uri) eqn:Hx; [|reflexivity].
    apply exec_includes in Hx. congruence. }
  assert (H2 : exec re_http_googleapis uri = None).
  { destruct (exec re_http_googleapis uri) eqn:Hx; [|reflexivity].
    apply exec_includes in Hx. congruence. }
  now rewrite (RegexFacts.replace_no_match _ _ _ H1), (RegexFacts.replace_no_match _ _ _ H2).
Qed.

(** The downgrade leaves a downgraded uri alone. *)
Lemma downgradeLoopback_again (u : string) :
  downgradeLoopback (downgradeLoopback u) = downgradeLoopback u.
Proof.
  unfold downgradeLoopback at 2.
  destruct (JsString.startsWith u "https://127.0.0.1") eqn:H1.
  - apply JsStringFacts.startsWith_split in H1 as [t' ->]. reflexivity.
  - destruct (JsString.startsWith u "https://localhost") eqn:H2.
    + apply JsStringFacts.startsWith_split in H2 as [t' ->]. reflexivity.
    + cbn [orb]. unfold downgradeLoopback. now rewrite H1, H2.
Qed.

End MatchFacts.

Section RequestMore.
Import JsString UriShape.

Variable JSON_parse : string -> option js_value.
Variable JSON_stringify : js_value -> completion (option string).
Variable emulatorHost : string.
Variable net : Network.

#[local] Abbreviation request v :=
  (createCustomAuthRequest JSON_parse JSON_stringify v emulatorHost net).

(** The outcome of either copy once a response has been read. *)
Lemma call_with_response (v : variant) (r : RequestOptions.t)
      (options : RequestInit.t) (response : Response.t) (t : string) :
  let r' := redirected emulatorHost r in
  let result := normalise JSON_parse response t in
  let args := notification response result in
  prepareFetchOptions JSON_stringify r = Return options ->
  net O (RequestOptions.uri r') options = Return response ->
  Response.text response = Return t ->
  call (request v) r
  = match RequestOptions.callback r with
    | None => (Return result, mkWorld r' [(RequestOptions.uri r', options)] [])
    | Some callback =>
        match callback args with
        | Return _ => (Return result, mkWorld r' [(RequestOptions.uri r', options)] [args])
        | Throw e =>
            match v with
            | TestTs => (Throw e, mkWorld r' [(RequestOptions.uri r', options)] [args])
            | IndexTs =>
                let again := CallbackArgs.mk (Some e) JUndefined None in
                (match callback again with
                 | Return _ => Throw e
                 | Throw e' => Throw e'
                 end,
                 mkWorld r' [(RequestOptions.uri r', options)] [args; again])
            end
        end
    end.
Proof.
  intros r' result args Hoptions Hnet Htext.
  assert (Hrun := exchange_prepared JSON_parse JSON_stringify emulatorHost net
                                    r options Hoptions).
  cbn zeta in Hrun. fold r' in Hrun.
  rewrite Hnet, Htext in Hrun. fold result in Hrun. fold args in Hrun.
  destruct (RequestOptions.callback r) as [callback|] eqn:Hcb; cbv beta iota.
  - destruct (callback args) as [[]|e] eqn:Hcall.
    + destruct v; unfold createCustomAuthRequest;
        [rewrite index_run | rewrite test_run]; fold r'; now rewrite Hrun.
    + destruct v; unfold createCustomAuthRequest.
      * rewrite index_run. fold r'. rewrite Hrun, relay_run.
        change (RequestOptions.callback r') with (RequestOptions.callback r).
        rewrite Hcb. cbn zeta.
        destruct (callback (CallbackArgs.mk (Some e) JUndefined None)) as [[]|e'];
          reflexivity.
      * rewrite test_run. fold r'. now rewrite Hrun.
  - destruct v; unfold createCustomAuthRequest;
      [rewrite index_run | rewrite test_run]; fold r'; now rewrite Hrun.
Qed.

(** X1. When the descriptor carries a callback, the response has a status
    in 200-299, its body has been read and the callback returns
    normally: the callback is invoked exactly once, with [null], the
    parsed body and the result, and the promise resolves with the
    result. *)
Theorem success_is_reported_once
        (v : variant) (r : RequestOptions.t) (callback : Callback)
        (options : RequestInit.t) (response : Response.t) (t : string) :
  let r' := redirected emulatorHost r in
  let result := normalise JSON_parse response t in
  let args := CallbackArgs.mk None (parseBody JSON_parse t) (Some result) in
  RequestOptions.callback r = Some callback ->
  prepareFetchOptions JSON_stringify r = Return options ->
  net O (RequestOptions.uri r') options = Return response ->
  Response.text response = Return t ->
  Response.ok response = true ->
  callback args = Return tt ->
  (call (request v) r).1 = Return result
  /\ invoked (call (request v) r).2 = [args].
Proof.
  intros r' result args Hcb Hoptions Hnet Htext Hok Hret.
  rewrite (call_with_response v r options response t Hoptions Hnet Htext), Hcb.
  unfold notification. rewrite Hok. cbn [Result.body normalise].
  fold result. fold args. rewrite Hret. split; reflexivity.
Qed.

(** X2. Without a callback nothing is invoked and, once the body has been
    read, the promise resolves with the normalised result whatever the
    status: a status outside 200-299 does not reject it. *)
Theorem without_callback_any_status_resolves
        (v : variant) (r : RequestOptions.t) (options : RequestInit.t)
        (response : Response.t) (t : string) :
  let r' := redirected emulatorHost r in
  RequestOptions.callback r = None ->
  prepareFetchOptions JSON_stringify r = Return options ->
  net O (RequestOptions.uri r') options = Return response ->
  Response.text response = Return t ->
  (call (request v) r).1
  = Return (Result.mk (Response.status response) (parseBody JSON_parse t)
                      (fromEntries (Response.headers response)))
  /\ invoked (call (request v) r).2 = [].
Proof.
  intros r' Hcb Hoptions Hnet Htext.
  rewrite (call_with_response v r options response t Hoptions Hnet Htext), Hcb.
  split; reflexivity.
Qed.

(** X4. A callback that throws when it is notified of the response: the
    function of [index.ts] catches the exception and invokes the
    callback a second time, with the exception as its error, and the
    promise rejects (with the exception, or with what the second
    invocation throws); the function of [test.ts] invokes it once and
    rejects with the exception. *)
Theorem throwing_callback_is_invoked_again
        (r : RequestOptions.t) (callback : Callback) (options : RequestInit.t)
        (response : Response.t) (t : string) (e : JsError.t) :
  let r' := redirected emulatorHost r in
  let args := notification response (normalise JSON_parse response t) in
  let again := CallbackArgs.mk (Some e) JUndefined None in
  RequestOptions.callback r = Some callback ->
  prepareFetchOptions JSON_stringify r = Return options ->
  net O (RequestOptions.uri r') options = Return response ->
  Response.text response = Return t ->
  callback args = Throw e ->
  (invoked (call (request IndexTs) r).2 = [args; again]
   /\ (call (request IndexTs) r).1
      = match callback again with
        | Return _ => Throw e
        | Throw e' => Throw e'
        end)
  /\ (invoked (call (request TestTs) r).2 = [args]
      /\ (call (request TestTs) r).1 = Throw e).
Proof.
  intros r' args again Hcb Hoptions Hnet Htext Hthrow.
  rewrite (call_with_response IndexTs r options response t Hoptions Hnet Htext).
  rewrite (call_with_response TestTs r options response t Hoptions Hnet Htext).
  rewrite Hcb. cbn zeta. fold args. rewrite Hthrow. fold again.
  repeat split; reflexivity.
Qed.

(** X5. A call on a descriptor with a uri calls [fetch] at most once,
    whatever comes back and whatever the callback does. When the body
    is falsy or can be serialised, it is called exactly once: with the
    rewritten uri, with the caller's method or [GET] when it is absent
    or empty, and with the serialised body exactly when the body is
    truthy (it is what [JSON.stringify] returns). When
    [JSON.stringify] throws, [fetch] is not called and the promise
    rejects. *)
Theorem fetch_is_called_at_most_once
        (v : variant) (r : RequestOptions.t) (uri : string) :
  RequestOptions.uri r = Some uri ->
  let w := (call (request v) r).2 in
  let sent (body : option string) :=
    exists options,
      dispatched w = [(rewrittenUri emulatorHost (Some uri), options)]
      /\ RequestInit.method options = orElse (RequestOptions.method r) "GET"
      /\ RequestInit.body options = body in
  if truthy (RequestOptions.body r)
  then match JSON_stringify (RequestOptions.body r) with
       | Return text => sent text
       | Throw e =>
           dispatched w = []
           /\ exists e', (call (request v) r).1 = Throw e'
       end
  else sent None.
Proof.
  intros Huri w sent.
  destruct (after_call JSON_parse JSON_stringify emulatorHost net v r)
    as [_ Hdisp]. fold w in Hdisp.
  unfold redirected in Hdisp. cbn [RequestOptions.uri] in Hdisp.
  rewrite Huri in Hdisp. unfold prepareFetchOptions in Hdisp.
  destruct (truthy (RequestOptions.body r)) eqn:Hbody.
  - destruct (JSON_stringify (RequestOptions.body r)) as [text|e] eqn:Htext.
    + eexists. split; [exact Hdisp|]. split; reflexivity.
    + split; [exact Hdisp|].
      assert (Hrun : exchange JSON_parse JSON_stringify net
                              (mkWorld (redirected emulatorHost r) [] [])
                     = (Throw e, mkWorld (redirected emulatorHost r) [] [])).
      { rewrite exchange_run, prepare_redirected. unfold prepareFetchOptions.
        now rewrite Hbody, Htext. }
      destruct v; unfold createCustomAuthRequest.
      * rewrite index_run, Hrun, relay_run.
        destruct (RequestOptions.callback _) as [callback|]; [|eauto].
        cbn zeta. destruct (callback _); eauto.
      * rewrite test_run, Hrun. eauto.
  - eexists. split; [exact Hdisp|]. split; reflexivity.
Qed.

(** X6. A uri that does not contain [.googleapis.com] (a request that
    already points at the emulator, say) is not redirected: the call
    leaves it as it is, but for the loopback downgrade. *)
Theorem foreign_uri_is_only_downgraded
        (v : variant) (r : RequestOptions.t) (uri : string) :
  RequestOptions.uri r = Some uri ->
  includes uri ".googleapis.com" = false ->
  RequestOptions.uri (reqOpts (call (request v) r).2)
  = Some (downgradeLoopback uri).
Proof.
  intros Huri Hforeign.
  destruct (after_call JSON_parse JSON_stringify emulatorHost net v r) as [-> _].
  unfold redirected, rewrittenUri, rewriteUri, truthyString.
  cbn [RequestOptions.uri]. rewrite Huri.
  destruct (String.eqb_spec uri "") as [->|Hne]; [reflexivity|].
  cbn [negb]. now rewrite MatchFacts.replaceGoogleApis_foreign.
Qed.

(** X7. The descriptor is mutated, so a second call on the same object
    starts from the rewritten uri. When that uri holds no
    [.googleapis.com] any more, the second call (through either copy)
    leaves the whole descriptor as the first call left it. *)
Theorem second_call_keeps_the_descriptor
        (v v' : variant) (r : RequestOptions.t) (uri : string) :
  let once := reqOpts (call (request v) r).2 in
  RequestOptions.uri once = Some uri ->
  includes uri ".googleapis.com" = false ->
  reqOpts (call (request v') once).2 = once.
Proof.
  cbn zeta.
  destruct (after_call JSON_parse JSON_stringify emulatorHost net v r) as [-> _].
  destruct (after_call JSON_parse JSON_stringify emulatorHost net v'
                       (redirected emulatorHost r)) as [-> _].
  destruct r as [u m h b cb]. unfold redirected. cbn [RequestOptions.uri
    RequestOptions.method RequestOptions.headers RequestOptions.body
    RequestOptions.callback].
  intros Huri Hforeign. f_equal. rewrite Huri.
  unfold rewrittenUri, truthyString in *.
  destruct (String.eqb_spec uri "") as [->|Hne]; [reflexivity|]. cbn [negb].
  f_equal. unfold rewriteUri.
  rewrite MatchFacts.replaceGoogleApis_foreign by exact Hforeign.
  destruct u as [u0|]; [|discriminate Huri].
  destruct (String.eqb_spec u0 "") as [->|Hne0]; cbn [negb] in Huri;
    injection Huri as <-.
  - now contradiction Hne.
  - apply MatchFacts.downgradeLoopback_again.
Qed.

End RequestMore.

(** X8. The downgrade replaces the leading [https://] of a uri on
    127.0.0.1 or localhost and nothing else, whatever follows the host
    (a later [https://] stays); applied twice it does what it does
    once. *)
Theorem downgrade_touches_the_scheme_only (t u : string) :
  downgradeLoopback ("https://127.0.0.1" +:+ t) = "http://127.0.0.1" +:+ t
  /\ downgradeLoopback ("https://localhost" +:+ t) = "http://localhost" +:+ t
  /\ downgradeLoopback (downgradeLoopback u) = downgradeLoopback u.
Proof.
  split; [reflexivity | split; [reflexivity|]].
  apply MatchFacts.downgradeLoopback_again.
Qed.

Module MoreRuns.
Import JsString Sample.

(** A 200 answer with a JSON body and a callback that returns. *)
Lemma success_is_reported_once_witness :
  let r := descriptor queries None (Some ignore) in
  let response := Response.mk 200 [("content-type", "text/plain")] (Return "{}") in
  let result := normalise JSON_parse response "{}" in
  (run IndexTs emulator (answers 200 "{}") r).1 = Return result
  /\ invoked (run IndexTs emulator (answers 200 "{}") r).2
     = [CallbackArgs.mk None (JObject []) (Some result)].
Proof.
  refine (success_is_reported_once
            JSON_parse JSON_stringify emulator (answers 200 "{}") IndexTs
            (descriptor queries None (Some ignore)) ignore _
            (Response.mk 200 [("content-type", "text/plain")] (Return "{}")) "{}"
            _ _ _ _ _ _);
    reflexivity.
Defined.

(** A 404 answer, no callback: the promise resolves. *)
Lemma without_callback_any_status_resolves_witness :
  (run TestTs emulator (answers 404 "not found") (descriptor queries None None)).1
  = Return (Result.mk 404 (JString "not found")
                      (fromEntries [("content-type", "text/plain")]))
  /\ invoked (run TestTs emulator (answers 404 "not found")
                  (descriptor queries None None)).2 = [].
Proof.
  refine (without_callback_any_status_resolves
            JSON_parse JSON_stringify emulator (answers 404 "not found") TestTs
            (descriptor queries None None) _ notFound "not found" _ _ _ _);
    reflexivity.
Defined.

(** A 200 answer and a callback that throws whatever it is given. *)
Lemma throwing_callback_is_invoked_again_witness :
  let broken : Callback := fun _ => Throw refused in
  let r := descriptor queries None (Some broken) in
  let response := Response.mk 200 [("content-type", "text/plain")] (Return "{}") in
  let args := notification response (normalise JSON_parse response "{}") in
  let again := CallbackArgs.mk (Some refused) JUndefined None in
  (invoked (run IndexTs emulator (answers 200 "{}") r).2 = [args; again]
   /\ (run IndexTs emulator (answers 200 "{}") r).1 = Throw refused)
  /\ (invoked (run TestTs emulator (answers 200 "{}") r).2 = [args]
      /\ (run TestTs emulator (answers 200 "{}") r).1 = Throw refused).
Proof.
  refine (throwing_callback_is_invoked_again
            JSON_parse JSON_stringify emulator (answers 200 "{}")
            (descriptor queries None (Some (fun _ => Throw refused)))
            (fun _ => Throw refused) _
            (Response.mk 200 [("content-type", "text/plain")] (Return "{}")) "{}"
            refused _ _ _ _ _);
    reflexivity.
Defined.

(** A body that cannot be serialised: nothing is sent and the promise
    rejects. *)
Lemma fetch_is_called_at_most_once_witness :
  let outcome :=
    call (createCustomAuthRequest JSON_parse unserialisable IndexTs emulator
                                  (answers 200 "{}"))
         (descriptor queries None None) in
  dispatched outcome.2 = [] /\ exists e', outcome.1 = Throw e'.
Proof.
  exact (fetch_is_called_at_most_once
           JSON_parse unserialisable emulator (answers 200 "{}") IndexTs
           (descriptor queries None None) queries eq_refl).
Defined.

(** A request that points at the emulator already. *)
Lemma foreign_uri_is_only_downgraded_witness :
  let uri := "http://127.0.0.1:9050/bigquery/v2/projects/test-project/datasets" in
  RequestOptions.uri
    (reqOpts (run IndexTs emulator (answers 200 "{}") (descriptor uri None None)).2)
  = Some uri.
Proof.
  refine (foreign_uri_is_only_downgraded
            JSON_parse JSON_stringify emulator (answers 200 "{}") IndexTs
            (descriptor "http://127.0.0.1:9050/bigquery/v2/projects/test-project/datasets"
                        None None)
            "http://127.0.0.1:9050/bigquery/v2/projects/test-project/datasets" _ _);
    reflexivity.
Defined.

(** The query request, sent twice on the same descriptor. *)
Lemma second_call_keeps_the_descriptor_witness :
  let once := reqOpts (run IndexTs emulator (answers 200 "{}")
                           (descriptor queries None None)).2 in
  reqOpts (run TestTs emulator (answers 200 "{}") once).2 = once.
Proof.
  refine (second_call_keeps_the_descriptor
            JSON_parse JSON_stringify emulator (answers 200 "{}") IndexTs TestTs
            (descriptor queries None None)
            "http://127.0.0.1:9050/bigquery/v2/projects/test-project/queries" _ _);
    reflexivity.
Defined.

End MoreRuns.

(* ================================================================== *)
(** * More about the scripts *)
(* ================================================================== *)

Module EndpointFacts.
Import JsString JsStringFacts.

Lemma indexOf_absent (s p : string) : includes s p = false -> indexOf s p = None.
Proof.
  induction s as [|c s IH]; cbn; destruct (startsWith _ p); try discriminate;
    [reflexivity|].
  intros H. now rewrite (IH H).
Qed.

Lemma replace_absent (s p e : string) : includes s p = false -> replace s p e = s.
Proof.
  intros H. unfold replace, replaceWith. now rewrite indexOf_absent.
Qed.

End EndpointFacts.

(** X9. The [apiEndpoint] of the override client is the emulator base URL
    without its scheme: for a base [http://h] or [https://h] it is [h],
    and a base without a scheme is passed as it is (given that no
    scheme occurs inside [h]). *)
Theorem apiEndpoint_is_the_base_without_scheme (h : string) :
  JsString.includes h "http://" = false ->
  JsString.includes h "https://" = false ->
  Sdk.apiEndpoint (overrideClient ("http://" +:+ h)) = Some h
  /\ Sdk.apiEndpoint (overrideClient ("https://" +:+ h)) = Some h
  /\ Sdk.apiEndpoint (overrideClient h) = Some h.
Proof.
  intros Hhttp Hhttps. unfold overrideClient. cbn [Sdk.apiEndpoint].
  repeat split; f_equal.
  - change (JsString.replace ("http://" +:+ h) "http://" "") with h.
    now apply EndpointFacts.replace_absent.
  - rewrite (EndpointFacts.replace_absent ("https://" +:+ h) "http://").
    + reflexivity.
    + cbn. exact Hhttp.
  - rewrite (EndpointFacts.replace_absent h "http://") by exact Hhttp.
    now apply EndpointFacts.replace_absent.
Qed.

Module ScriptMore.
Import ScriptLogic ScriptInvariants.

(** ** State changes that cannot fail *)

Lemma triple_getenv (P : Process -> Prop) (R : JsError.t -> Process -> Prop)
      (name : string) :
  triple P (Script.getenv name) (fun h p => h = env p !! name /\ P p) R.
Proof. intros p Hp. cbn. auto. Qed.

Lemma triple_setenv (P Q : Process -> Prop) (R : JsError.t -> Process -> Prop)
      (name value : string) :
  (forall p, P p -> Q (mkProcess (<[name := value]> (env p)) (journal p))) ->
  triple P (Script.setenv name value) (fun _ => Q) R.
Proof. intros H p Hp. cbn. auto. Qed.

Lemma triple_dotenv (P Q : Process -> Prop) (R : JsError.t -> Process -> Prop)
      (file : gmap string string) :
  (forall p, P p -> Q (mkProcess (env p ∪ file) (journal p))) ->
  triple P (Script.dotenv_config file) (fun _ => Q) R.
Proof. intros H p Hp. cbn. auto. Qed.

Lemma triple_clearCredentials (P Q : Process -> Prop)
      (R : JsError.t -> Process -> Prop) :
  (forall p, P p ->
     Q (mkProcess (delete "GCLOUD_PROJECT"
                     (delete "GOOGLE_CLOUD_PROJECT"
                        (delete "GOOGLE_APPLICATION_CREDENTIALS" (env p))))
                  (journal p))) ->
  triple P clearCredentials (fun _ => Q) R.
Proof. intros H p Hp. cbn. auto. Qed.

(** ** The emulator host variable does not change once calls are issued *)

Lemma constant_note (name : string) (x : option string) (r : Sdk.request)
      (f : option JsError.t) (p : Process) :
  constant name x p -> constant name x (Script.note r f p).
Proof.
  intros [He Hj]. split; [exact He|]. cbn [journal Script.note].
  apply Forall_app. split; [exact Hj|]. now constructor.
Qed.

Lemma unissued_constant (name : string) (x : option string) (p : Process) :
  unissued name x p -> constant name x p.
Proof. intros [Hj He]. split; [exact He|]. rewrite Hj. constructor. Qed.

Ltac constant_step :=
  keep ltac:(solve [eauto using constant_note]).

(** ** After a failure that is not recovered from, nothing is called *)

Lemma settled_stopped (s : script) (p : Process) : settled s p -> stopped s p.
Proof. now left. Qed.

Lemma stopped_failure (s : script) (r : Sdk.request) (e : JsError.t) (p : Process) :
  settled s p -> stopped s (Script.note r (Some e) p).
Proof. intros Hp. right. eauto. Qed.

Lemma unfailing_setenv (s : script) (J : Process -> Prop) (name value : string) :
  keeps (settled s) J (Script.setenv name value).
Proof. intros [e j] Hp. exact Hp. Qed.

Lemma unfailing_unsetenv (s : script) (J : Process -> Prop) (name : string) :
  keeps (settled s) J (Script.unsetenv name).
Proof. intros [e j] Hp. exact Hp. Qed.

Lemma unfailing_dotenv (s : script) (J : Process -> Prop) (file : gmap string string) :
  keeps (settled s) J (Script.dotenv_config file).
Proof. intros [e j] Hp. exact Hp. Qed.

Lemma stopped_catchConflict {A} (s : script) (f : Sdk.context -> completion A)
      (r : Sdk.request) (existing : A) :
  (forall e, isConflict e = true -> recovers s r e = true) ->
  keeps (settled s) (stopped s) (catchConflict (Script.perform f r) existing).
Proof.
  intros Hrec. unfold catchConflict.
  apply triple_tryCatch
    with (R' := fun e p' => exists p, settled s p /\ p' = Script.note r (Some e) p).
  - apply triple_perform; eauto using settled_success.
  - intros e p (p0 & Hp0 & ->).
    destruct (isConflict e) eqn:He; cbn.
    + apply settled_note; auto.
    + now apply stopped_failure.
Qed.

Lemma stopped_tryExisting {A} (s : script) (f : Sdk.context -> completion A)
      (r : Sdk.request) (existing : A) :
  (forall e, isConflict e || saysAlready e = true -> recovers s r e = true) ->
  keeps (settled s) (stopped s) (tryExisting (Script.perform f r) existing).
Proof.
  intros Hrec. unfold tryExisting.
  apply triple_tryCatch
    with (R' := fun e p' => exists p, settled s p /\ p' = Script.note r (Some e) p).
  - apply triple_perform; eauto using settled_success.
  - intros e p (p0 & Hp0 & ->).
    destruct (isConflict e || saysAlready e) eqn:He; cbn.
    + apply settled_note; auto.
    + now apply stopped_failure.
Qed.

Ltac stop_step :=
  lazymatch goal with
  | |- keeps _ _ (catchConflict _ _) =>
      apply stopped_catchConflict; intros ? He; cbn; rewrite He; reflexivity
  | |- keeps _ _ (tryExisting _ _) =>
      apply stopped_tryExisting; intros ? He; cbn; exact He
  | |- keeps _ _ (Script.setenv _ _) => apply unfailing_setenv
  | |- keeps _ _ (Script.unsetenv _) => apply unfailing_unsetenv
  | |- keeps _ _ (Script.dotenv_config _) => apply unfailing_dotenv
  | |- _ =>
      keep ltac:(solve [eauto using settled_success, settled_stopped, stopped_failure])
  end.

(** In a stopped journal only the last call can have failed without
    recovery. *)
Lemma stopped_last (s : script) (p : Process) (i : nat) (entry : Entry) :
  stopped s p ->
  journal p !! i = Some entry -> harmless s entry = false ->
  S i = length (journal p).
Proof.
  assert (Hsettled : forall q, settled s q -> forall j x,
             journal q !! j = Some x -> harmless s x = true).
  { intros q Hq j x Hx. unfold settled in Hq. rewrite forallb_forall in Hq.
    apply Hq. eapply list_elem_of_In, list_elem_of_lookup_2, Hx. }
  intros [Hp | (p0 & r & e & Hp0 & ->)] Hentry Hharm.
  - rewrite (Hsettled p Hp i entry Hentry) in Hharm. discriminate.
  - cbn [journal Script.note] in *. rewrite length_app. cbn.
    destruct (decide (i < length (journal p0))%nat) as [Hlt|Hge].
    + rewrite lookup_app_l in Hentry by exact Hlt.
      rewrite (Hsettled p0 Hp0 i entry Hentry) in Hharm. discriminate.
    + apply lookup_lt_Some in Hentry. rewrite length_app in Hentry.
      cbn in Hentry. lia.
Qed.

Section Bodies.
Variable sdk : Sdk.backend.
Variable clock : nat -> string.
Variable JSON_stringify : js_value -> string.
Variable name : string.
Variable x : option string.

Lemma envIndex_constant (bigquery : Sdk.BigQuery) :
  keeps (constant name x) (constant name x) (envIndex_sequence sdk clock bigquery).
Proof. unfold_script. repeat constant_step. Qed.

Lemma envTest_constant (bigquery : Sdk.BigQuery) :
  keeps (constant name x) (constant name x) (envTest_sequence sdk bigquery).
Proof. unfold_script. repeat constant_step. Qed.

Lemma simpleIndex_constant (bigquery : Sdk.BigQuery) :
  keeps (constant name x) (constant name x) (simpleIndex_sequence sdk bigquery).
Proof. unfold_script. repeat constant_step. Qed.

Lemma overrideIndex_constant (bigquery : Sdk.BigQuery) :
  keeps (constant name x) (constant name x)
        (overrideIndex_sequence sdk JSON_stringify bigquery).
Proof. unfold_script. repeat constant_step. Qed.

Lemma overrideTest_constant (bigquery : Sdk.BigQuery) :
  keeps (constant name x) (constant name x) (overrideTest_sequence sdk bigquery).
Proof. unfold_script. repeat constant_step. Qed.

Lemma attempts_constant (bigquery : Sdk.BigQuery) (query : string) :
  keeps (constant name x) (constant name x) (attempt (runQuery sdk bigquery query)).
Proof. unfold_script. repeat constant_step. Qed.

End Bodies.

Section Sequences.
Variable sdk : Sdk.backend.
Variable dotenvFile : gmap string string.
Variable clock : nat -> string.
Variable JSON_stringify : js_value -> string.

#[local] Abbreviation sequence' := (sequence sdk dotenvFile clock JSON_stringify).
#[local] Abbreviation run' := (run sdk dotenvFile clock JSON_stringify).
#[local] Abbreviation status' := (status sdk dotenvFile clock JSON_stringify).

(** What holds of the process a sequence ends in holds of the process
    the run ends in. *)
Lemma run_ends_like_sequence (s : script) (env0 : gmap string string)
      (P : Process -> Prop) (Q : Process -> Prop) :
  triple P (sequence' s) (fun _ => Q) (fun _ => Q) ->
  P (mkProcess env0 []) ->
  Q (run' s env0).2.
Proof.
  intros Hseq Hp. rewrite run_sequence. specialize (Hseq _ Hp).
  destruct (sequence' s (mkProcess env0 [])) as [[[]|e|c] p];
    [exact Hseq | exact Hseq | contradiction].
Qed.

Lemma sequence_constant (s : script) (env0 : gmap string string) :
  triple (fun p => journal p = [] /\ env p = env0) (sequence' s)
         (fun _ => constant "BIGQUERY_EMULATOR_HOST"
                            (emulatorHostAtCalls dotenvFile s env0))
         (fun _ => constant "BIGQUERY_EMULATOR_HOST"
                            (emulatorHostAtCalls dotenvFile s env0)).
Proof.
  set (loaded := env0 ∪ dotenvFile).
  assert (Hload : forall name,
             triple (fun p => journal p = [] /\ env p = env0)
                    (Script.dotenv_config dotenvFile)
                    (fun _ => unissued name (loaded !! name))
                    (fun _ => constant "BIGQUERY_EMULATOR_HOST"
                                       (emulatorHostAtCalls dotenvFile s env0))).
  { intros name. apply triple_dotenv. intros p [Hj He].
    split; cbn; [exact Hj | now rewrite He]. }
  assert (Hclear : forall name y,
             name <> "GOOGLE_APPLICATION_CREDENTIALS" ->
             name <> "GOOGLE_CLOUD_PROJECT" ->
             name <> "GCLOUD_PROJECT" ->
             triple (unissued name y) clearCredentials
                    (fun _ => unissued name y)
                    (fun _ => constant "BIGQUERY_EMULATOR_HOST"
                                       (emulatorHostAtCalls dotenvFile s env0))).
  { intros name y H1 H2 H3. apply triple_clearCredentials. intros p [Hj He].
    split; cbn; [exact Hj|]. now rewrite !lookup_delete_ne by congruence. }
  assert (Hdefault : forall y,
             triple (unissued "BIGQUERY_EMULATOR_HOST" y) defaultEmulatorHost
                    (fun _ => constant "BIGQUERY_EMULATOR_HOST"
                                       (Some (orElse y "http://127.0.0.1:9050")))
                    (fun _ => constant "BIGQUERY_EMULATOR_HOST"
                                       (emulatorHostAtCalls dotenvFile s env0))).
  { intros y. unfold defaultEmulatorHost.
    eapply triple_bind; [apply triple_getenv | intros h; cbv beta].
    apply triple_setenv. intros p (-> & Hj & He).
    split; cbn; [|rewrite Hj; constructor].
    now rewrite lookup_insert_eq, He. }
  destruct s; unfold sequence, emulatorHostAtCalls; fold loaded.
  - eapply triple_bind; [apply (Hload "BIGQUERY_EMULATOR_HOST") | intros ?; cbv beta].
    eapply triple_bind; [apply Hclear; discriminate | intros ?; cbv beta].
    eapply triple_bind; [apply Hdefault | intros ?; cbv beta].
    apply envIndex_constant.
  - eapply triple_bind; [apply (Hload "BIGQUERY_EMULATOR_HOST") | intros ?; cbv beta].
    eapply triple_bind; [apply Hclear; discriminate | intros ?; cbv beta].
    eapply triple_bind; [apply Hdefault | intros ?; cbv beta].
    apply envTest_constant.
  - eapply triple_bind with (Q := fun _ p => journal p = []);
      [apply triple_clearCredentials; intros p [Hj _]; exact Hj | intros ?; cbv beta].
    eapply triple_bind with
      (Q := fun _ => constant "BIGQUERY_EMULATOR_HOST" (Some "http://localhost:9050")).
    { apply triple_setenv. intros p Hj. split; cbn; [|rewrite Hj; constructor].
      now rewrite lookup_insert_eq. }
    intros ?; cbv beta. as_keeps.
    apply keeps_bind; [|intros ?]; apply attempts_constant.
  - eapply triple_bind; [apply (Hload "EMULATOR_HOST") | intros ?; cbv beta].
    eapply triple_bind; [apply Hclear; discriminate | intros ?; cbv beta].
    eapply triple_bind; [apply triple_getenv | intros h; cbv beta].
    eapply triple_bind with
      (Q := fun _ => constant "BIGQUERY_EMULATOR_HOST"
                              (Some (orElse (loaded !! "EMULATOR_HOST")
                                            "http://127.0.0.1:9050"))).
    { apply triple_setenv. intros p (-> & Hj & He).
      split; cbn; [|rewrite Hj; constructor].
      now rewrite lookup_insert_eq, He. }
    intros ?; cbv beta. apply simpleIndex_constant.
  - eapply triple_bind; [apply (Hload "BIGQUERY_EMULATOR_HOST") | intros ?; cbv beta].
    eapply triple_bind; [apply triple_getenv | intros h; cbv beta].
    apply triple_conseq
      with (P := constant "BIGQUERY_EMULATOR_HOST" (loaded !! "BIGQUERY_EMULATOR_HOST"))
           (Q := fun _ => constant "BIGQUERY_EMULATOR_HOST"
                                   (loaded !! "BIGQUERY_EMULATOR_HOST"))
           (R := fun _ => constant "BIGQUERY_EMULATOR_HOST"
                                   (loaded !! "BIGQUERY_EMULATOR_HOST"));
      [apply overrideIndex_constant | | auto | auto].
    intros p [_ Hp]. now apply unissued_constant.
  - eapply triple_bind; [apply (Hload "BIGQUERY_EMULATOR_HOST") | intros ?; cbv beta].
    eapply triple_bind; [apply triple_getenv | intros h; cbv beta].
    apply triple_conseq
      with (P := constant "BIGQUERY_EMULATOR_HOST" (loaded !! "BIGQUERY_EMULATOR_HOST"))
           (Q := fun _ => constant "BIGQUERY_EMULATOR_HOST"
                                   (loaded !! "BIGQUERY_EMULATOR_HOST"))
           (R := fun _ => constant "BIGQUERY_EMULATOR_HOST"
                                   (loaded !! "BIGQUERY_EMULATOR_HOST"));
      [apply overrideTest_constant | | auto | auto].
    intros p [_ Hp]. now apply unissued_constant.
Qed.

(** X10. Every client call of a script finds [BIGQUERY_EMULATOR_HOST] as
    [emulatorHostAtCalls] says: a value present in the environment or
    in the [.env] file is kept by [env-variable-example/index.ts] and
    [test.ts] (the default [http://127.0.0.1:9050] is used only when
    the variable is unset or empty), [simple-index.ts] sets it from
    [EMULATOR_HOST], the minimal test script overwrites it with
    [http://localhost:9050], and the two override scripts do not set
    it. The value is the same at every call of the run. *)
Theorem emulator_host_at_every_call
        (s : script) (env0 : gmap string string) (i : nat) (entry : Entry) :
  journal (run' s env0).2 !! i = Some entry ->
  env_at entry !! "BIGQUERY_EMULATOR_HOST" = emulatorHostAtCalls dotenvFile s env0.
Proof.
  intros Hentry.
  assert (Hc := run_ends_like_sequence s env0 _ _ (sequence_constant s env0)
                                       (conj eq_refl eq_refl)).
  destruct Hc as [_ Hj].
  exact (Forall_lookup_1 _ _ _ _ Hj Hentry).
Qed.

Lemma sequence_stopped (s : script) :
  hasExit1 s = true -> keeps (settled s) (stopped s) (sequence' s).
Proof.
  destruct s; intros Hs; try discriminate Hs; unfold_script; repeat stop_step.
Qed.

(** X11. The scripts with a [process.exit(1)] stop at the first failure they
    do not recover from: a client call that failed with such an error
    is the last call of the run. *)
Theorem nothing_is_called_after_a_failure
        (s : script) (env0 : gmap string string) (i : nat) (entry : Entry) :
  hasExit1 s = true ->
  journal (run' s env0).2 !! i = Some entry ->
  harmless s entry = false ->
  S i = length (journal (run' s env0).2).
Proof.
  intros Hs Hentry Hharm. apply (stopped_last s _ i entry); [|exact Hentry|exact Hharm].
  rewrite run_sequence.
  assert (Hseq := sequence_stopped s Hs (mkProcess env0 []) eq_refl).
  destruct (sequence' s (mkProcess env0 [])) as [[[]|e|c] p];
    [now left | exact Hseq | contradiction].
Qed.

(** ** The calls are issued in the order of the text *)

Lemma progress_planned (s : script) (n : nat) (p : Process) :
  progress s n p -> planned s p.
Proof. intros Hp. now exists n. Qed.

Lemma progress_note (s : script) (n : nat) (r : Sdk.request)
      (f : option JsError.t) (p : Process) :
  plan s !! n = Some (kindOf r) ->
  progress s n p -> progress s (S n) (Script.note r f p).
Proof.
  unfold progress, kinds. intros Hn Hp. cbn [journal Script.note].
  rewrite !fmap_app, Hp. cbn. symmetry. now apply take_S_r.
Qed.

Lemma progress_perform {A} (s : script) (n : nat)
      (f : Sdk.context -> completion A) (r : Sdk.request) :
  plan s !! n = Some (kindOf r) ->
  triple (progress s n) (Script.perform f r)
         (fun _ => progress s (S n)) (fun _ => planned s).
Proof.
  intros Hn. apply triple_perform; eauto using progress_note, progress_planned.
Qed.

Lemma progress_catchConflict {A} (s : script) (n : nat)
      (f : Sdk.context -> completion A) (r : Sdk.request) (existing : A) :
  plan s !! n = Some (kindOf r) ->
  triple (progress s n) (catchConflict (Script.perform f r) existing)
         (fun _ => progress s (S n)) (fun _ => planned s).
Proof.
  intros Hn. unfold catchConflict.
  apply triple_tryCatch with (R' := fun _ => progress s (S n)).
  - apply triple_perform; eauto using progress_note.
  - intros e p Hp. destruct (isConflict e); cbn; eauto using progress_planned.
Qed.

Lemma progress_tryExisting {A} (s : script) (n : nat)
      (f : Sdk.context -> completion A) (r : Sdk.request) (existing : A) :
  plan s !! n = Some (kindOf r) ->
  triple (progress s n) (tryExisting (Script.perform f r) existing)
         (fun _ => progress s (S n)) (fun _ => planned s).
Proof.
  intros Hn. unfold tryExisting.
  apply triple_tryCatch with (R' := fun _ => progress s (S n)).
  - apply triple_perform; eauto using progress_note.
  - intros e p Hp. destruct (isConflict e || saysAlready e); cbn;
      eauto using progress_planned.
Qed.

Lemma progress_setenv (s : script) (n : nat) (name value : string) :
  keeps (progress s n) (planned s) (Script.setenv name value).
Proof. intros [e j] Hp. exact Hp. Qed.

Lemma progress_unsetenv (s : script) (n : nat) (name : string) :
  keeps (progress s n) (planned s) (Script.unsetenv name).
Proof. intros [e j] Hp. exact Hp. Qed.

Lemma progress_dotenv (s : script) (n : nat) (file : gmap string string) :
  keeps (progress s n) (planned s) (Script.dotenv_config file).
Proof. intros [e j] Hp. exact Hp. Qed.

(** A statement that issues no call. *)
Ltac silent_step :=
  lazymatch goal with
  | |- keeps _ _ (Script.setenv _ _) => apply progress_setenv
  | |- keeps _ _ (Script.unsetenv _) => apply progress_unsetenv
  | |- keeps _ _ (Script.dotenv_config _) => apply progress_dotenv
  | |- keeps _ _ (Script.perform _ _) => fail
  | |- keeps _ _ (catchConflict _ _) => fail
  | |- keeps _ _ (tryExisting _ _) => fail
  | |- _ => keep ltac:(solve [eauto using progress_planned])
  end.

(** A call, which advances the plan by one. *)
Ltac call_step :=
  lazymatch goal with
  | |- triple _ (Script.perform _ _) _ _ => apply progress_perform; reflexivity
  | |- triple _ (catchConflict _ _) _ _ => apply progress_catchConflict; reflexivity
  | |- triple _ (tryExisting _ _) _ _ => apply progress_tryExisting; reflexivity
  end.

Ltac plan_step :=
  lazymatch goal with
  | |- triple (progress ?s ?n) (Script.bind _ _) _ _ =>
      first
        [ apply triple_bind with (Q := fun _ => progress s (S n));
          [call_step | intros ?; cbv beta]
        | apply triple_bind with (Q := fun _ => progress s n);
          [as_keeps; solve [repeat silent_step] | intros ?; cbv beta] ]
  | |- triple (progress ?s ?n) _ _ _ =>
      first
        [ apply triple_conseq
            with (P := progress s n) (Q := fun _ => progress s (S n))
                 (R := fun _ => planned s);
          [call_step | auto | eauto using progress_planned | auto]
        | apply triple_conseq
            with (P := progress s n) (Q := fun _ => progress s n)
                 (R := fun _ => planned s);
          [as_keeps; solve [repeat silent_step] | auto
          | eauto using progress_planned | auto] ]
  end.

Lemma sequence_planned (s : script) :
  hasExit1 s = true ->
  triple (progress s 0) (sequence' s) (fun _ => planned s) (fun _ => planned s).
Proof.
  destruct s; intros Hs; try discriminate Hs; unfold_script; repeat plan_step.
Qed.

(** X12. The scripts with a [process.exit(1)] issue their calls in the
    order of their text and issue none twice: the kinds of the calls
    of a run are an initial part of the script's plan. *)
Theorem calls_follow_the_plan (s : script) (env0 : gmap string string) :
  hasExit1 s = true ->
  kinds (run' s env0).2 `prefix_of` plan s.
Proof.
  intros Hs.
  destruct (run_ends_like_sequence s env0 _ _ (sequence_planned s Hs) eq_refl)
    as [n Hn].
  exists (drop n (plan s)). rewrite Hn. symmetry. apply take_drop.
Qed.

(** ** The minimal test script tries both clients *)

(** X13. Whatever becomes of the first query, the minimal test script goes
    on to the second: both queries are submitted, the first with the
    client that has no [apiEndpoint], the second with the stub client,
    and the entry function returns normally. *)
Theorem both_queries_are_always_attempted (env0 : gmap string string) :
  (run' TestEmulator env0).1 = Done tt
  /\ List.filter isQueryJob (request <$> journal (run' TestEmulator env0).2)
     = [Sdk.CreateQueryJob (Sdk.mkBigQuery "test-project" None Sdk.NoAuthClient)
                           ("SELECT 1 AS num, " +:+ quoted "hello" +:+ " AS msg");
        Sdk.CreateQueryJob stubClient
                           ("SELECT 2 AS num, " +:+ quoted "world" +:+ " AS msg")].
Proof.
  unfold run, program, testEmulator, attempt, runQuery, clearCredentials,
    createQueryJob, getQueryResults, Script.tryCatch, Script.bind,
    Script.perform, Script.unsetenv, Script.setenv, Script.ret.
  cbv zeta. cbn [env journal].
  repeat case_innermost; cbn [fst snd journal Script.note];
    rewrite ?fmap_app; cbn; auto.
Qed.

(** ** The exit code when every call succeeds *)

(** X14. The two connection tests, on a service that accepts the query and
    returns [rows]: the exit code is 0 when the first row can be
    printed and 1 otherwise, in particular when the result is empty. *)
Theorem test_exit_code_follows_the_rows
        (env0 : gmap string string) (job : Sdk.Job) (rows : list js_value) :
  (forall ctx bigquery query,
      Sdk.createQueryJob sdk ctx bigquery query = Return job) ->
  (forall ctx, Sdk.getQueryResults sdk ctx job = Return rows) ->
  status' EnvTest env0 = (if envTest_accepts rows then 0 else 1)
  /\ status' OverrideTest env0 = (if overrideTest_accepts rows then 0 else 1).
Proof.
  intros Hjob Hrows.
  unfold status, run, program, envTest, overrideTest, envTest_testConnection,
    overrideTest_testConnection, orExit1, envTest_sequence, overrideTest_sequence,
    clearCredentials, defaultEmulatorHost, createQueryJob, getQueryResults,
    Script.tryCatch, Script.bind, Script.perform, Script.unsetenv, Script.setenv,
    Script.getenv, Script.dotenv_config, Script.ret.
  cbv zeta. cbn [env journal entry].
  rewrite !Hjob, !Hrows.
  unfold envTest_accepts, overrideTest_accepts.
  destruct rows as [|row rest]; [split; reflexivity|].
  cbn [length Nat.ltb Nat.leb first].
  split.
  - destruct row as [| | | | |fields|]; try reflexivity.
    cbn [getProp Script.eval].
    destruct (field "current_time" fields); reflexivity.
  - destruct row; reflexivity.
Qed.

(** Printing one row of [env-variable-example/index.ts] touches
    nothing, and throws exactly when the row is not printable. *)
Lemma print_row (row : js_value) (p : Process) :
  exists outcome,
    (id <- Script.eval (getProp row "id") ;;
     Script.eval (ToString id) ;;
     name <- Script.eval (getProp row "name") ;;
     Script.eval (ToString name) ;;
     created_at <- Script.eval (getProp row "created_at") ;;
     value <- Script.eval (getProp created_at "value") ;;
     Script.eval (ToString value) ;;
     Script.ret tt)%script p
    = (outcome, p)
    /\ match outcome with
       | Done _ => printable row = true
       | Failed _ => printable row = false
       | Exited _ => False
       end.
Proof.
  unfold Script.bind, Script.eval, Script.ret, printable, convertible.
  destruct row as [| | | | | |fields];
    try (eexists; split; reflexivity).
  cbn [getProp].
  destruct (ToString (field "id" fields));
    [|eexists; split; reflexivity].
  destruct (ToString (field "name" fields));
    [|eexists; split; reflexivity].
  destruct (getProp (field "created_at" fields) "value") as [value|];
    [|eexists; split; reflexivity].
  destruct (ToString value); eexists; split; reflexivity.
Qed.

(** The loop that prints the rows stops at the first row that cannot
    be printed. *)
Lemma forEach_printable (rows : list js_value) (p : Process) :
  exists outcome,
    forEach (fun row =>
               id <- Script.eval (getProp row "id") ;;
               Script.eval (ToString id) ;;
               name <- Script.eval (getProp row "name") ;;
               Script.eval (ToString name) ;;
               created_at <- Script.eval (getProp row "created_at") ;;
               value <- Script.eval (getProp created_at "value") ;;
               Script.eval (ToString value) ;;
               Script.ret tt)%script
            rows p
    = (outcome, p)
    /\ match outcome with
       | Done _ => forallb printable rows = true
       | Failed _ => forallb printable rows = false
       | Exited _ => False
       end.
Proof.
  induction rows as [|row rows IH]; [now eexists|].
  cbn [forEach forallb]. unfold Script.bind at 1.
  destruct (print_row row p) as (outcome & -> & Hrow).
  destruct outcome as [[]|e|c]; [| |contradiction]; rewrite Hrow.
  - exact IH.
  - eexists. split; reflexivity.
Qed.

(** X15. [env-variable-example/index.ts] on a service that accepts every
    call: the exit code is 0 when every row of the first query can be
    printed (converted to text) and the aggregation query has a first
    row that can be printed, and 1 otherwise: an empty aggregation
    result, a row without [created_at] or a value that cannot be
    converted to a string ends the script in [process.exit(1)]. *)
Theorem index_exit_code_follows_the_rows
        (env0 : gmap string string) (dataset : Sdk.Dataset) (table : Sdk.Table)
        (jobOf : string -> Sdk.Job) (rowsOf : Sdk.Job -> list js_value) :
  (forall ctx, Sdk.createDataset sdk ctx stubClient "test_dataset" = Return dataset) ->
  (forall ctx, Sdk.createTable sdk ctx dataset "test_table" envIndex_schema
               = Return table) ->
  (forall ctx, Sdk.insert sdk ctx table (envIndex_rows clock) = Return tt) ->
  (forall ctx query,
      Sdk.createQueryJob sdk ctx stubClient query = Return (jobOf query)) ->
  (forall ctx j, Sdk.getQueryResults sdk ctx j = Return (rowsOf j)) ->
  status' EnvIndex env0
  = if forallb printable (rowsOf (jobOf (envIndex_query dataset "test_table")))
       && summarised (first (rowsOf (jobOf (envIndex_aggregationQuery
                                              dataset "test_table"))))
    then 0 else 1.
Proof.
  intros Hdataset Htable Hinsert Hjob Hrows.
  unfold status, run, program, envIndex, envIndex_main, orExit1, envIndex_sequence.
  cbv zeta.
  match goal with |- context [forEach ?f] => set (print := f) end.
  unfold catchConflict, clearCredentials, defaultEmulatorHost, createDataset,
    createTable, insert, createQueryJob, getQueryResults,
    Script.tryCatch, Script.bind, Script.perform, Script.unsetenv, Script.setenv,
    Script.getenv, Script.dotenv_config, Script.ret.
  cbn [env journal entry].
  rewrite Hdataset, Htable, Hinsert, !Hjob, !Hrows.
  subst print.
  match goal with
  | |- context [forEach _ ?rows ?p] =>
      destruct (forEach_printable rows p) as (outcome & -> & Hprint)
  end.
  destruct outcome as [[]|e|c]; [| |contradiction]; rewrite Hprint;
    [|reflexivity].
  rewrite !Hjob, !Hrows. cbn [andb]. unfold summarised, convertible.
  destruct (first _) as [| | | | | |fields]; try reflexivity.
  cbn [getProp Script.eval].
  destruct (ToString (field "total" fields)); [|reflexivity].
  destruct (ToString (field "max_id" fields)); reflexivity.
Qed.

End Sequences.

End ScriptMore.

(* ================================================================== *)
(** * Recovery from a creation that fails *)
(* ================================================================== *)

Module RecoveryFacts.

Lemma appends_ret {A} (a : A) : appends (Script.ret a).
Proof. intros p. reflexivity. Qed.

Lemma appends_throw {A} (e : JsError.t) : appends (@Script.throw A e).
Proof. intros p. reflexivity. Qed.

Lemma appends_eval {A} (c : completion A) : appends (Script.eval c).
Proof. intros p. destruct c; reflexivity. Qed.

Lemma appends_perform {A} (f : Sdk.context -> completion A) (r : Sdk.request) :
  appends (Script.perform f r).
Proof.
  intros p. unfold Script.perform.
  destruct (f _); cbn; now apply prefix_app_r.
Qed.

Lemma appends_bind {A B} (m : Script.t A) (k : A -> Script.t B) :
  appends m -> (forall a, appends (k a)) -> appends (Script.bind m k).
Proof.
  intros Hm Hk p. unfold Script.bind. specialize (Hm p).
  destruct (m p) as [[a|e|c] p']; cbn in *; [|exact Hm|exact Hm].
  etransitivity; [exact Hm | apply Hk].
Qed.

Lemma appends_if {A} (b : bool) (m1 m2 : Script.t A) :
  appends m1 -> appends m2 -> appends (if b then m1 else m2).
Proof. now destruct b. Qed.

Lemma appends_forEach {A} (f : A -> Script.t unit) (l : list A) :
  (forall x, appends (f x)) -> appends (forEach f l).
Proof.
  intros Hf. induction l as [|x l IH]; cbn [forEach].
  - apply appends_ret.
  - apply appends_bind; [apply Hf | intros _; exact IH].
Qed.

Ltac append_step :=
  lazymatch goal with
  | |- appends (Script.bind _ _) => apply appends_bind; [|intros ?]
  | |- appends (Script.perform _ _) => apply appends_perform
  | |- appends (Script.eval _) => apply appends_eval
  | |- appends (Script.ret _) => apply appends_ret
  | |- appends (Script.throw _) => apply appends_throw
  | |- appends (forEach _ _) => apply appends_forEach; intros ?
  | |- appends (if _ then _ else _) => apply appends_if
  end.

Section Creation.
Local Open Scope script_scope.

Variable sdk : Sdk.backend.
Variable recover : JsError.t -> bool.
Variable bigquery : Sdk.BigQuery.
Variables datasetId tableId : string.
Variable schema : list Sdk.column.
Variable rows : list js_value.
Variable rest : Sdk.Dataset -> Sdk.Table -> Script.t unit.
Hypothesis rest_appends : forall d t, appends (rest d t).

(** The shape the three scripts share: the dataset, the table, the
    rows, and what follows. *)
#[local] Abbreviation steps :=
  (dataset <- Script.tryCatch
                (createDataset sdk bigquery datasetId)
                (fun err => if recover err
                            then Script.ret (Sdk.dataset bigquery datasetId)
                            else Script.throw err) ;;
   table <- Script.tryCatch
              (createTable sdk dataset tableId schema)
              (fun err => if recover err
                          then Script.ret (Sdk.table dataset tableId)
                          else Script.throw err) ;;
   insert sdk table rows ;;
   rest dataset table).

(** After a creation that failed with an error that is recovered
    from, the next call is made on the reference. *)
Lemma creation_recovered (p : Process) (i : nat) (entry : Entry) (e : JsError.t) :
  journal p = [] ->
  (i < 2)%nat ->
  journal (steps p).2 !! i = Some entry ->
  failure entry = Some e ->
  recover e = true ->
  exists next,
    journal (steps p).2 !! S i = Some next
    /\ request next = followUp tableId schema rows (request entry).
Proof.
  destruct p as [env0 j]. cbn [journal]. intros -> Hi.
  unfold Script.bind, Script.tryCatch, createDataset, createTable, insert,
    Script.perform, Script.ret, Script.throw, Script.note.
  cbn [env journal app].
  destruct (Sdk.createDataset sdk _ bigquery datasetId) as [d|e0];
    [|destruct (recover e0) eqn:Hr0];
    cbn [env journal app];
    try match goal with
        | |- context [Sdk.createTable sdk ?c ?d tableId schema] =>
            destruct (Sdk.createTable sdk c d tableId schema) as [t|e1];
            [|destruct (recover e1) eqn:Hr1]
        end;
    cbn [env journal app];
    try match goal with
        | |- context [Sdk.insert sdk ?c ?t rows] =>
            destruct (Sdk.insert sdk c t rows) as [[]|e2]
        end;
    cbn [env journal app];
    try match goal with
        | |- context [rest ?d ?t ?q] =>
            destruct (rest_appends d t q) as [k Hk]; rewrite Hk
        end;
    cbn [env journal app];
    intros Hentry Hfail Hrec;
    (destruct i as [|[|i]]; [| |lia]);
    cbn in Hentry; try discriminate Hentry; injection Hentry as <-;
    cbn in Hfail; try discriminate Hfail; injection Hfail as <-;
    try congruence;
    eexists; split; reflexivity.
Qed.

End Creation.
End RecoveryFacts.

(* ================================================================== *)
(** * The scripts recover from a creation that fails *)
(* ================================================================== *)

Section Recovery.
Import ScriptLogic ScriptInvariants RecoveryFacts.

Variable sdk : Sdk.backend.
Variable dotenvFile : gmap string string.
Variable clock : nat -> string.
Variable JSON_stringify : js_value -> string.

#[local] Abbreviation sequence' := (sequence sdk dotenvFile clock JSON_stringify).
#[local] Abbreviation run' := (run sdk dotenvFile clock JSON_stringify).
#[local] Abbreviation status' := (status sdk dotenvFile clock JSON_stringify).

Lemma run_journal (s : script) (env0 : gmap string string) :
  (run' s env0).2 = (sequence' s (mkProcess env0 [])).2.
Proof.
  rewrite run_sequence.
  destruct (sequence' s (mkProcess env0 [])) as [[[]|e|c] p]; reflexivity.
Qed.

(** In the three scripts that create a dataset and a table, the
    creations are the first two calls. *)
Lemma creations_come_first (s : script) (env0 : gmap string string)
      (i : nat) (entry : Entry) :
  creating s = true ->
  journal (run' s env0).2 !! i = Some entry ->
  Sdk.creates (request entry) = true ->
  (i < 2)%nat.
Proof.
  intros Hs Hentry Hcreates.
  assert (Hexit : hasExit1 s = true) by (destruct s; (discriminate || reflexivity)).
  destruct (ScriptMore.run_ends_like_sequence
              sdk dotenvFile clock JSON_stringify s env0 _ _
              (ScriptMore.sequence_planned sdk dotenvFile clock JSON_stringify s Hexit)
              eq_refl) as [n Hn].
  assert (Hkind : plan s !! i = Some (kindOf (request entry))).
  { assert (Hk : kinds (run' s env0).2 !! i = Some (kindOf (request entry))).
    { unfold kinds. now rewrite !list_lookup_fmap, Hentry. }
    rewrite Hn in Hk. now apply lookup_take_Some in Hk as [Hk _]. }
  destruct i as [|[|i]]; [lia | lia | exfalso].
  destruct s; try discriminate Hs; cbn in Hkind;
    do 5 (destruct i as [|i];
          [destruct (request entry); discriminate | cbn in Hkind]);
    discriminate Hkind.
Qed.

(** C5 (amended). In the three scripts that create a dataset and a
    table, when a creation has failed with [e]: if the script
    recovers from [e] (code 409 in the two [index.ts]; code 409 or a
    message that contains [already] in [simple-index.ts]) the script
    goes on, and its next call is made on the reference to the
    existing resource (the table is created in the referenced
    dataset, the rows are inserted into the referenced table); if it
    does not, [e] is thrown again: the failed creation is the last
    call of the run and the exit code is 1. *)
Theorem C5_conflict_is_recovered
        (s : script) (env0 : gmap string string)
        (i : nat) (entry : Entry) (e : JsError.t) :
  creating s = true ->
  journal (run' s env0).2 !! i = Some entry ->
  Sdk.creates (request entry) = true ->
  failure entry = Some e ->
  if recovers s (request entry) e
  then exists next,
         journal (run' s env0).2 !! S i = Some next
         /\ request next = proceeds clock JSON_stringify s (request entry)
  else S i = length (journal (run' s env0).2) /\ status' s env0 = 1.
Proof.
  intros Hs Hentry Hcreates Hfail.
  assert (Hexit : hasExit1 s = true) by (destruct s; (discriminate || reflexivity)).
  destruct (recovers s (request entry) e) eqn:Hrec.
  - assert (Hi := creations_come_first s env0 i entry Hs Hentry Hcreates).
    rewrite run_journal in *.
    destruct s; try discriminate Hs;
      unfold recovers in Hrec; rewrite Hcreates in Hrec; cbn [andb] in Hrec;
      unfold sequence in *;
      cbn -[envIndex_sequence simpleIndex_sequence overrideIndex_sequence] in *;
      unfold envIndex_sequence, simpleIndex_sequence, overrideIndex_sequence,
        catchConflict, tryExisting in *;
      cbv zeta in *;
      (eapply (creation_recovered sdk);
       [ | reflexivity | exact Hi | exact Hentry | exact Hfail | exact Hrec ]);
      intros d t; unfold createQueryJob, getQueryResults;
      repeat append_step.
  - assert (Hharm : harmless s entry = false)
      by (unfold harmless; now rewrite Hfail).
    split.
    + apply (ScriptMore.stopped_last s _ i entry); [|exact Hentry|exact Hharm].
      rewrite run_sequence.
      assert (Hseq := ScriptMore.sequence_stopped
                        sdk dotenvFile clock JSON_stringify s Hexit
                        (mkProcess env0 []) eq_refl).
      destruct (sequence' s (mkProcess env0 [])) as [[[]|e'|c] p];
        [now left | exact Hseq | contradiction].
    + rewrite status_sequence, Hexit. rewrite run_sequence in Hentry.
      assert (Hseq := sequence_settled sdk dotenvFile clock JSON_stringify
                                       s Hexit (mkProcess env0 []) eq_refl).
      destruct (sequence' s (mkProcess env0 [])) as [[[]|e'|c] p];
        [|reflexivity|reflexivity].
      exfalso. cbn in Hentry. unfold settled in Hseq.
      rewrite forallb_forall in Hseq.
      apply list_elem_of_lookup_2, list_elem_of_In in Hentry.
      rewrite (Hseq entry Hentry) in Hharm. discriminate.
Qed.

End Recovery.

Module RecoveryRuns.
Import SampleSdk.

(** [env-variable-example/index.ts] when the dataset exists already:
    the creation of the dataset fails with code 409, and the next
    call creates the table in [bigquery.dataset('test_dataset')]. *)
Lemma C5_witness :
  exists next,
    journal (run (rejecting datasets conflict) EnvIndex ∅).2 !! 1%nat = Some next
    /\ request next
       = Sdk.CreateTable (Sdk.dataset stubClient "test_dataset")
                         "test_table" envIndex_schema.
Proof.
  refine (C5_conflict_is_recovered
            (rejecting datasets conflict) ∅ clock JSON_stringify EnvIndex ∅ 0
            (mkEntry {[ "BIGQUERY_EMULATOR_HOST" := "http://127.0.0.1:9050" ]}
                     (Sdk.CreateDataset stubClient "test_dataset")
                     (Some conflict))
            conflict eq_refl _ eq_refl eq_refl).
  vm_compute. reflexivity.
Defined.

End RecoveryRuns.

(** Worked runs of the scripts. *)
Module MoreScriptRuns.
Import SampleSdk.

(** The default base URL. *)
Lemma apiEndpoint_is_the_base_without_scheme_witness :
  Sdk.apiEndpoint (overrideClient "http://127.0.0.1:9050") = Some "127.0.0.1:9050"
  /\ Sdk.apiEndpoint (overrideClient "https://127.0.0.1:9050") = Some "127.0.0.1:9050"
  /\ Sdk.apiEndpoint (overrideClient "127.0.0.1:9050") = Some "127.0.0.1:9050".
Proof.
  exact (apiEndpoint_is_the_base_without_scheme "127.0.0.1:9050" eq_refl eq_refl).
Defined.

(** [env-variable-example/test.ts], started with the variable set:
    the query is submitted with that value, not with the default. *)
Lemma emulator_host_at_every_call_witness :
  let env0 : gmap string string :=
    {[ "BIGQUERY_EMULATOR_HOST" := "http://emulator:9050" ]} in
  exists entry,
    journal (run (rejecting none refused) EnvTest env0).2 !! 0%nat = Some entry
    /\ env_at entry !! "BIGQUERY_EMULATOR_HOST" = Some "http://emulator:9050".
Proof.
  cbn zeta. eexists. split.
  - vm_compute. reflexivity.
  - refine (ScriptMore.emulator_host_at_every_call
              (rejecting none refused) ∅ clock JSON_stringify EnvTest
              {[ "BIGQUERY_EMULATOR_HOST" := "http://emulator:9050" ]} 0 _ _).
    vm_compute. reflexivity.
Defined.

(** The emulator is down when [env-variable-example/index.ts] runs:
    the creation of the dataset is the only call. *)
Lemma nothing_is_called_after_a_failure_witness :
  1%nat = length (journal (run (rejecting all refused) EnvIndex ∅).2).
Proof.
  refine (ScriptMore.nothing_is_called_after_a_failure
            (rejecting all refused) ∅ clock JSON_stringify EnvIndex ∅ 0 _
            eq_refl _ _);
    vm_compute; reflexivity.
Defined.

(** [simple-index.ts] on a service that accepts every call. *)
Lemma calls_follow_the_plan_witness :
  kinds (run (rejecting none refused) SimpleIndex ∅).2 `prefix_of` plan SimpleIndex.
Proof.
  exact (ScriptMore.calls_follow_the_plan
           (rejecting none refused) ∅ clock JSON_stringify SimpleIndex ∅ eq_refl).
Defined.

(** The query succeeds and returns no row: both tests exit with 1. *)
Lemma test_exit_code_follows_the_rows_witness :
  status emptyHanded EnvTest ∅ = 1 /\ status emptyHanded OverrideTest ∅ = 1.
Proof.
  exact (ScriptMore.test_exit_code_follows_the_rows
           emptyHanded ∅ clock JSON_stringify ∅ (Sdk.mkJob "job_1") []
           (fun _ _ _ => eq_refl) (fun _ => eq_refl)).
Defined.

(** Every call succeeds and the queries return no row: nothing is
    printed, the aggregate has no first row, the exit code is 1. *)
Lemma index_exit_code_follows_the_rows_witness :
  status emptyHanded EnvIndex ∅ = 1.
Proof.
  exact (ScriptMore.index_exit_code_follows_the_rows
           emptyHanded ∅ clock JSON_stringify ∅
           (Sdk.mkDataset "test_dataset")
           (Sdk.mkTable (Sdk.mkDataset "test_dataset") "test_table")
           (fun _ => Sdk.mkJob "job_1") (fun _ => [])
           (fun _ => eq_refl) (fun _ => eq_refl) (fun _ => eq_refl)
           (fun _ _ => eq_refl) (fun _ _ => eq_refl)).
Defined.

End MoreScriptRuns.
